(** * Alertmanager Monitor: the background poller, its helpers and the API client

    A shallow embedding of the service worker of the extension
    (updateBadge, pollAlerts, checkForNewAlerts, setupAlarm), of the helpers
    it calls in lib/utils.js (getBadgeColor, countActiveAlerts), of the
    storage wrapper in lib/storage.js and of the URL construction of
    lib/alertmanager-api.js.

    Conventions of the embedding.
    - A JavaScript value that may be [undefined] is an [option]; the
      optional chaining [a.labels?.severity] is [a.(labels) ≫= (.!! "severity")].
    - A JavaScript object used as a string-keyed dictionary (labels,
      annotations, chrome.storage.local, the alarms of the extension) is a
      [gmap string _].
    - JavaScript numbers that hold counts are [nat]; the poll interval and
      the delays of the alarm, which the code divides, are the doubles they
      are in JavaScript: the binary64 numbers [float] of the kernel, with
      their rounding.
    - [String.prototype.toUpperCase] follows the case mapping of Unicode,
      which is not computed here: it is a component of the state, and what
      is proved holds for any such function.
    - An [async] function is a computation [Async A] over the state of the
      browser: it returns or throws, and it leaves a new state in both cases.
      The calls that change something on the platform (the badge, the
      notifications, chrome.storage.local, the alarms) and the lines written
      to the console are recorded, oldest first, in the field [calls] of that
      state; the calls that only read (chrome.storage.sync.get,
      chrome.storage.local.get, chrome.runtime.getURL) are not.
    - The module constant DEFAULT_SETTINGS holds an array, [instances], that
      the code can change in place; what that array holds is a component of
      the state as well.
    - The platform calls (chrome.action, chrome.storage, chrome.alarms,
      chrome.notifications) are taken to succeed; the two network requests
      are answered by the environment ([World]) and may fail. *)

From Stdlib Require Import String Ascii List ZArith QArith Qabs Lia.
From Stdlib Require Import PrimFloat SpecFloat FloatOps Uint63.
From stdpp Require Import base option list gmap strings pretty.

Local Open Scope string_scope.
Local Open Scope list_scope.

(** ** JavaScript helpers *)

Module JS.

(** [v || d] for a [v] that is a string or [undefined]: the empty string
    and [undefined] are falsy. *)
Definition or_default (v : option string) (d : string) : string :=
  match v with
  | Some EmptyString => d
  | Some s => s
  | None => d
  end.

(** Whether a string-or-undefined value is truthy. *)
Definition truthy (v : option string) : bool :=
  match v with
  | Some (String _ _) => true
  | _ => false
  end.

(** [v === s] for a [v] that is a string or [undefined]. *)
Definition strict_eq (v : option string) (s : string) : bool :=
  match v with
  | Some x => String.eqb x s
  | None => false
  end.

(** The upper case of a string of ASCII characters. It is what
    [String.prototype.toUpperCase] answers on such strings, and on those
    only; it stands for that function in the sample states, the labels of
    which are ASCII. *)
Definition upper_ascii (c : ascii) : ascii :=
  let n := nat_of_ascii c in
  if (97 <=? n)%nat && (n <=? 122)%nat then ascii_of_nat (n - 32) else c.

Fixpoint ascii_toUpperCase (s : string) : string :=
  match s with
  | EmptyString => EmptyString
  | String c r => String (upper_ascii c) (ascii_toUpperCase r)
  end.

(** [String(n)] for a non-negative integer [n]: its decimal digits. *)
Definition String_of_nat (n : nat) : string := pretty n.

(** [String(b)] for a boolean. *)
Definition String_of_bool (b : bool) : string :=
  if b then "true" else "false".

(** [Array.prototype.includes] on an array of strings. *)
Definition includes (l : list string) (x : string) : bool :=
  existsb (String.eqb x) l.

(** [Math.max(a, b)] of two numbers: [NaN] when one of them is, and
    otherwise the larger, +0 being larger than -0. *)
Definition Math_max (a b : float) : float :=
  match (a ?= b)%float with
  | FLt => b
  | FGt => a
  | FEq => if PrimFloat.is_zero a && PrimFloat.get_sign a then b else a
  | FNotComparable => PrimFloat.nan
  end.

(** The double of an integer from 0 to 2^53, which holds it exactly. *)
Definition Number_of_Z (z : Z) : float := PrimFloat.of_uint63 (Uint63.of_Z z).

End JS.

(** ** Data model *)

(** [alert.status]; only [state] is read by the code modelled here. *)
Record Status := {
  state : option string;
  silencedBy : list string;
  inhibitedBy : list string;
}.

(** An alert as the Alertmanager API returns it. [fingerprint] is always
    present in the API's answer; the code guards the other fields with
    optional chaining, so they may be absent. *)
Record Alert := {
  fingerprint : string;
  labels : option (gmap string string);
  annotations : option (gmap string string);
  status : option Status;
}.

(** [a.status?.state === 'active'] *)
Definition state_is_active (a : Alert) : bool :=
  JS.strict_eq (status a ≫= state) "active".

(** [a.labels?.severity] *)
Definition label_severity (a : Alert) : option string :=
  labels a ≫= (.!! "severity").

(** ** lib/utils.js *)

Module Utils.

Definition green : string := "#4ade80".
Definition red : string := "#dc2626".
Definition amber : string := "#d97706".
Definition blue : string := "#2563eb".

(** [getBadgeColor(alerts)]; [None] is an [alerts] that is [null] or
    [undefined]. *)
Definition getBadgeColor (alerts : option (list Alert)) : string :=
  match alerts with
  | None => green
  | Some [] => green
  | Some l =>
      let hasCritical :=
        existsb (fun a => JS.strict_eq (label_severity a) "critical"
                          && state_is_active a) l in
      let hasWarning :=
        existsb (fun a => JS.strict_eq (label_severity a) "warning"
                          && state_is_active a) l in
      if hasCritical then red
      else if hasWarning then amber
      else blue
  end.

(** [countActiveAlerts(alerts)] *)
Definition countActiveAlerts (alerts : list Alert) : nat :=
  length (List.filter state_is_active alerts).

(** [s.replace(/c/g, by)] for a pattern that is the one character [c]. *)
Fixpoint replace_all (c : ascii) (by_ : string) (s : string) : string :=
  match s with
  | EmptyString => EmptyString
  | String x r =>
      if Ascii.eqb x c then by_ +:+ replace_all c by_ r
      else String x (replace_all c by_ r)
  end.

(** The double quote, character 34. *)
Definition double_quote : ascii := "034"%char.

(** [escapeHtml(str)], for a [str] that is a string; the empty string is
    falsy. *)
Definition escapeHtml (str : string) : string :=
  match str with
  | EmptyString => EmptyString
  | _ =>
      replace_all "'" "&#39;"
        (replace_all double_quote "&quot;"
           (replace_all ">" "&gt;"
              (replace_all "<" "&lt;"
                 (replace_all "&" "&amp;" str))))
  end.

Section CodeUnits.

(** A JavaScript string as the list of its UTF-16 code units, of which the
    ellipsis U+2026 is one. *)
Variable U : Type.
Variable ellipsis : U.

(** [truncate(str, max)] for an integer [max]; [substring(0, max)] of a
    longer string takes [max] code units, and none for a negative [max]. *)
Definition truncate (str : list U) (max : Z) : list U :=
  match str with
  | [] => []
  | _ =>
      if (Z.of_nat (length str) <=? max)%Z then str
      else take (Z.to_nat max) str ++ [ellipsis]
  end.

End CodeUnits.

End Utils.

(** ** Settings and instances (lib/storage.js) *)

(** An AlertmanagerInstance of the settings. *)
Record Instance := {
  inst_id : string;
  inst_name : string;
  url : string;
  authType : string;
  username : option string;
  password : option string;
  token : option string;
}.

(** [filter.filter]: absent, one matcher, or an array of matchers. *)
Inductive Matchers :=
| matchers_undefined
| matchers_string (s : string)
| matchers_array (l : list string).

(** The filter object of [getAlerts]; a flag left out is [undefined]. *)
Record Filter := {
  active : option bool;
  silenced : option bool;
  inhibited : option bool;
  unprocessed : option bool;
  filter_matchers : Matchers;
  receiver : option string;
}.

Record Settings := {
  instances : list Instance;
  activeInstanceId : option string;      (* [None] is [null] *)
  pollInterval : float;                  (* seconds *)
  enableNotifications : bool;
  enableBadge : bool;
  theme : string;
  defaultFilter : Filter;
}.

(** The object stored under 'settings' in chrome.storage.sync: any key may
    be missing. *)
Record StoredSettings := {
  stored_instances : option (list Instance);
  stored_activeInstanceId : option (option string);
  stored_pollInterval : option float;
  stored_enableNotifications : option bool;
  stored_enableBadge : option bool;
  stored_theme : option string;
  stored_defaultFilter : option Filter;
}.

Definition DEFAULT_SETTINGS : Settings := {|
  instances := [];
  activeInstanceId := None;
  pollInterval := 30%float;
  enableNotifications := true;
  enableBadge := true;
  theme := "light";
  defaultFilter := {|
    active := Some true;
    silenced := Some true;
    inhibited := Some true;
    unprocessed := Some true;
    filter_matchers := matchers_undefined;
    receiver := None;
  |};
|}.

(** [{ ...d, ...s }] *)
Definition spread (d : Settings) (s : option StoredSettings) : Settings :=
  match s with
  | None => d
  | Some s => {|
      instances := default (instances d) (stored_instances s);
      activeInstanceId := default (activeInstanceId d) (stored_activeInstanceId s);
      pollInterval := default (pollInterval d) (stored_pollInterval s);
      enableNotifications := default (enableNotifications d) (stored_enableNotifications s);
      enableBadge := default (enableBadge d) (stored_enableBadge s);
      theme := default (theme d) (stored_theme s);
      defaultFilter := default (defaultFilter d) (stored_defaultFilter s);
    |}
  end.

(** A silence as the API returns it. *)
Record Silence := {
  silence_id : string;
  silence_state : option string;
  comment : string;
  createdBy : string;
}.

(** ** The state of the browser *)

(** What the worker keeps in chrome.storage.local: the two caches, with
    their timestamp, and the known fingerprints. *)
Inductive StoredValue :=
| stored_alerts (alerts : list Alert) (timestamp : Z)
| stored_silences (silences : list Silence) (timestamp : Z)
| stored_fingerprints (fingerprints : list string).

Record Badge := {
  badgeText : string;
  badgeBackgroundColor : string;
  badgeTextColor : string;
}.

Record NotificationOptions := {
  type : string;
  iconUrl : string;
  title : string;
  message : string;
  priority : Z;
}.

Record AlarmInfo := {
  delayInMinutes : float;
  periodInMinutes : float;
}.

(** The calls that change the state of the platform, and those on the
    console. The calls that only read it (chrome.storage.sync.get,
    chrome.storage.local.get, chrome.runtime.getURL) have no constructor:
    a list of calls says what was written, not what was read. *)
Inductive Call :=
| call_action_setBadgeText (text : string)
| call_action_setBadgeBackgroundColor (color : string)
| call_action_setBadgeTextColor (color : string)
| call_notifications_create (notificationId : string) (options : NotificationOptions)
| call_storage_local_set (key : string) (value : StoredValue)
| call_alarms_clear (alarmName : string)
| call_alarms_create (alarmName : string) (info : AlarmInfo)
| call_console_error (prefix : string) (detail : string).

(** The state of the browser the worker reads and writes, with the calls
    made so far, oldest first. [toUpperCase] is [String.prototype.toUpperCase]
    of the engine. [default_instances] is what the array
    [DEFAULT_SETTINGS.instances] of the running script holds: empty when the
    script is loaded, and changed where the code changes in place the
    [instances] of a settings object that has it from the defaults. *)
Record Chrome := {
  extensionId : string;
  toUpperCase : string -> string;
  default_instances : list Instance;
  storage_sync_settings : option StoredSettings;
  storage_local : gmap string StoredValue;
  badge : Badge;
  alarms : gmap string AlarmInfo;
  calls : list Call;
}.

(** How an [await] ends: with a value, or with a thrown error, of which the
    message is kept. *)
Inductive Outcome (A : Type) :=
| Returned (a : A)
| Thrown (err : string).
Arguments Returned {A} a.
Arguments Thrown {A} err.

(** The answers of the environment during one poll cycle: those of the two
    requests of the API client, and the values [Date.now()] has when the
    two caches are written. *)
Record World := {
  getAlerts_answer : Instance -> Filter -> Outcome (list Alert);
  getSilences_answer : Instance -> Outcome (list Silence);
  now_cacheAlerts : Z;
  now_cacheSilences : Z;
}.

(** ** Asynchronous computations *)

Definition Async (A : Type) : Type := Chrome -> Outcome A * Chrome.

Definition ret {A} (a : A) : Async A := fun c => (Returned a, c).

Definition bind {A B} (m : Async A) (k : A -> Async B) : Async B :=
  fun c =>
    match m c with
    | (Returned a, c') => k a c'
    | (Thrown err, c') => (Thrown err, c')
    end.

(** [try { body } catch (err) { handler }] *)
Definition try_catch {A} (body : Async A) (handler : string -> Async A) : Async A :=
  fun c =>
    match body c with
    | (Returned a, c') => (Returned a, c')
    | (Thrown err, c') => handler err c'
    end.

Declare Scope async_scope.
Delimit Scope async_scope with async.
Notation "'let*' x ':=' m 'in' k" := (bind m (fun x => k))
  (at level 10, x pattern, m at level 100, k at level 200) : async_scope.
Notation "m ';;' k" := (bind m (fun _ => k))
  (at level 100, k at level 200, right associativity) : async_scope.
Local Open Scope async_scope.

(** [for (const x of l) { body x }] *)
Fixpoint for_of {A} (l : list A) (body : A -> Async unit) : Async unit :=
  match l with
  | [] => ret tt
  | x :: r => body x;; for_of r body
  end.

(** The final state of a computation, and the calls it recorded on the
    way: those that write, see [Call]. *)
Definition exec {A} (m : Async A) (c : Chrome) : Chrome := snd (m c).
Definition result {A} (m : Async A) (c : Chrome) : Outcome A := fst (m c).
Definition calls_of {A} (m : Async A) (c : Chrome) : list Call :=
  drop (length (calls c)) (calls (exec m c)).

(** ** The platform *)

Definition with_call (k : Call) (c : Chrome) : Chrome := {|
  extensionId := extensionId c;
  toUpperCase := toUpperCase c;
  default_instances := default_instances c;
  storage_sync_settings := storage_sync_settings c;
  storage_local := storage_local c;
  badge := badge c;
  alarms := alarms c;
  calls := calls c ++ [k];
|}.

Definition with_badge (b : Badge) (c : Chrome) : Chrome := {|
  extensionId := extensionId c;
  toUpperCase := toUpperCase c;
  default_instances := default_instances c;
  storage_sync_settings := storage_sync_settings c;
  storage_local := storage_local c;
  badge := b;
  alarms := alarms c;
  calls := calls c;
|}.

Definition with_storage_local (m : gmap string StoredValue) (c : Chrome) : Chrome := {|
  extensionId := extensionId c;
  toUpperCase := toUpperCase c;
  default_instances := default_instances c;
  storage_sync_settings := storage_sync_settings c;
  storage_local := m;
  badge := badge c;
  alarms := alarms c;
  calls := calls c;
|}.

Definition with_alarms (m : gmap string AlarmInfo) (c : Chrome) : Chrome := {|
  extensionId := extensionId c;
  toUpperCase := toUpperCase c;
  default_instances := default_instances c;
  storage_sync_settings := storage_sync_settings c;
  storage_local := storage_local c;
  badge := badge c;
  alarms := m;
  calls := calls c;
|}.

(** [chrome.action.setBadgeText({ text })] *)
Definition chrome_action_setBadgeText (text : string) : Async unit :=
  fun c =>
    let b := {| badgeText := text;
                badgeBackgroundColor := badgeBackgroundColor (badge c);
                badgeTextColor := badgeTextColor (badge c) |} in
    (Returned tt, with_call (call_action_setBadgeText text) (with_badge b c)).

(** [chrome.action.setBadgeBackgroundColor({ color })] *)
Definition chrome_action_setBadgeBackgroundColor (color : string) : Async unit :=
  fun c =>
    let b := {| badgeText := badgeText (badge c);
                badgeBackgroundColor := color;
                badgeTextColor := badgeTextColor (badge c) |} in
    (Returned tt, with_call (call_action_setBadgeBackgroundColor color) (with_badge b c)).

(** [chrome.action.setBadgeTextColor({ color })] *)
Definition chrome_action_setBadgeTextColor (color : string) : Async unit :=
  fun c =>
    let b := {| badgeText := badgeText (badge c);
                badgeBackgroundColor := badgeBackgroundColor (badge c);
                badgeTextColor := color |} in
    (Returned tt, with_call (call_action_setBadgeTextColor color) (with_badge b c)).

(** [chrome.runtime.getURL(path)] *)
Definition chrome_runtime_getURL (path : string) : Async string :=
  fun c => (Returned ("chrome-extension://" +:+ extensionId c +:+ "/" +:+ path), c).

(** [chrome.notifications.create(id, options)] *)
Definition chrome_notifications_create (id : string) (options : NotificationOptions)
  : Async unit :=
  fun c => (Returned tt, with_call (call_notifications_create id options) c).

(** [chrome.storage.sync.get('settings')]: the stored object, if any. *)
Definition chrome_storage_sync_get_settings : Async (option StoredSettings) :=
  fun c => (Returned (storage_sync_settings c), c).

(** [chrome.storage.local.get(key)], read at [key]. *)
Definition chrome_storage_local_get (key : string) : Async (option StoredValue) :=
  fun c => (Returned (storage_local c !! key), c).

(** [chrome.storage.local.set({ [key]: value })] *)
Definition chrome_storage_local_set (key : string) (value : StoredValue) : Async unit :=
  fun c =>
    (Returned tt,
     with_call (call_storage_local_set key value)
       (with_storage_local (<[key := value]> (storage_local c)) c)).

(** [chrome.alarms.clear(name)] *)
Definition chrome_alarms_clear (name : string) : Async unit :=
  fun c =>
    (Returned tt,
     with_call (call_alarms_clear name) (with_alarms (delete name (alarms c)) c)).

(** [chrome.alarms.create(name, info)]: an alarm of the same name is
    replaced. *)
Definition chrome_alarms_create (name : string) (info : AlarmInfo) : Async unit :=
  fun c =>
    (Returned tt,
     with_call (call_alarms_create name info) (with_alarms (<[name := info]> (alarms c)) c)).

(** [console.error(prefix, detail)] *)
Definition console_error (prefix detail : string) : Async unit :=
  fun c => (Returned tt, with_call (call_console_error prefix detail) c).

Definition with_storage_sync_settings (v : option StoredSettings) (c : Chrome)
  : Chrome := {|
  extensionId := extensionId c;
  toUpperCase := toUpperCase c;
  default_instances := default_instances c;
  storage_sync_settings := v;
  storage_local := storage_local c;
  badge := badge c;
  alarms := alarms c;
  calls := calls c;
|}.

(** [chrome.storage.sync.set({ settings })]; it is the pages of the
    extension that call it, not the worker, and it is not listed in
    [calls]. *)
Definition chrome_storage_sync_set_settings (settings : StoredSettings) : Async unit :=
  fun c => (Returned tt, with_storage_sync_settings (Some settings) c).

Definition with_default_instances (l : list Instance) (c : Chrome) : Chrome := {|
  extensionId := extensionId c;
  toUpperCase := toUpperCase c;
  default_instances := l;
  storage_sync_settings := storage_sync_settings c;
  storage_local := storage_local c;
  badge := badge c;
  alarms := alarms c;
  calls := calls c;
|}.

(** [s.toUpperCase()] *)
Definition String_toUpperCase (s : string) : Async string :=
  fun c => (Returned (toUpperCase c s), c).

(** The [updates] of [updateInstance]: an instance of which any key may be
    missing. *)
Record InstanceUpdates := {
  updates_id : option string;
  updates_name : option string;
  updates_url : option string;
  updates_authType : option string;
  updates_username : option string;
  updates_password : option string;
  updates_token : option string;
}.

(** [{ ...instance, ...updates }] *)
Definition spread_instance (instance : Instance) (updates : InstanceUpdates)
  : Instance := {|
  inst_id := default (inst_id instance) (updates_id updates);
  inst_name := default (inst_name instance) (updates_name updates);
  url := default (url instance) (updates_url updates);
  authType := default (authType instance) (updates_authType updates);
  username := match updates_username updates with
              | Some v => Some v
              | None => username instance
              end;
  password := match updates_password updates with
              | Some v => Some v
              | None => password instance
              end;
  token := match updates_token updates with
           | Some v => Some v
           | None => token instance
           end;
|}.

(** A settings object with all its keys, as [saveSettings] stores it. *)
Definition stored_of (s : Settings) : StoredSettings := {|
  stored_instances := Some (instances s);
  stored_activeInstanceId := Some (activeInstanceId s);
  stored_pollInterval := Some (pollInterval s);
  stored_enableNotifications := Some (enableNotifications s);
  stored_enableBadge := Some (enableBadge s);
  stored_theme := Some (theme s);
  stored_defaultFilter := Some (defaultFilter s);
|}.

Definition with_instances (l : list Instance) (s : Settings) : Settings := {|
  instances := l;
  activeInstanceId := activeInstanceId s;
  pollInterval := pollInterval s;
  enableNotifications := enableNotifications s;
  enableBadge := enableBadge s;
  theme := theme s;
  defaultFilter := defaultFilter s;
|}.

Definition with_activeInstanceId (a : option string) (s : Settings) : Settings := {|
  instances := instances s;
  activeInstanceId := a;
  pollInterval := pollInterval s;
  enableNotifications := enableNotifications s;
  enableBadge := enableBadge s;
  theme := theme s;
  defaultFilter := defaultFilter s;
|}.

(** [array.findIndex(pred)], [None] for -1. *)
Fixpoint findIndex {A} (pred : A -> bool) (l : list A) : option nat :=
  match l with
  | [] => None
  | x :: r => if pred x then Some 0%nat else S <$> findIndex pred r
  end.

(** ** lib/storage.js *)

Module Storage.

(** The object DEFAULT_SETTINGS as a script reads it: its [instances] is
    the array of the state, the other keys are never assigned. *)
Definition read_DEFAULT_SETTINGS : Async Settings :=
  fun c => (Returned (with_instances (default_instances c) DEFAULT_SETTINGS), c).

(** [{ ...DEFAULT_SETTINGS, ...data.settings }]: a copy of the keys, not of
    what they hold. *)
Definition getSettings : Async Settings :=
  let* data := chrome_storage_sync_get_settings in
  let* defaults := read_DEFAULT_SETTINGS in
  ret (spread defaults data).

(** A change in place of the array [settings.instances] of the settings
    [getSettings] has just returned. The array is that of DEFAULT_SETTINGS
    when the stored object has no [instances] of its own, and the change
    is then one of the defaults of the script; the array is otherwise the
    one chrome.storage.sync.get has built, which nothing else holds. *)
Definition change_instances_in_place (f : list Instance -> list Instance) : Async unit :=
  fun c =>
    match storage_sync_settings c ≫= stored_instances with
    | Some _ => (Returned tt, c)
    | None => (Returned tt, with_default_instances (f (default_instances c)) c)
    end.

Definition getActiveInstance : Async (option Instance) :=
  let* settings := getSettings in
  match activeInstanceId settings with
  | None => ret None
  | Some EmptyString => ret None
  | Some activeId =>
      ret (List.find (fun i => String.eqb (inst_id i) activeId) (instances settings))
  end.

Definition alerts_key (instanceId : string) : string := "alerts_" +:+ instanceId.
Definition silences_key (instanceId : string) : string := "silences_" +:+ instanceId.
Definition fingerprints_key (instanceId : string) : string :=
  "fingerprints_" +:+ instanceId.

Definition cacheAlerts (now : Z) (instanceId : string) (alerts : list Alert)
  : Async unit :=
  chrome_storage_local_set (alerts_key instanceId) (stored_alerts alerts now).

Definition cacheSilences (now : Z) (instanceId : string) (silences : list Silence)
  : Async unit :=
  chrome_storage_local_set (silences_key instanceId) (stored_silences silences now).

Definition setKnownFingerprints (instanceId : string) (fingerprints : list string)
  : Async unit :=
  chrome_storage_local_set (fingerprints_key instanceId)
    (stored_fingerprints fingerprints).

(** [data[key] || []]; only [setKnownFingerprints] writes under a key
    that starts with fingerprints_, so a value found there is an array
    of fingerprints. *)
Definition getKnownFingerprints (instanceId : string) : Async (list string) :=
  let* data := chrome_storage_local_get (fingerprints_key instanceId) in
  match data with
  | Some (stored_fingerprints l) => ret l
  | _ => ret []
  end.

(** [saveSettings(partial)] *)
Definition saveSettings (partial : StoredSettings) : Async unit :=
  let* current := getSettings in
  let merged := spread current (Some partial) in
  chrome_storage_sync_set_settings (stored_of merged).

(** [getInstances()] *)
Definition getInstances : Async (list Instance) :=
  let* settings := getSettings in
  ret (instances settings).

(** [addInstance(instance)]; [uuid] is what [crypto.randomUUID()] would
    return, and an instance without id has the empty id. *)
Definition addInstance (uuid : string) (instance : Instance) : Async unit :=
  let* settings := getSettings in
  let instance :=
    {| inst_id := match inst_id instance with
                  | EmptyString => uuid
                  | i => i
                  end;
       inst_name := inst_name instance;
       url := url instance;
       authType := authType instance;
       username := username instance;
       password := password instance;
       token := token instance |} in
  (* settings.instances.push(instance) *)
  change_instances_in_place (fun l => l ++ [instance]);;
  let settings := with_instances (instances settings ++ [instance]) settings in
  let settings :=
    match activeInstanceId settings with
    | None | Some EmptyString => with_activeInstanceId (Some (inst_id instance)) settings
    | Some _ => settings
    end in
  saveSettings (stored_of settings).

(** [updateInstance(id, updates)] *)
Definition updateInstance (id : string) (updates : InstanceUpdates) : Async unit :=
  let* settings := getSettings in
  match findIndex (fun i => String.eqb (inst_id i) id) (instances settings) with
  | Some idx =>
      (* settings.instances[idx] = { ...settings.instances[idx], ...updates } *)
      change_instances_in_place (alter (fun i => spread_instance i updates) idx);;
      let settings :=
        with_instances
          (alter (fun i => spread_instance i updates) idx (instances settings))
          settings in
      saveSettings (stored_of settings)
  | None => ret tt
  end.

(** [removeInstance(id)] *)
Definition removeInstance (id : string) : Async unit :=
  let* settings := getSettings in
  let settings :=
    with_instances
      (List.filter (fun i => negb (String.eqb (inst_id i) id)) (instances settings))
      settings in
  let settings :=
    if JS.strict_eq (activeInstanceId settings) id then
      with_activeInstanceId
        match instances settings with
        | [] => None
        | first :: _ =>
            match inst_id first with
            | EmptyString => None
            | i => Some i
            end
        end
        settings
    else settings in
  saveSettings (stored_of settings).

(** [setActiveInstance(id)] *)
Definition setActiveInstance (id : string) : Async unit :=
  saveSettings {|
    stored_instances := None;
    stored_activeInstanceId := Some (Some id);
    stored_pollInterval := None;
    stored_enableNotifications := None;
    stored_enableBadge := None;
    stored_theme := None;
    stored_defaultFilter := None;
  |}.

(** [getCachedAlerts(instanceId)]: [data[key] || null]; only [cacheAlerts]
    writes under a key that starts with alerts_. *)
Definition getCachedAlerts (instanceId : string) : Async (option (list Alert * Z)) :=
  let* data := chrome_storage_local_get (alerts_key instanceId) in
  match data with
  | Some (stored_alerts alerts timestamp) => ret (Some (alerts, timestamp))
  | _ => ret None
  end.

(** [getCachedSilences(instanceId)] *)
Definition getCachedSilences (instanceId : string)
  : Async (option (list Silence * Z)) :=
  let* data := chrome_storage_local_get (silences_key instanceId) in
  match data with
  | Some (stored_silences silences timestamp) => ret (Some (silences, timestamp))
  | _ => ret None
  end.

End Storage.

(** ** lib/utils.js, the functions over lists of alerts *)

Module AlertLists.

(** [v === false] for a flag of a filter. *)
Definition is_false (v : option bool) : bool :=
  match v with
  | Some false => true
  | _ => false
  end.

(** The predicate of [filterByState]; an absent [silencedBy] or
    [inhibitedBy] has no length greater than 0, as an empty one. *)
Definition keeps (stateFilter : Filter) (alert : Alert) : bool :=
  let state := status alert ≫= state in
  if JS.strict_eq state "active" && is_false (active stateFilter) then false
  else if JS.strict_eq state "suppressed"
          && (let isSilenced :=
                (0 <? length (from_option silencedBy [] (status alert)))%nat in
              let isInhibited :=
                (0 <? length (from_option inhibitedBy [] (status alert)))%nat in
              (isSilenced && is_false (silenced stateFilter))
              || (isInhibited && is_false (inhibited stateFilter)))
  then false
  else if JS.strict_eq state "unprocessed" && is_false (unprocessed stateFilter)
  then false
  else true.

(** [filterByState(alerts, stateFilter)] *)
Definition filterByState (alerts : list Alert) (stateFilter : Filter) : list Alert :=
  List.filter (keeps stateFilter) alerts.

(** The names every object inherits from [Object.prototype]; read on the
    empty object [{}], each gives a function, or the prototype itself for
    __proto__: a truthy value without [push]. *)
Definition Object_prototype_names : list string :=
  [ "constructor"; "__defineGetter__"; "__defineSetter__"; "hasOwnProperty";
    "__lookupGetter__"; "__lookupSetter__"; "isPrototypeOf";
    "propertyIsEnumerable"; "toString"; "valueOf"; "__proto__";
    "toLocaleString" ].

(** [alert.labels?.[groupBy] || 'Unknown'], for a [groupBy] that is not
    itself one of [Object_prototype_names]. *)
Definition group_key (groupBy : string) (alert : Alert) : string :=
  JS.or_default (labels alert ≫= (.!! groupBy)) "Unknown".

(** One round of the [forEach] of [groupAlerts]:
    [if (!groups[key]) groups[key] = []; groups[key].push(alert)]. *)
Definition group_step (groupBy : string) (groups : gmap string (list Alert))
    (alert : Alert) : Outcome (gmap string (list Alert)) :=
  let key := group_key groupBy alert in
  match groups !! key with
  | Some group => Returned (<[key := group ++ [alert]]> groups)
  | None =>
      if JS.includes Object_prototype_names key
      then Thrown "groups[key].push is not a function"
      else Returned (<[key := [alert]]> groups)
  end.

Fixpoint group_from (groupBy : string) (groups : gmap string (list Alert))
    (alerts : list Alert) : Outcome (gmap string (list Alert)) :=
  match alerts with
  | [] => Returned groups
  | alert :: rest =>
      match group_step groupBy groups alert with
      | Returned groups' => group_from groupBy groups' rest
      | Thrown err => Thrown err
      end
  end.

(** [groupAlerts(alerts, groupBy)]; the object returned is read as a map,
    the order of its keys is left out. *)
Definition groupAlerts (alerts : list Alert) (groupBy : string)
  : Outcome (gmap string (list Alert)) :=
  group_from groupBy ∅ alerts.

End AlertLists.

(** ** lib/alertmanager-api.js *)

(** A parsed URL, as far as the client touches it: the query parameters,
    in order, and the rest of the URL. *)
Record URL := {
  url_without_query : string;
  searchParams : list (string * string);
}.

Module URLSearchParams.

(** [searchParams.append(name, value)] *)
Definition append (name value : string) (l : list (string * string))
  : list (string * string) :=
  l ++ [(name, value)].

(** [searchParams.set(name, value)]: the first pair of that name takes
    the value and the later ones are removed; with no such pair, the
    pair is appended. *)
Fixpoint set (name value : string) (l : list (string * string))
  : list (string * string) :=
  match l with
  | [] => [(name, value)]
  | (k, v) :: r =>
      if String.eqb k name
      then (name, value) :: List.filter (fun p => negb (String.eqb (fst p) name)) r
      else (k, v) :: set name value r
  end.

End URLSearchParams.

Module AlertmanagerAPI.

(** Does the whole of [s] match [\/+$]: one slash or more, up to the end
    of the input. *)
Fixpoint slashes_to_end (s : string) : bool :=
  match s with
  | EmptyString => false
  | String c EmptyString => Ascii.eqb c "/"
  | String c r => Ascii.eqb c "/" && slashes_to_end r
  end.

(** [url.replace(/\/+$/, '')]: the regular expression is tried at each
    position from the left; where it matches, the match runs to the end
    of the input and is replaced by the empty string. *)
Fixpoint _normalizeUrl (url : string) : string :=
  match url with
  | EmptyString => EmptyString
  | String c r =>
      if slashes_to_end url then EmptyString else String c (_normalizeUrl r)
  end.

Section Client.

(** The URL class of the platform: [new URL(s)], which throws on an
    [s] that is not an absolute URL, and [url.toString()]. *)
Variable URL_parse : string -> option URL.
Variable URL_toString : URL -> string.

(** The URL that [getAlerts(instance, filter)] hands to [_fetch]. *)
Definition getAlerts_url (instance : Instance) (filter : Filter) : Outcome string :=
  let baseUrl := _normalizeUrl (url instance) in
  match URL_parse (baseUrl +:+ "/api/v2/alerts") with
  | None => Thrown "Invalid URL"
  | Some u =>
      let params :=
        [ ("active", default true (active filter));
          ("silenced", default true (silenced filter));
          ("inhibited", default true (inhibited filter));
          ("unprocessed", default true (unprocessed filter)) ] in
      let sp :=
        fold_left
          (fun sp kv => URLSearchParams.set (fst kv) (JS.String_of_bool (snd kv)) sp)
          params (searchParams u) in
      let sp :=
        match filter_matchers filter with
        | matchers_undefined => sp
        | matchers_string EmptyString => sp
        | matchers_string f => URLSearchParams.append "filter" f sp
        | matchers_array filters =>
            fold_left (fun sp f => URLSearchParams.append "filter" f sp) filters sp
        end in
      let sp :=
        match receiver filter with
        | Some (String _ _ as r) => URLSearchParams.set "receiver" r sp
        | _ => sp
        end in
      Returned (URL_toString {| url_without_query := url_without_query u;
                                searchParams := sp |})
  end.

(** The URL that [getSilences(instance, filterParam)] hands to [_fetch]. *)
Definition getSilences_url (instance : Instance) (filterParam : Matchers)
  : Outcome string :=
  let baseUrl := _normalizeUrl (url instance) in
  match URL_parse (baseUrl +:+ "/api/v2/silences") with
  | None => Thrown "Invalid URL"
  | Some u =>
      let sp :=
        match filterParam with
        | matchers_undefined => searchParams u
        | matchers_string EmptyString => searchParams u
        | matchers_string f => URLSearchParams.append "filter" f (searchParams u)
        | matchers_array filters =>
            fold_left (fun sp f => URLSearchParams.append "filter" f sp) filters
              (searchParams u)
        end in
      Returned (URL_toString {| url_without_query := url_without_query u;
                                searchParams := sp |})
  end.

End Client.

(** The URL that [getStatus(instance)] hands to [_fetch]. *)
Definition getStatus_url (instance : Instance) : string :=
  _normalizeUrl (url instance) +:+ "/api/v2/status".

Section Headers.

(** [btoa] of the platform, which throws on a character above 255. *)
Variable btoa : string -> Outcome string.

(** [_buildHeaders(instance)] *)
Definition _buildHeaders (instance : Instance) : Outcome (gmap string string) :=
  let headers : gmap string string :=
    <["Content-Type" := "application/json"]> (<["Accept" := "application/json"]> ∅) in
  if String.eqb (authType instance) "basic" && JS.truthy (username instance) then
    match btoa (JS.or_default (username instance) "" +:+ ":"
                +:+ JS.or_default (password instance) "") with
    | Returned encoded => Returned (<["Authorization" := "Basic " +:+ encoded]> headers)
    | Thrown err => Thrown err
    end
  else if String.eqb (authType instance) "bearer" && JS.truthy (token instance) then
    Returned (<["Authorization" := "Bearer " +:+ JS.or_default (token instance) ""]>
                headers)
  else Returned headers.

End Headers.

(** In a poll cycle the outcome of the two requests is the
    environment's. *)
Definition getAlerts (w : World) (instance : Instance) (filter : Filter)
  : Async (list Alert) :=
  fun c => (getAlerts_answer w instance filter, c).

Definition getSilences (w : World) (instance : Instance) : Async (list Silence) :=
  fun c => (getSilences_answer w instance, c).

End AlertmanagerAPI.

(** ** The service worker *)

Definition ALARM_NAME : string := "alertmanager-poll".
Definition NOTIFICATION_ID_PREFIX : string := "am-alert-".

Definition updateBadge (alerts : list Alert) (enabled : bool) : Async unit :=
  if negb enabled then
    chrome_action_setBadgeText ""
  else
    let activeCount := Utils.countActiveAlerts alerts in
    let text := if (0 <? activeCount)%nat then JS.String_of_nat activeCount else "" in
    let color := Utils.getBadgeColor (Some alerts) in
    chrome_action_setBadgeText text;;
    chrome_action_setBadgeBackgroundColor color;;
    chrome_action_setBadgeTextColor "#FFFFFF".

(** The options of the notification of one new alert; [upper] is what
    [severity.toUpperCase()] gives. *)
Definition alert_notification (icon upper : string) (alert : Alert)
  : NotificationOptions :=
  let severity := JS.or_default (label_severity alert) "unknown" in
  let alertname := JS.or_default (labels alert ≫= (.!! "alertname")) "Alert" in
  let summary := JS.or_default (annotations alert ≫= (.!! "summary")) "New alert fired" in
  {| type := "basic";
     iconUrl := icon;
     title := "[" +:+ upper +:+ "] " +:+ alertname;
     message := summary;
     priority := if String.eqb severity "critical" then 2 else 1 |}.

(** The options of the summary notification. *)
Definition batch_notification (icon : string) (count : nat) : NotificationOptions :=
  {| type := "basic";
     iconUrl := icon;
     title := "Alertmanager Monitor";
     message := JS.String_of_nat count +:+ " new alerts detected";
     priority := 1 |}.

(** [alerts.filter(a => a.status?.state === 'active' &&
                         !knownFingerprints.includes(a.fingerprint))] *)
Definition new_alerts (knownFingerprints : list string) (alerts : list Alert)
  : list Alert :=
  List.filter
    (fun a => state_is_active a && negb (JS.includes knownFingerprints (fingerprint a)))
    alerts.

Definition checkForNewAlerts (instanceId : string) (alerts : list Alert) : Async unit :=
  let* knownFingerprints := Storage.getKnownFingerprints instanceId in
  let currentFingerprints := map fingerprint alerts in
  let newAlerts := new_alerts knownFingerprints alerts in
  (if (0 <? length newAlerts)%nat && (0 <? length knownFingerprints)%nat then
     for_of (take 5 newAlerts) (fun alert =>
       let* icon := chrome_runtime_getURL "icons/icon128.png" in
       let* upper :=
         String_toUpperCase (JS.or_default (label_severity alert) "unknown") in
       chrome_notifications_create (NOTIFICATION_ID_PREFIX +:+ fingerprint alert)
         (alert_notification icon upper alert));;
     if (5 <? length newAlerts)%nat then
       let* icon := chrome_runtime_getURL "icons/icon128.png" in
       chrome_notifications_create (NOTIFICATION_ID_PREFIX +:+ "batch")
         (batch_notification icon (length newAlerts))
     else ret tt
   else ret tt);;
  Storage.setKnownFingerprints instanceId currentFingerprints.

Definition pollAlerts (w : World) : Async unit :=
  let* instance := Storage.getActiveInstance in
  match instance with
  | None => chrome_action_setBadgeText ""
  | Some instance =>
      let* settings :=
        try_catch
          (let* s := Storage.getSettings in ret (Some s))
          (fun err =>
             console_error "[Alertmanager Monitor] Failed to read settings:" err;;
             ret None) in
      match settings with
      | None => ret tt
      | Some settings =>
          let* alerts :=
            try_catch
              (let* alerts := AlertmanagerAPI.getAlerts w instance (defaultFilter settings) in
               Storage.cacheAlerts (now_cacheAlerts w) (inst_id instance) alerts;;
               ret (Some alerts))
              (fun err =>
                 console_error "[Alertmanager Monitor] Poll failed:" err;;
                 chrome_action_setBadgeText "!";;
                 chrome_action_setBadgeBackgroundColor "#6b7280";;
                 chrome_action_setBadgeTextColor "#FFFFFF";;
                 ret None) in
          match alerts with
          | None => ret tt
          | Some alerts =>
              try_catch
                (updateBadge alerts (enableBadge settings))
                (fun err => console_error "[Alertmanager Monitor] Badge update failed:" err);;
              (if enableNotifications settings then
                 try_catch
                   (checkForNewAlerts (inst_id instance) alerts)
                   (fun err =>
                      console_error "[Alertmanager Monitor] Notification check failed:" err)
               else ret tt);;
              try_catch
                (let* silences := AlertmanagerAPI.getSilences w instance in
                 Storage.cacheSilences (now_cacheSilences w) (inst_id instance) silences)
                (fun err => console_error "[Alertmanager Monitor] Silences fetch failed:" err)
          end
      end
  end.

(** The number the literal 0.1 denotes: the double nearest to one tenth. *)
Definition one_tenth : float := 0x1.999999999999ap-4%float.

Definition setupAlarm : Async unit :=
  let* settings := Storage.getSettings in
  let intervalMinutes := JS.Math_max (pollInterval settings / 60)%float 0.5%float in
  chrome_alarms_clear ALARM_NAME;;
  chrome_alarms_create ALARM_NAME
    {| delayInMinutes := one_tenth; periodInMinutes := intervalMinutes |}.

(** ** Observations on a state and on a list of calls *)

(** The settings [Storage.getSettings] reads in a state. *)
Definition settings_of (c : Chrome) : Settings :=
  spread (with_instances (default_instances c) DEFAULT_SETTINGS)
    (storage_sync_settings c).

(** The notifications created by a list of calls, in order. *)
Definition created (k : Call) : option (string * NotificationOptions) :=
  match k with
  | call_notifications_create id options => Some (id, options)
  | _ => None
  end.

Definition notifications_in (l : list Call) : list (string * NotificationOptions) :=
  omap created l.

(** The writes of a fingerprint array to chrome.storage.local by a list of
    calls, in order. *)
Definition fingerprints_written (k : Call) : option (string * list string) :=
  match k with
  | call_storage_local_set key (stored_fingerprints l) => Some (key, l)
  | _ => None
  end.

Definition fingerprint_writes_in (l : list Call) : list (string * list string) :=
  omap fingerprints_written l.

(** The icon every notification carries. *)
Definition icon_of (c : Chrome) : string :=
  "chrome-extension://" +:+ extensionId c +:+ "/" +:+ "icons/icon128.png".

(** The notification of one new alert, and the summary, as (id, options). *)
Definition individual (c : Chrome) (alert : Alert) : string * NotificationOptions :=
  (NOTIFICATION_ID_PREFIX +:+ fingerprint alert,
   alert_notification (icon_of c)
     (toUpperCase c (JS.or_default (label_severity alert) "unknown")) alert).

Definition batch (c : Chrome) (count : nat) : string * NotificationOptions :=
  (NOTIFICATION_ID_PREFIX +:+ "batch", batch_notification (icon_of c) count).

(** The calls [checkForNewAlerts] makes before it stores the fingerprints. *)
Definition notification_calls (c : Chrome) (known : list string) (alerts : list Alert)
  : list Call :=
  let newAlerts := new_alerts known alerts in
  if (0 <? length newAlerts)%nat && (0 <? length known)%nat then
    map (fun a => call_notifications_create (fst (individual c a)) (snd (individual c a)))
      (take 5 newAlerts)
    ++ (if (5 <? length newAlerts)%nat
        then [call_notifications_create (fst (batch c (length newAlerts)))
                (snd (batch c (length newAlerts)))]
        else [])
  else [].

(** The notifications [checkForNewAlerts] creates, as a function of the
    stored fingerprints and of the fetched alerts. *)
Definition expected_notifications (c : Chrome) (known : list string) (alerts : list Alert)
  : list (string * NotificationOptions) :=
  let newAlerts := new_alerts known alerts in
  if (0 <? length newAlerts)%nat && (0 <? length known)%nat then
    map (individual c) (take 5 newAlerts)
    ++ (if (5 <? length newAlerts)%nat then [batch c (length newAlerts)] else [])
  else [].

(** The badge [updateBadge] leaves, and the calls it makes. *)
Definition badge_text (alerts : list Alert) : string :=
  if (0 <? Utils.countActiveAlerts alerts)%nat
  then JS.String_of_nat (Utils.countActiveAlerts alerts)
  else "".

Definition badge_after (alerts : list Alert) (enabled : bool) (b : Badge) : Badge :=
  if enabled then
    {| badgeText := badge_text alerts;
       badgeBackgroundColor := Utils.getBadgeColor (Some alerts);
       badgeTextColor := "#FFFFFF" |}
  else
    {| badgeText := "";
       badgeBackgroundColor := badgeBackgroundColor b;
       badgeTextColor := badgeTextColor b |}.

Definition badge_calls (alerts : list Alert) (enabled : bool) : list Call :=
  if enabled then
    [ call_action_setBadgeText (badge_text alerts);
      call_action_setBadgeBackgroundColor (Utils.getBadgeColor (Some alerts));
      call_action_setBadgeTextColor "#FFFFFF" ]
  else [ call_action_setBadgeText "" ].

(** The last stage of a poll cycle: the silences are fetched and cached. *)
Definition silences_entry (w : World) (instance : Instance)
    (m : gmap string StoredValue) : gmap string StoredValue :=
  match getSilences_answer w instance with
  | Returned silences =>
      <[Storage.silences_key (inst_id instance) :=
          stored_silences silences (now_cacheSilences w)]> m
  | Thrown _ => m
  end.

Definition silences_calls (w : World) (instance : Instance) : list Call :=
  match getSilences_answer w instance with
  | Returned silences =>
      [ call_storage_local_set (Storage.silences_key (inst_id instance))
          (stored_silences silences (now_cacheSilences w)) ]
  | Thrown err =>
      [ call_console_error "[Alertmanager Monitor] Silences fetch failed:" err ]
  end.

(** The state a poll cycle leaves when its fetch of the alerts succeeds. *)
Definition after_fetch (w : World) (instance : Instance) (alerts : list Alert)
    (c : Chrome) : Chrome :=
  let settings := settings_of c in
  let c1 := exec (Storage.cacheAlerts (now_cacheAlerts w) (inst_id instance) alerts) c in
  let c2 := exec (updateBadge alerts (enableBadge settings)) c1 in
  let c3 := if enableNotifications settings
            then exec (checkForNewAlerts (inst_id instance) alerts) c2
            else c2 in
  {| extensionId := extensionId c3;
     toUpperCase := toUpperCase c3;
     default_instances := default_instances c3;
     storage_sync_settings := storage_sync_settings c3;
     storage_local := silences_entry w instance (storage_local c3);
     badge := badge c3;
     alarms := alarms c3;
     calls := calls c3 ++ silences_calls w instance |}.

(** The state a poll cycle leaves when its fetch of the alerts fails. *)
Definition degraded_badge : Badge :=
  {| badgeText := "!"; badgeBackgroundColor := "#6b7280"; badgeTextColor := "#FFFFFF" |}.

Definition degraded_calls (err : string) : list Call :=
  [ call_console_error "[Alertmanager Monitor] Poll failed:" err;
    call_action_setBadgeText "!";
    call_action_setBadgeBackgroundColor "#6b7280";
    call_action_setBadgeTextColor "#FFFFFF" ].

(** The calls of a poll cycle whose fetch succeeds, stage by stage. *)
Definition check_calls (w : World) (instance : Instance) (alerts : list Alert)
    (c : Chrome) : list Call :=
  if enableNotifications (settings_of c) then
    calls_of (checkForNewAlerts (inst_id instance) alerts)
      (exec (updateBadge alerts (enableBadge (settings_of c)))
         (exec (Storage.cacheAlerts (now_cacheAlerts w) (inst_id instance) alerts) c))
  else [].

(** ** A running example: one instance, three alerts *)

Module Scenario.

Definition prom : Instance := {|
  inst_id := "prom";
  inst_name := "Production";
  url := "http://localhost:9093/";
  authType := "none";
  username := None;
  password := None;
  token := None;
|}.

Definition firing : Status :=
  {| state := Some "active"; silencedBy := []; inhibitedBy := [] |}.

Definition muted : Status :=
  {| state := Some "suppressed"; silencedBy := ["s1"]; inhibitedBy := [] |}.

Definition alert (fp severity alertname : string) (st : Status) : Alert := {|
  fingerprint := fp;
  labels := Some (<["severity" := severity]> (<["alertname" := alertname]> ∅));
  annotations := Some (<["summary" := alertname +:+ " is firing"]> ∅);
  status := Some st;
|}.

Definition fp1 : Alert := alert "fp1" "critical" "DiskFull" firing.
Definition fp2 : Alert := alert "fp2" "warning" "HighLoad" firing.
Definition fp3 : Alert := alert "fp3" "info" "CertExpiry" firing.

(** An active alert whose summary annotation is the empty string. *)
Definition blank : Alert := {|
  fingerprint := "fp4";
  labels := Some (<["severity" := "warning"]> (<["alertname" := "Quiet"]> ∅));
  annotations := Some (<["summary" := ""]> ∅);
  status := Some firing;
|}.

(** Six alerts that fire at once. *)
Definition burst : list Alert :=
  [ alert "b1" "critical" "NodeDown" firing;
    alert "b2" "warning" "NodeDown" firing;
    alert "b3" "warning" "NodeDown" firing;
    alert "b4" "info" "NodeDown" firing;
    alert "b5" "critical" "NodeDown" firing;
    alert "b6" "warning" "NodeDown" firing ].

Definition stored : StoredSettings := {|
  stored_instances := Some [prom];
  stored_activeInstanceId := Some (Some "prom");
  stored_pollInterval := Some 60%float;
  stored_enableNotifications := None;
  stored_enableBadge := None;
  stored_theme := None;
  stored_defaultFilter := None;
|}.

(** The browser after installation and configuration, before any poll. *)
Definition fresh : Chrome := {|
  extensionId := "abcdefghijklmnop";
  toUpperCase := JS.ascii_toUpperCase;
  default_instances := [];
  storage_sync_settings := Some stored;
  storage_local := ∅;
  badge := {| badgeText := ""; badgeBackgroundColor := ""; badgeTextColor := "" |};
  alarms := ∅;
  calls := [];
|}.

(** An environment whose Alertmanager answers with [alerts]. *)
Definition answering (alerts : list Alert) : World := {|
  getAlerts_answer := fun _ _ => Returned alerts;
  getSilences_answer := fun _ => Returned [];
  now_cacheAlerts := 1700000000000;
  now_cacheSilences := 1700000000250;
|}.

(** An environment whose Alertmanager cannot be reached. *)
Definition unreachable : World := {|
  getAlerts_answer := fun _ _ => Thrown "Failed to fetch";
  getSilences_answer := fun _ => Thrown "Failed to fetch";
  now_cacheAlerts := 1700000030000;
  now_cacheSilences := 1700000030250;
|}.

(** The browser after a first poll that fetched [fp1] and [fp2]. *)
Definition polled : Chrome := exec (pollAlerts (answering [fp1; fp2])) fresh.

(** The same browser once the user has turned the notifications off. *)
Definition quiet : Chrome := {|
  extensionId := extensionId polled;
  toUpperCase := toUpperCase polled;
  default_instances := default_instances polled;
  storage_sync_settings := Some {|
    stored_instances := Some [prom];
    stored_activeInstanceId := Some (Some "prom");
    stored_pollInterval := Some 60%float;
    stored_enableNotifications := Some false;
    stored_enableBadge := None;
    stored_theme := None;
    stored_defaultFilter := None;
  |};
  storage_local := storage_local polled;
  badge := badge polled;
  alarms := alarms polled;
  calls := calls polled;
|}.

(** A stand-in for the URL class, for urls that carry no query and need
    no escaping: the query is joined with & after a question mark. *)
Definition parse_plain (s : string) : option URL :=
  Some {| url_without_query := s; searchParams := [] |}.

Fixpoint render_query (l : list (string * string)) : string :=
  match l with
  | [] => ""
  | [(k, v)] => k +:+ "=" +:+ v
  | (k, v) :: r => k +:+ "=" +:+ v +:+ "&" +:+ render_query r
  end.

Definition render_plain (u : URL) : string :=
  match searchParams u with
  | [] => url_without_query u
  | l => url_without_query u +:+ "?" +:+ render_query l
  end.

End Scenario.

(** Some active alert of [alerts] carries the severity label [severity]. *)
Definition has_active (severity : string) (alerts : list Alert) : Prop :=
  ∃ a, In a alerts ∧ label_severity a = Some severity ∧ state_is_active a = true.

(** The same, said with the fields of the alert rather than with the tests
    of the code: some alert of [alerts] is in the state "active" and has
    the label severity = [severity]. *)
Definition some_active (severity : string) (alerts : list Alert) : Prop :=
  ∃ a, In a alerts
       ∧ labels a ≫= (.!! "severity") = Some severity
       ∧ status a ≫= state = Some "active".

(** The number of alerts of a list that are in the state "active". *)
Definition active_count (alerts : list Alert) : nat :=
  length (filter (λ a, status a ≫= state = Some "active") alerts).

(** The alarm [setupAlarm] creates for the settings of a state. *)
Definition poll_alarm (c : Chrome) : AlarmInfo :=
  {| delayInMinutes := one_tenth;
     periodInMinutes :=
       JS.Math_max (pollInterval (settings_of c) / 60)%float 0.5%float |}.

(** The number a double holds, for one that holds a number: neither [NaN]
    nor an infinity. *)
Definition exact (x : float) : option Q :=
  match Prim2SF x with
  | S754_zero _ => Some 0%Q
  | S754_finite s m e =>
      let v := (inject_Z (Z.pos m) * 2 ^ e)%Q in
      Some (if s then (- v)%Q else v)
  | S754_infinity _ | S754_nan => None
  end.

(** The period [setupAlarm] asks for, in minutes, for an interval of [v]
    whole seconds. *)
Definition period_of_seconds (v : Z) : float :=
  JS.Math_max (JS.Number_of_Z v / 60)%float 0.5%float.

(** 2^-44 *)
Definition rounding_bound : Q := 1 # 17592186044416.

(** For an interval of [v] whole seconds: how the quotient compares with
    0.5, and how far the period, taken back to seconds, is from the larger
    of [v] and 30. *)
Definition period_checked (v : Z) : bool :=
  match (JS.Number_of_Z v / 60 ?= 0.5)%float with
  | FLt => (v <? 30)%Z
  | FEq => (v =? 30)%Z
  | FGt => (30 <? v)%Z
  | FNotComparable => false
  end
  && match exact (period_of_seconds v) with
     | Some q => Qle_bool (Qabs (q * 60 - inject_Z (Z.max v 30))) rounding_bound
     | None => false
     end.

(** Whether that period is a number from half a minute to five minutes. *)
Definition period_bounded (v : Z) : bool :=
  match exact (period_of_seconds v) with
  | Some q => Qle_bool (1 # 2) q && Qle_bool q 5
  | None => false
  end.

(** The whole numbers of seconds the settings page and the import store:
    10 to 300. *)
Definition stored_intervals : list Z := map Z.of_nat (seq 10 291).

(** [n] slashes. *)
Fixpoint slashes (n : nat) : string :=
  match n with
  | O => ""
  | S n => String "/" (slashes n)
  end.

(** [instance], with another url. *)
Definition with_url (u : string) (instance : Instance) : Instance := {|
  inst_id := inst_id instance;
  inst_name := inst_name instance;
  url := u;
  authType := authType instance;
  username := username instance;
  password := password instance;
  token := token instance;
|}.

(** ** Observations on the escaping of markup *)

(** What [escapeHtml] writes for one character. *)
Definition escape_char (c : ascii) : string :=
  if Ascii.eqb c "&" then "&amp;"
  else if Ascii.eqb c "<" then "&lt;"
  else if Ascii.eqb c ">" then "&gt;"
  else if Ascii.eqb c Utils.double_quote then "&quot;"
  else if Ascii.eqb c "'" then "&#39;"
  else String c "".

Fixpoint escape_each (s : string) : string :=
  match s with
  | EmptyString => EmptyString
  | String c r => escape_char c +:+ escape_each r
  end.

(** Whether the character [c] occurs in [s]. *)
Fixpoint occurs (c : ascii) (s : string) : bool :=
  match s with
  | EmptyString => false
  | String x r => Ascii.eqb x c || occurs c r
  end.

(** The characters that open or close a tag or an attribute value. *)
Definition markup_chars : list ascii := ["<"; ">"; Utils.double_quote; "'"]%char.

(** What follows the ampersand in the five entities. *)
Definition entity_tails : list string := ["amp;"; "lt;"; "gt;"; "quot;"; "#39;"].

(** The characters [escapeHtml] replaces. *)
Definition escaped_chars : list ascii :=
  ["&"; "<"; ">"; Utils.double_quote; "'"]%char.

(** ** Observations on the lists of alerts *)

(** The filter that hides what [f] hides and what [g] hides. *)
Definition both_flags (a b : option bool) : option bool :=
  if AlertLists.is_false a || AlertLists.is_false b then Some false else Some true.

Definition both_filters (f g : Filter) : Filter := {|
  active := both_flags (active f) (active g);
  silenced := both_flags (silenced f) (silenced g);
  inhibited := both_flags (inhibited f) (inhibited g);
  unprocessed := both_flags (unprocessed f) (unprocessed g);
  filter_matchers := filter_matchers f;
  receiver := receiver f;
|}.

(** The filter object of the popup, which has no flag for the unprocessed
    alerts. *)
Definition popup_filter (showActive showSilenced showInhibited : bool) : Filter := {|
  active := Some showActive;
  silenced := Some showSilenced;
  inhibited := Some showInhibited;
  unprocessed := None;
  filter_matchers := matchers_undefined;
  receiver := None;
|}.

(** The alerts of [alerts] whose group is [key], in order; no group when
    there is none. *)
Definition group_of (groupBy key : string) (alerts : list Alert) : option (list Alert) :=
  match List.filter (fun a => String.eqb (AlertLists.group_key groupBy a) key) alerts with
  | [] => None
  | group => Some group
  end.

(** Whether the group of an alert is named like a property every object
    inherits. *)
Definition inherited_key (groupBy : string) (alert : Alert) : bool :=
  JS.includes AlertLists.Object_prototype_names (AlertLists.group_key groupBy alert).

(** ** Observations on the stored settings *)

(** The active instance id names an instance: [getActiveInstance] finds
    one unless the id is [null]. *)
Definition active_valid (s : Settings) : Prop :=
  match activeInstanceId s with
  | None => True
  | Some a => a ≠ "" ∧ ∃ i, In i (instances s) ∧ inst_id i = a
  end.

(** [instance], with the id [addInstance] gives it. *)
Definition with_new_id (uuid : string) (instance : Instance) : Instance := {|
  inst_id := match inst_id instance with
             | EmptyString => uuid
             | i => i
             end;
  inst_name := inst_name instance;
  url := url instance;
  authType := authType instance;
  username := username instance;
  password := password instance;
  token := token instance;
|}.

(** The id of the first instance of a list, [null] without one. *)
Definition first_id (l : list Instance) : option string :=
  match l with
  | [] => None
  | first :: _ =>
      match inst_id first with
      | EmptyString => None
      | i => Some i
      end
  end.

(** The updates the form of the options page passes when an instance is
    switched to no authentication: no key for the credentials. *)
Definition to_no_auth (id name url : string) : InstanceUpdates := {|
  updates_id := Some id;
  updates_name := Some name;
  updates_url := Some url;
  updates_authType := Some "none";
  updates_username := None;
  updates_password := None;
  updates_token := None;
|}.

(** ** Observations on the requests of the client *)

(** The values a query holds under a name, in order. *)
Definition values_of (name : string) (sp : list (string * string)) : list string :=
  map snd (List.filter (fun p => String.eqb (fst p) name) sp).

(** The matchers of a filter, as the list [getAlerts] appends. *)
Definition matchers_list (m : Matchers) : list string :=
  match m with
  | matchers_undefined => []
  | matchers_string EmptyString => []
  | matchers_string f => [f]
  | matchers_array filters => filters
  end.

(** The credentials [_buildHeaders] encodes for the basic scheme. *)
Definition basic_credentials (instance : Instance) : string :=
  JS.or_default (username instance) "" +:+ ":" +:+ JS.or_default (password instance) "".

(** ** Observations on successive poll cycles *)

(** The environment [w], but with a silences request that fails. *)
Definition without_silences (err : string) (w : World) : World := {|
  getAlerts_answer := getAlerts_answer w;
  getSilences_answer := fun _ => Thrown err;
  now_cacheAlerts := now_cacheAlerts w;
  now_cacheSilences := now_cacheSilences w;
|}.

(** ** Observations on the settings page *)

(** [Math.min(300, Math.max(10, parseInt(value, 10) || 30))] of the options
    page, for what [parseInt] returns: an integer, or [NaN] as [None]. *)
Definition clamp_pollInterval (parsed : option Z) : Z :=
  let n := match parsed with
           | None => 30
           | Some 0 => 30
           | Some n => n
           end%Z in
  Z.min 300 (Z.max 10 n).

(** The object the options page passes to [Storage.saveSettings]. *)
Definition options_settings (parsed : option Z) (enableBadge enableNotifications : bool)
    (defActive defSilenced defInhibited defUnprocessed : bool) : StoredSettings := {|
  stored_instances := None;
  stored_activeInstanceId := None;
  stored_pollInterval := Some (JS.Number_of_Z (clamp_pollInterval parsed));
  stored_enableNotifications := Some enableNotifications;
  stored_enableBadge := Some enableBadge;
  stored_theme := None;
  stored_defaultFilter := Some {|
    active := Some defActive;
    silenced := Some defSilenced;
    inhibited := Some defInhibited;
    unprocessed := Some defUnprocessed;
    filter_matchers := matchers_undefined;
    receiver := None;
  |};
|}.

(** ** More sample data *)

Module Samples.

(** A browser in which nothing was configured. *)
Definition unconfigured : Chrome := {|
  extensionId := "abcdefghijklmnop";
  toUpperCase := JS.ascii_toUpperCase;
  default_instances := [];
  storage_sync_settings := None;
  storage_local := ∅;
  badge := {| badgeText := "7"; badgeBackgroundColor := "#dc2626";
              badgeTextColor := "#FFFFFF" |};
  alarms := ∅;
  calls := [];
|}.


(** A second instance, with basic authentication. *)
Definition staging : Instance := {|
  inst_id := "";
  inst_name := "Staging";
  url := "https://am.staging.example//";
  authType := "basic";
  username := Some "ops";
  password := Some "s3cret";
  token := Some "left-over";
|}.

(** The alert [fp2], suppressed by a silence. *)
Definition fp2_muted : Alert := Scenario.alert "fp2" "warning" "HighLoad" Scenario.muted.

(** An alert named like a property of [Object.prototype]. *)
Definition odd : Alert := Scenario.alert "fp5" "info" "constructor" Scenario.firing.

(** A stand-in for [btoa], which only marks what it would encode. *)
Definition tagged (s : string) : Outcome string :=
  Returned ("base64(" +:+ s +:+ ")").

End Samples.

(** ** How the computations run *)

Lemma getSettings_run (c : Chrome) :
  Storage.getSettings c = (Returned (settings_of c), c).
Proof. reflexivity. Qed.

Lemma getKnownFingerprints_run (instanceId : string) (c : Chrome) :
  ∃ known, Storage.getKnownFingerprints instanceId c = (Returned known, c).
Proof.
  unfold Storage.getKnownFingerprints, bind, chrome_storage_local_get.
  destruct (storage_local c !! Storage.fingerprints_key instanceId) as [[]|];
    eauto.
Qed.

Lemma getActiveInstance_run (c : Chrome) :
  ∃ instance, Storage.getActiveInstance c = (Returned instance, c).
Proof.
  unfold Storage.getActiveInstance, bind. rewrite getSettings_run.
  destruct (activeInstanceId (settings_of c)) as [[]|]; eauto.
Qed.

(** The loop over the new alerts only adds its calls, one per alert. *)
Lemma for_of_notifications (l : list Alert) (c : Chrome) :
  for_of l (fun alert =>
    let* icon := chrome_runtime_getURL "icons/icon128.png" in
    let* upper :=
      String_toUpperCase (JS.or_default (label_severity alert) "unknown") in
    chrome_notifications_create (NOTIFICATION_ID_PREFIX +:+ fingerprint alert)
      (alert_notification icon upper alert)) c
  = (Returned tt,
     {| extensionId := extensionId c;
        toUpperCase := toUpperCase c;
        default_instances := default_instances c;
        storage_sync_settings := storage_sync_settings c;
        storage_local := storage_local c;
        badge := badge c;
        alarms := alarms c;
        calls := calls c ++
                 map (fun a => call_notifications_create (fst (individual c a))
                                 (snd (individual c a))) l |}).
Proof.
  revert c. induction l as [|a l IH]; intros c.
  - destruct c; simpl. by rewrite app_nil_r.
  - cbn [for_of]. unfold bind at 1. unfold bind at 1. unfold bind at 1.
    unfold chrome_runtime_getURL, String_toUpperCase, chrome_notifications_create.
    rewrite IH. destruct c; simpl. by rewrite <- app_assoc.
Qed.

Lemma checkForNewAlerts_run (instanceId : string) (alerts : list Alert) (c : Chrome)
    (known : list string) :
  Storage.getKnownFingerprints instanceId c = (Returned known, c) →
  checkForNewAlerts instanceId alerts c
  = (Returned tt,
     {| extensionId := extensionId c;
        toUpperCase := toUpperCase c;
        default_instances := default_instances c;
        storage_sync_settings := storage_sync_settings c;
        storage_local :=
          <[Storage.fingerprints_key instanceId :=
              stored_fingerprints (map fingerprint alerts)]> (storage_local c);
        badge := badge c;
        alarms := alarms c;
        calls := calls c ++ notification_calls c known alerts ++
                 [call_storage_local_set (Storage.fingerprints_key instanceId)
                    (stored_fingerprints (map fingerprint alerts))] |}).
Proof.
  intros Hk. unfold checkForNewAlerts, notification_calls.
  unfold bind at 1. rewrite Hk. unfold bind at 1.
  destruct ((0 <? length (new_alerts known alerts))%nat
            && (0 <? length known)%nat).
  - unfold bind at 1. rewrite for_of_notifications.
    destruct (5 <? length (new_alerts known alerts))%nat;
      unfold bind, ret, Storage.setKnownFingerprints, chrome_storage_local_set,
        chrome_runtime_getURL, chrome_notifications_create, with_call,
        with_storage_local, batch, individual, icon_of;
      cbn [extensionId toUpperCase default_instances storage_sync_settings
           storage_local badge alarms calls fst snd];
      rewrite <- ?app_assoc, ?app_nil_l; reflexivity.
  - unfold ret, Storage.setKnownFingerprints, chrome_storage_local_set, with_call,
      with_storage_local.
    cbn [extensionId toUpperCase default_instances storage_sync_settings
         storage_local badge alarms calls].
    reflexivity.
Qed.

(** A computation surely runs to its result and its final state. *)
Lemma run_eq {A} (m : Async A) (c : Chrome) : m c = (result m c, exec m c).
Proof. unfold result, exec. by destruct (m c). Qed.

Lemma calls_of_app {A} (m : Async A) (c : Chrome) (l : list Call) :
  calls (exec m c) = calls c ++ l → calls_of m c = l.
Proof. intros H. unfold calls_of. rewrite H. apply drop_app_length. Qed.

Lemma getKnownFingerprints_after_set (instanceId : string) (fps : list string)
    (c : Chrome) :
  storage_local c !! Storage.fingerprints_key instanceId = Some (stored_fingerprints fps) →
  result (Storage.getKnownFingerprints instanceId) c = Returned fps.
Proof.
  intros H. unfold result, Storage.getKnownFingerprints, bind, chrome_storage_local_get.
  by rewrite H.
Qed.

Lemma getKnownFingerprints_result_run (instanceId : string) (c : Chrome)
    (known : list string) :
  result (Storage.getKnownFingerprints instanceId) c = Returned known →
  Storage.getKnownFingerprints instanceId c = (Returned known, c).
Proof.
  intros H. destruct (getKnownFingerprints_run instanceId c) as [k Hk].
  unfold result in H. rewrite Hk in H. simpl in H. by rewrite Hk, H.
Qed.

(** The stored fingerprints depend on the entry of the instance only. *)
Lemma getKnownFingerprints_same_entry (instanceId : string) (c c' : Chrome) :
  storage_local c' !! Storage.fingerprints_key instanceId
  = storage_local c !! Storage.fingerprints_key instanceId →
  result (Storage.getKnownFingerprints instanceId) c'
  = result (Storage.getKnownFingerprints instanceId) c.
Proof.
  intros H. unfold result, Storage.getKnownFingerprints, bind, chrome_storage_local_get.
  rewrite H. by destruct (storage_local c !! _) as [[]|].
Qed.

Lemma notifications_in_individuals (c : Chrome) (l : list Alert) :
  notifications_in
    (map (fun a => call_notifications_create (fst (individual c a))
                     (snd (individual c a))) l)
  = map (individual c) l.
Proof.
  unfold notifications_in. induction l as [|a l IH]; [done|].
  cbn [map omap list_omap created]. by rewrite <- IH.
Qed.

Lemma fingerprint_writes_in_individuals (c : Chrome) (l : list Alert) :
  fingerprint_writes_in
    (map (fun a => call_notifications_create (fst (individual c a))
                     (snd (individual c a))) l)
  = [].
Proof. unfold fingerprint_writes_in. by induction l. Qed.

Lemma notifications_in_notification_calls (c : Chrome) (known : list string)
    (alerts : list Alert) :
  notifications_in (notification_calls c known alerts)
  = expected_notifications c known alerts.
Proof.
  unfold notification_calls, expected_notifications.
  destruct (_ && _); [|done].
  unfold notifications_in at 1. rewrite omap_app.
  fold (notifications_in
          (map (fun a => call_notifications_create (fst (individual c a))
                           (snd (individual c a)))
             (take 5 (new_alerts known alerts)))).
  rewrite notifications_in_individuals.
  by destruct (5 <? _)%nat.
Qed.

Lemma fingerprint_writes_in_notification_calls (c : Chrome) (known : list string)
    (alerts : list Alert) :
  fingerprint_writes_in (notification_calls c known alerts) = [].
Proof.
  unfold notification_calls.
  destruct (_ && _); [|done].
  unfold fingerprint_writes_in at 1. rewrite omap_app.
  fold (fingerprint_writes_in
          (map (fun a => call_notifications_create (fst (individual c a))
                           (snd (individual c a)))
             (take 5 (new_alerts known alerts)))).
  rewrite fingerprint_writes_in_individuals.
  by destruct (5 <? _)%nat.
Qed.

Lemma checkForNewAlerts_calls (instanceId : string) (alerts : list Alert)
    (c : Chrome) (known : list string) :
  Storage.getKnownFingerprints instanceId c = (Returned known, c) →
  calls_of (checkForNewAlerts instanceId alerts) c
  = notification_calls c known alerts ++
    [call_storage_local_set (Storage.fingerprints_key instanceId)
       (stored_fingerprints (map fingerprint alerts))].
Proof.
  intros Hk. apply calls_of_app. unfold exec.
  by rewrite (checkForNewAlerts_run _ _ _ _ Hk).
Qed.

Lemma checkForNewAlerts_notifications (instanceId : string) (alerts : list Alert)
    (c : Chrome) (known : list string) :
  result (Storage.getKnownFingerprints instanceId) c = Returned known →
  notifications_in (calls_of (checkForNewAlerts instanceId alerts) c)
  = expected_notifications c known alerts.
Proof.
  intros Hk. apply getKnownFingerprints_result_run in Hk.
  rewrite (checkForNewAlerts_calls _ _ _ _ Hk).
  unfold notifications_in. rewrite omap_app. cbn [omap list_omap created].
  rewrite app_nil_r. apply notifications_in_notification_calls.
Qed.

Lemma checkForNewAlerts_stores (instanceId : string) (alerts : list Alert) (c : Chrome) :
  storage_local (exec (checkForNewAlerts instanceId alerts) c)
  = <[Storage.fingerprints_key instanceId :=
        stored_fingerprints (map fingerprint alerts)]> (storage_local c).
Proof.
  destruct (getKnownFingerprints_run instanceId c) as [known Hk].
  unfold exec. by rewrite (checkForNewAlerts_run _ _ _ _ Hk).
Qed.

(** The three kinds of keys of chrome.storage.local never meet. *)
Lemma alerts_key_not_fingerprints (i j : string) :
  Storage.alerts_key i ≠ Storage.fingerprints_key j.
Proof. unfold Storage.alerts_key, Storage.fingerprints_key. simpl. discriminate. Qed.

Lemma silences_key_not_fingerprints (i j : string) :
  Storage.silences_key i ≠ Storage.fingerprints_key j.
Proof. unfold Storage.silences_key, Storage.fingerprints_key. simpl. discriminate. Qed.

Lemma updateBadge_run (alerts : list Alert) (enabled : bool) (c : Chrome) :
  updateBadge alerts enabled c
  = (Returned tt,
     {| extensionId := extensionId c;
        toUpperCase := toUpperCase c;
        default_instances := default_instances c;
        storage_sync_settings := storage_sync_settings c;
        storage_local := storage_local c;
        badge := badge_after alerts enabled (badge c);
        alarms := alarms c;
        calls := calls c ++ badge_calls alerts enabled |}).
Proof.
  unfold updateBadge, badge_after, badge_calls, badge_text.
  destruct enabled; cbn [negb];
    unfold bind, chrome_action_setBadgeText, chrome_action_setBadgeBackgroundColor,
      chrome_action_setBadgeTextColor, with_call, with_badge;
    cbn [extensionId toUpperCase default_instances storage_sync_settings
         storage_local badge alarms calls
         badgeText badgeBackgroundColor badgeTextColor];
    rewrite <- ?app_assoc; reflexivity.
Qed.

Lemma silences_stage_run (w : World) (instance : Instance) (c : Chrome) :
  try_catch
    (let* silences := AlertmanagerAPI.getSilences w instance in
     Storage.cacheSilences (now_cacheSilences w) (inst_id instance) silences)
    (fun err => console_error "[Alertmanager Monitor] Silences fetch failed:" err) c
  = (Returned tt,
     {| extensionId := extensionId c;
        toUpperCase := toUpperCase c;
        default_instances := default_instances c;
        storage_sync_settings := storage_sync_settings c;
        storage_local := silences_entry w instance (storage_local c);
        badge := badge c;
        alarms := alarms c;
        calls := calls c ++ silences_calls w instance |}).
Proof.
  unfold try_catch, bind, AlertmanagerAPI.getSilences, silences_entry, silences_calls.
  destruct (getSilences_answer w instance); reflexivity.
Qed.

Lemma updateBadge_returns (alerts : list Alert) (enabled : bool) (c : Chrome) :
  result (updateBadge alerts enabled) c = Returned tt.
Proof. unfold result. by rewrite updateBadge_run. Qed.

Lemma checkForNewAlerts_returns (instanceId : string) (alerts : list Alert)
    (c : Chrome) :
  result (checkForNewAlerts instanceId alerts) c = Returned tt.
Proof.
  destruct (getKnownFingerprints_run instanceId c) as [known Hk].
  unfold result. by rewrite (checkForNewAlerts_run _ _ _ _ Hk).
Qed.

Lemma pollAlerts_fetched (w : World) (c : Chrome) (instance : Instance)
    (alerts : list Alert) :
  result Storage.getActiveInstance c = Returned (Some instance) →
  getAlerts_answer w instance (defaultFilter (settings_of c)) = Returned alerts →
  pollAlerts w c = (Returned tt, after_fetch w instance alerts c).
Proof.
  intros Hi Ha. destruct (getActiveInstance_run c) as [i Hrun].
  unfold result in Hi. rewrite Hrun in Hi. simpl in Hi. injection Hi as ->.
  unfold pollAlerts. unfold bind at 1. rewrite Hrun.
  unfold bind at 1. unfold try_catch at 1. unfold bind at 1.
  rewrite getSettings_run. unfold ret at 1.
  unfold bind at 1. unfold try_catch at 1. unfold bind at 1.
  unfold AlertmanagerAPI.getAlerts at 1. rewrite Ha.
  unfold bind at 1.
  rewrite (run_eq (Storage.cacheAlerts _ _ _) c).
  change (result (Storage.cacheAlerts (now_cacheAlerts w) (inst_id instance) alerts) c)
    with (@Returned unit tt).
  unfold ret at 1. unfold after_fetch.
  set (c1 := exec (Storage.cacheAlerts _ _ _) c).
  unfold bind at 1. unfold try_catch at 1.
  rewrite (run_eq (updateBadge _ _) c1), updateBadge_returns.
  set (c2 := exec (updateBadge _ _) c1).
  unfold bind at 1.
  destruct (enableNotifications (settings_of c)).
  - unfold try_catch at 1.
    rewrite (run_eq (checkForNewAlerts _ _) c2), checkForNewAlerts_returns.
    apply silences_stage_run.
  - unfold ret at 1. apply silences_stage_run.
Qed.

Lemma pollAlerts_fetch_failed (w : World) (c : Chrome) (instance : Instance)
    (err : string) :
  result Storage.getActiveInstance c = Returned (Some instance) →
  getAlerts_answer w instance (defaultFilter (settings_of c)) = Thrown err →
  pollAlerts w c
  = (Returned tt,
     {| extensionId := extensionId c;
        toUpperCase := toUpperCase c;
        default_instances := default_instances c;
        storage_sync_settings := storage_sync_settings c;
        storage_local := storage_local c;
        badge := degraded_badge;
        alarms := alarms c;
        calls := calls c ++ degraded_calls err |}).
Proof.
  intros Hi Ha. destruct (getActiveInstance_run c) as [i Hrun].
  unfold result in Hi. rewrite Hrun in Hi. simpl in Hi. injection Hi as ->.
  unfold pollAlerts. unfold bind at 1. rewrite Hrun.
  unfold bind at 1. unfold try_catch at 1. unfold bind at 1.
  rewrite getSettings_run. unfold ret at 1.
  unfold bind at 1. unfold try_catch at 1. unfold bind at 1.
  unfold AlertmanagerAPI.getAlerts at 1. rewrite Ha.
  unfold bind, ret, console_error, chrome_action_setBadgeText,
    chrome_action_setBadgeBackgroundColor, chrome_action_setBadgeTextColor,
    with_call, with_badge, degraded_badge, degraded_calls.
  cbn [extensionId toUpperCase default_instances storage_sync_settings
       storage_local badge alarms calls
       badgeText badgeBackgroundColor badgeTextColor].
  rewrite <- !app_assoc. reflexivity.
Qed.

(** The state a poll cycle leaves when no instance is active. *)
Lemma pollAlerts_idle (w : World) (c : Chrome) :
  result Storage.getActiveInstance c = Returned None →
  pollAlerts w c
  = (Returned tt,
     {| extensionId := extensionId c;
        toUpperCase := toUpperCase c;
        default_instances := default_instances c;
        storage_sync_settings := storage_sync_settings c;
        storage_local := storage_local c;
        badge := {| badgeText := "";
                    badgeBackgroundColor := badgeBackgroundColor (badge c);
                    badgeTextColor := badgeTextColor (badge c) |};
        alarms := alarms c;
        calls := calls c ++ [call_action_setBadgeText ""] |}).
Proof.
  intros Hi. destruct (getActiveInstance_run c) as [i Hrun].
  unfold result in Hi. rewrite Hrun in Hi. simpl in Hi. injection Hi as ->.
  unfold pollAlerts. unfold bind at 1. rewrite Hrun. reflexivity.
Qed.

Lemma fingerprint_writes_in_badge_calls (alerts : list Alert) (enabled : bool) :
  fingerprint_writes_in (badge_calls alerts enabled) = [].
Proof. by destruct enabled. Qed.

Lemma fingerprint_writes_in_silences_calls (w : World) (instance : Instance) :
  fingerprint_writes_in (silences_calls w instance) = [].
Proof. unfold silences_calls. by destruct (getSilences_answer w instance). Qed.

Lemma silences_entry_fingerprints (w : World) (instance : Instance)
    (m : gmap string StoredValue) (instanceId : string) :
  silences_entry w instance m !! Storage.fingerprints_key instanceId
  = m !! Storage.fingerprints_key instanceId.
Proof.
  unfold silences_entry. destruct (getSilences_answer w instance); [|done].
  apply lookup_insert_ne, silences_key_not_fingerprints.
Qed.

Lemma cacheAlerts_run (now : Z) (instanceId : string) (alerts : list Alert)
    (c : Chrome) :
  exec (Storage.cacheAlerts now instanceId alerts) c
  = {| extensionId := extensionId c;
       toUpperCase := toUpperCase c;
       default_instances := default_instances c;
       storage_sync_settings := storage_sync_settings c;
       storage_local :=
         <[Storage.alerts_key instanceId := stored_alerts alerts now]> (storage_local c);
       badge := badge c;
       alarms := alarms c;
       calls := calls c ++
                [call_storage_local_set (Storage.alerts_key instanceId)
                   (stored_alerts alerts now)] |}.
Proof. reflexivity. Qed.

Lemma after_fetch_calls (w : World) (instance : Instance) (alerts : list Alert)
    (c : Chrome) :
  calls (after_fetch w instance alerts c)
  = calls c ++
    [call_storage_local_set (Storage.alerts_key (inst_id instance))
       (stored_alerts alerts (now_cacheAlerts w))] ++
    badge_calls alerts (enableBadge (settings_of c)) ++
    check_calls w instance alerts c ++
    silences_calls w instance.
Proof.
  unfold after_fetch, check_calls. cbn [calls].
  set (c1 := exec (Storage.cacheAlerts _ _ _) c).
  set (c2 := exec (updateBadge _ _) c1).
  assert (H2 : calls c2
               = calls c ++
                 [call_storage_local_set (Storage.alerts_key (inst_id instance))
                    (stored_alerts alerts (now_cacheAlerts w))] ++
                 badge_calls alerts (enableBadge (settings_of c))).
  { unfold c2, exec. rewrite updateBadge_run. cbn [snd calls].
    unfold c1. rewrite cacheAlerts_run. cbn [calls]. by rewrite <- app_assoc. }
  destruct (enableNotifications (settings_of c)).
  - destruct (getKnownFingerprints_run (inst_id instance) c2) as [known Hk].
    unfold calls_of, exec at 1 2.
    rewrite (checkForNewAlerts_run _ _ _ _ Hk). cbn [snd calls].
    rewrite drop_app_length, H2. by rewrite <- !app_assoc.
  - rewrite H2. by rewrite <- !app_assoc.
Qed.

Lemma after_fetch_fingerprints (w : World) (instance : Instance) (alerts : list Alert)
    (c : Chrome) (instanceId : string) :
  storage_local (after_fetch w instance alerts c) !! Storage.fingerprints_key instanceId
  = if enableNotifications (settings_of c)
    then <[Storage.fingerprints_key (inst_id instance) :=
             stored_fingerprints (map fingerprint alerts)]> (storage_local c)
         !! Storage.fingerprints_key instanceId
    else storage_local c !! Storage.fingerprints_key instanceId.
Proof.
  unfold after_fetch. cbn [storage_local]. rewrite silences_entry_fingerprints.
  assert (H2 : ∀ k,
    storage_local
      (exec (updateBadge alerts (enableBadge (settings_of c)))
         (exec (Storage.cacheAlerts (now_cacheAlerts w) (inst_id instance) alerts) c))
      !! Storage.fingerprints_key k
    = storage_local c !! Storage.fingerprints_key k).
  { intros k. unfold exec at 1. rewrite updateBadge_run. cbn [snd storage_local].
    rewrite cacheAlerts_run. cbn [storage_local].
    apply lookup_insert_ne, alerts_key_not_fingerprints. }
  destruct (enableNotifications (settings_of c)); [|apply H2].
  rewrite checkForNewAlerts_stores.
  destruct (decide (Storage.fingerprints_key (inst_id instance)
                    = Storage.fingerprints_key instanceId)) as [->|Hne].
  - by rewrite !lookup_insert_eq.
  - rewrite !lookup_insert_ne by done. apply H2.
Qed.

(** ** The spec's scenario, cycle by cycle *)

Example scenario_first_cycle :
  notifications_in (calls Scenario.polled) = []
  ∧ result (Storage.getKnownFingerprints "prom") Scenario.polled = Returned ["fp1"; "fp2"]
  ∧ badge Scenario.polled
    = {| badgeText := "2"; badgeBackgroundColor := Utils.red; badgeTextColor := "#FFFFFF" |}.
Proof. vm_compute. done. Qed.

Example scenario_second_cycle :
  let w := Scenario.answering [Scenario.fp1; Scenario.fp2] in
  notifications_in (calls_of (pollAlerts w) Scenario.polled) = []
  ∧ badge (exec (pollAlerts w) Scenario.polled) = badge Scenario.polled.
Proof. vm_compute. done. Qed.

Example scenario_third_cycle :
  let w := Scenario.answering [Scenario.fp1; Scenario.fp2; Scenario.fp3] in
  let c := exec (pollAlerts w) Scenario.polled in
  map (fun n => (fst n, title (snd n), message (snd n), priority (snd n)))
    (notifications_in (calls_of (pollAlerts w) Scenario.polled))
  = [("am-alert-fp3", "[INFO] CertExpiry", "CertExpiry is firing", 1%Z)]
  ∧ result (Storage.getKnownFingerprints "prom") c = Returned ["fp1"; "fp2"; "fp3"]
  ∧ badgeText (badge c) = "3"
  ∧ badgeBackgroundColor (badge c) = Utils.red.
Proof. vm_compute. done. Qed.

(** ** The fingerprint tracker *)

(** C1. A poll cycle that reaches the notification check (an instance is
    active, the alerts were fetched, notifications are enabled) leaves as
    stored fingerprints of the instance exactly the fingerprints of the
    fetched alerts, of any state, in the order of the fetch, whatever was
    stored before and whatever was notified; and the cycle writes a
    fingerprint array to the storage exactly once. *)
Theorem fingerprints_replaced_each_cycle (w : World) (c : Chrome)
    (instance : Instance) (alerts : list Alert) :
  result Storage.getActiveInstance c = Returned (Some instance) →
  getAlerts_answer w instance (defaultFilter (settings_of c)) = Returned alerts →
  enableNotifications (settings_of c) = true →
  result (Storage.getKnownFingerprints (inst_id instance)) (exec (pollAlerts w) c)
  = Returned (map fingerprint alerts)
  ∧ fingerprint_writes_in (calls_of (pollAlerts w) c)
    = [(Storage.fingerprints_key (inst_id instance), map fingerprint alerts)].
Proof.
  intros Hi Ha Hn. split.
  - apply getKnownFingerprints_after_set.
    unfold exec. rewrite (pollAlerts_fetched _ _ _ _ Hi Ha). cbn [snd].
    rewrite after_fetch_fingerprints, Hn. apply lookup_insert_eq.
  - erewrite calls_of_app; last first.
    { unfold exec. rewrite (pollAlerts_fetched _ _ _ _ Hi Ha). cbn [snd].
      apply after_fetch_calls. }
    unfold fingerprint_writes_in. rewrite !omap_app.
    fold (fingerprint_writes_in (badge_calls alerts (enableBadge (settings_of c)))).
    fold (fingerprint_writes_in (silences_calls w instance)).
    rewrite fingerprint_writes_in_badge_calls, fingerprint_writes_in_silences_calls.
    unfold check_calls. rewrite Hn.
    set (c2 := exec (updateBadge _ _) _).
    destruct (getKnownFingerprints_run (inst_id instance) c2) as [known Hk].
    rewrite (checkForNewAlerts_calls _ _ _ _ Hk), omap_app.
    fold (fingerprint_writes_in (notification_calls c2 known alerts)).
    rewrite fingerprint_writes_in_notification_calls. reflexivity.
Qed.

Lemma fingerprints_replaced_each_cycle_witness :
  let w := Scenario.answering [Scenario.fp3] in
  result (Storage.getKnownFingerprints "prom") Scenario.polled = Returned ["fp1"; "fp2"]
  ∧ result (Storage.getKnownFingerprints "prom") (exec (pollAlerts w) Scenario.polled)
    = Returned ["fp3"]
  ∧ fingerprint_writes_in (calls_of (pollAlerts w) Scenario.polled)
    = [("fingerprints_prom", ["fp3"])].
Proof.
  split; [vm_compute; reflexivity|].
  apply (fingerprints_replaced_each_cycle
           (Scenario.answering [Scenario.fp3]) Scenario.polled Scenario.prom [Scenario.fp3]);
    vm_compute; reflexivity.
Defined.

(** C2. Cold start: when no fingerprint is stored for the instance and the
    fetched list holds N > 0 active alerts, the notification check creates
    no notification, although all the N active alerts are new, and the
    fingerprints stored afterwards are exactly those of the fetched
    alerts. *)
Theorem cold_start_suppression (instanceId : string) (alerts : list Alert)
    (c : Chrome) :
  result (Storage.getKnownFingerprints instanceId) c = Returned [] →
  (0 < Utils.countActiveAlerts alerts)%nat →
  length (new_alerts [] alerts) = Utils.countActiveAlerts alerts
  ∧ notifications_in (calls_of (checkForNewAlerts instanceId alerts) c) = []
  ∧ result (Storage.getKnownFingerprints instanceId)
      (exec (checkForNewAlerts instanceId alerts) c)
    = Returned (map fingerprint alerts).
Proof.
  intros Hk _. split; [|split].
  - unfold new_alerts, Utils.countActiveAlerts. f_equal.
    apply List.filter_ext. intros a. cbn [JS.includes existsb negb].
    apply andb_true_r.
  - rewrite (checkForNewAlerts_notifications _ _ _ _ Hk).
    unfold expected_notifications. cbn [length Nat.ltb Nat.leb].
    by rewrite andb_false_r.
  - apply getKnownFingerprints_after_set.
    rewrite checkForNewAlerts_stores. apply lookup_insert_eq.
Qed.

Lemma cold_start_suppression_witness :
  let alerts := [Scenario.fp1; Scenario.fp2] in
  length (new_alerts [] alerts) = 2%nat
  ∧ notifications_in (calls_of (checkForNewAlerts "prom" alerts) Scenario.fresh) = []
  ∧ result (Storage.getKnownFingerprints "prom")
      (exec (checkForNewAlerts "prom" alerts) Scenario.fresh)
    = Returned ["fp1"; "fp2"].
Proof.
  apply (cold_start_suppression "prom" [Scenario.fp1; Scenario.fp2] Scenario.fresh).
  - vm_compute; reflexivity.
  - vm_compute; lia.
Defined.

(** C3. Batching threshold: when some fingerprint is stored for the
    instance, five new active alerts give five notifications, one per
    alert and in the order of the fetch, and no summary; more than five
    give the notifications of the first five, followed by one summary
    whose message starts with the number of new alerts (six of them:
    "6 new alerts detected"). *)
Theorem batching_threshold (instanceId : string) (alerts : list Alert)
    (c : Chrome) (known : list string) :
  result (Storage.getKnownFingerprints instanceId) c = Returned known →
  known ≠ [] →
  let newAlerts := new_alerts known alerts in
  let sent := notifications_in (calls_of (checkForNewAlerts instanceId alerts) c) in
  (length newAlerts = 5%nat → sent = map (individual c) newAlerts)
  ∧ (5 < length newAlerts →
     sent = map (individual c) (take 5 newAlerts) ++ [batch c (length newAlerts)]
     ∧ length sent = 6%nat
     ∧ message (snd (batch c (length newAlerts)))
       = JS.String_of_nat (length newAlerts) +:+ " new alerts detected")
  ∧ message (snd (batch c 6)) = "6 new alerts detected".
Proof.
  intros Hk Hne newAlerts sent.
  assert (Hs : sent = expected_notifications c known alerts)
    by apply (checkForNewAlerts_notifications _ _ _ _ Hk).
  assert (Hpos : (0 <? length known)%nat = true).
  { destruct known; [done|]. reflexivity. }
  unfold expected_notifications in Hs. fold newAlerts in Hs. rewrite Hpos in Hs.
  split; [|split].
  - intros H5. rewrite Hs, H5. cbn [Nat.ltb Nat.leb andb].
    rewrite app_nil_r. f_equal. apply take_ge. lia.
  - intros H5.
    assert (H0 : (0 <? length newAlerts)%nat = true) by (apply Nat.ltb_lt; lia).
    assert (H6 : (5 <? length newAlerts)%nat = true) by (apply Nat.ltb_lt; lia).
    rewrite H0, H6 in Hs. cbn [andb] in Hs. split; [exact Hs|]. split; [|done].
    rewrite Hs, length_app, length_map, length_take. cbn [length]. lia.
  - vm_compute. reflexivity.
Qed.

Lemma batching_threshold_witness :
  let six := Scenario.fp1 :: Scenario.burst in
  let five := Scenario.fp2 :: tail Scenario.burst in
  map fst (notifications_in (calls_of (checkForNewAlerts "prom" six) Scenario.polled))
  = ["am-alert-b1"; "am-alert-b2"; "am-alert-b3"; "am-alert-b4"; "am-alert-b5";
     "am-alert-batch"]
  ∧ map fst (notifications_in (calls_of (checkForNewAlerts "prom" five) Scenario.polled))
    = ["am-alert-b2"; "am-alert-b3"; "am-alert-b4"; "am-alert-b5"; "am-alert-b6"].
Proof.
  assert (Hk : result (Storage.getKnownFingerprints "prom") Scenario.polled
               = Returned ["fp1"; "fp2"]) by (vm_compute; reflexivity).
  assert (Hne : ["fp1"; "fp2"] ≠ @nil string) by discriminate.
  destruct (batching_threshold "prom" (Scenario.fp1 :: Scenario.burst) Scenario.polled
              ["fp1"; "fp2"] Hk Hne) as (_ & H6 & _).
  destruct (batching_threshold "prom" (Scenario.fp2 :: tail Scenario.burst) Scenario.polled
              ["fp1"; "fp2"] Hk Hne) as (H5 & _).
  split.
  - destruct H6 as (-> & _); [vm_compute; lia|]. vm_compute. reflexivity.
  - rewrite H5; [|vm_compute; reflexivity]. vm_compute. reflexivity.
Defined.

(** ** The poll cycle *)

(** C4. When the fetch of the alerts fails, the cycle ends normally after
    it has logged the failure and set the badge to "!" on #6b7280: the
    storage (fingerprints, cached alerts and silences) is as it was, and
    no notification is created. *)
Theorem fetch_failure_isolation (w : World) (c : Chrome) (instance : Instance)
    (err : string) :
  result Storage.getActiveInstance c = Returned (Some instance) →
  getAlerts_answer w instance (defaultFilter (settings_of c)) = Thrown err →
  result (pollAlerts w) c = Returned tt
  ∧ badge (exec (pollAlerts w) c)
    = {| badgeText := "!"; badgeBackgroundColor := "#6b7280";
         badgeTextColor := "#FFFFFF" |}
  ∧ storage_local (exec (pollAlerts w) c) = storage_local c
  ∧ calls_of (pollAlerts w) c
    = [ call_console_error "[Alertmanager Monitor] Poll failed:" err;
        call_action_setBadgeText "!";
        call_action_setBadgeBackgroundColor "#6b7280";
        call_action_setBadgeTextColor "#FFFFFF" ]
  ∧ notifications_in (calls_of (pollAlerts w) c) = [].
Proof.
  intros Hi Ha.
  assert (Hc : calls_of (pollAlerts w) c = degraded_calls err).
  { apply calls_of_app. unfold exec.
    by rewrite (pollAlerts_fetch_failed _ _ _ _ Hi Ha). }
  unfold result, exec. rewrite Hc.
  rewrite (pollAlerts_fetch_failed _ _ _ _ Hi Ha). cbn [fst snd badge storage_local].
  done.
Qed.

Lemma fetch_failure_isolation_witness :
  let c := exec (pollAlerts Scenario.unreachable) Scenario.polled in
  result (pollAlerts Scenario.unreachable) Scenario.polled = Returned tt
  ∧ badge c
    = {| badgeText := "!"; badgeBackgroundColor := "#6b7280";
         badgeTextColor := "#FFFFFF" |}
  ∧ storage_local c = storage_local Scenario.polled
  ∧ calls_of (pollAlerts Scenario.unreachable) Scenario.polled
    = [ call_console_error "[Alertmanager Monitor] Poll failed:" "Failed to fetch";
        call_action_setBadgeText "!";
        call_action_setBadgeBackgroundColor "#6b7280";
        call_action_setBadgeTextColor "#FFFFFF" ]
  ∧ notifications_in (calls_of (pollAlerts Scenario.unreachable) Scenario.polled) = [].
Proof.
  apply (fetch_failure_isolation Scenario.unreachable Scenario.polled Scenario.prom
           "Failed to fetch"); vm_compute; reflexivity.
Defined.

(** C8. With notifications disabled, a poll cycle neither changes the
    fingerprints stored for any instance nor writes a fingerprint array,
    whether no instance is active, the fetch fails, or the fetch
    succeeds. *)
Theorem notifications_disabled_keeps_fingerprints (w : World) (c : Chrome) :
  enableNotifications (settings_of c) = false →
  (∀ instanceId,
     storage_local (exec (pollAlerts w) c) !! Storage.fingerprints_key instanceId
     = storage_local c !! Storage.fingerprints_key instanceId)
  ∧ (∀ instanceId,
       result (Storage.getKnownFingerprints instanceId) (exec (pollAlerts w) c)
       = result (Storage.getKnownFingerprints instanceId) c)
  ∧ fingerprint_writes_in (calls_of (pollAlerts w) c) = [].
Proof.
  intros Hn.
  assert (H : (∀ instanceId,
     storage_local (exec (pollAlerts w) c) !! Storage.fingerprints_key instanceId
     = storage_local c !! Storage.fingerprints_key instanceId)
    ∧ fingerprint_writes_in (calls_of (pollAlerts w) c) = []).
  { destruct (getActiveInstance_run c) as [[instance|] Hrun].
    - assert (Hi : result Storage.getActiveInstance c = Returned (Some instance))
        by (unfold result; by rewrite Hrun).
      destruct (getAlerts_answer w instance (defaultFilter (settings_of c)))
        as [alerts|err] eqn:Ha.
      + split.
        * intros k. unfold exec. rewrite (pollAlerts_fetched _ _ _ _ Hi Ha).
          cbn [snd]. by rewrite after_fetch_fingerprints, Hn.
        * erewrite calls_of_app; last first.
          { unfold exec. rewrite (pollAlerts_fetched _ _ _ _ Hi Ha). cbn [snd].
            apply after_fetch_calls. }
          unfold fingerprint_writes_in. rewrite !omap_app.
          fold (fingerprint_writes_in (badge_calls alerts (enableBadge (settings_of c)))).
          fold (fingerprint_writes_in (silences_calls w instance)).
          rewrite fingerprint_writes_in_badge_calls,
            fingerprint_writes_in_silences_calls.
          unfold check_calls. by rewrite Hn.
      + split.
        * intros k. unfold exec. by rewrite (pollAlerts_fetch_failed _ _ _ _ Hi Ha).
        * erewrite calls_of_app; last first.
          { unfold exec. by rewrite (pollAlerts_fetch_failed _ _ _ _ Hi Ha). }
          reflexivity.
    - assert (Hi : result Storage.getActiveInstance c = Returned None)
        by (unfold result; by rewrite Hrun).
      split.
      + intros k. unfold exec. by rewrite (pollAlerts_idle _ _ Hi).
      + erewrite calls_of_app; last first.
        { unfold exec. by rewrite (pollAlerts_idle _ _ Hi). }
        reflexivity. }
  destruct H as [H1 H2]. split; [exact H1|]. split; [|exact H2].
  intros k. apply getKnownFingerprints_same_entry, H1.
Qed.

Lemma notifications_disabled_keeps_fingerprints_witness :
  let w := Scenario.answering [Scenario.fp3] in
  result (Storage.getKnownFingerprints "prom") (exec (pollAlerts w) Scenario.quiet)
  = Returned ["fp1"; "fp2"]
  ∧ fingerprint_writes_in (calls_of (pollAlerts w) Scenario.quiet) = [].
Proof.
  destruct (notifications_disabled_keeps_fingerprints
              (Scenario.answering [Scenario.fp3]) Scenario.quiet) as (_ & Hsame & Hnone).
  { vm_compute; reflexivity. }
  split; [|exact Hnone].
  rewrite Hsame. vm_compute. reflexivity.
Defined.

Lemma strict_eq_true (v : option string) (s : string) :
  JS.strict_eq v s = true ↔ v = Some s.
Proof.
  destruct v as [x|]; cbn [JS.strict_eq]; [|done].
  rewrite String.eqb_eq. split; congruence.
Qed.

Lemma existsb_has_active (severity : string) (alerts : list Alert) :
  existsb (fun a => JS.strict_eq (label_severity a) severity && state_is_active a) alerts
  = true ↔ has_active severity alerts.
Proof.
  rewrite existsb_exists. unfold has_active.
  split; intros (a & Hin & H); exists a; (split; [done|]).
  - apply andb_true_iff in H as [H1 H2]. by apply strict_eq_true in H1.
  - destruct H as [H1 H2]. apply andb_true_iff. by rewrite strict_eq_true.
Qed.

Lemma getBadgeColor_critical (alerts : list Alert) :
  has_active "critical" alerts → Utils.getBadgeColor (Some alerts) = Utils.red.
Proof.
  intros H. pose proof H as (a & Hin & _).
  apply existsb_has_active in H. unfold Utils.getBadgeColor.
  destruct alerts; [done|]. by rewrite H.
Qed.

Lemma getBadgeColor_warning (alerts : list Alert) :
  ¬ has_active "critical" alerts → has_active "warning" alerts →
  Utils.getBadgeColor (Some alerts) = Utils.amber.
Proof.
  intros Hc H. pose proof H as (a & Hin & _).
  apply existsb_has_active in H. rewrite <- existsb_has_active in Hc.
  apply not_true_is_false in Hc. unfold Utils.getBadgeColor.
  destruct alerts; [done|]. by rewrite Hc, H.
Qed.

Lemma has_active_some_active (severity : string) (alerts : list Alert) :
  has_active severity alerts ↔ some_active severity alerts.
Proof.
  unfold has_active, some_active, label_severity, state_is_active.
  split; intros (a & Hin & Hs & Ha); exists a; (split; [done|split; [done|]]).
  - by apply strict_eq_true.
  - by apply strict_eq_true.
Qed.

Lemma countActiveAlerts_active_count (alerts : list Alert) :
  Utils.countActiveAlerts alerts = active_count alerts.
Proof.
  unfold Utils.countActiveAlerts, active_count.
  induction alerts as [|a l IH]; [done|].
  cbn [List.filter]. rewrite filter_cons.
  unfold state_is_active at 1.
  destruct (decide (status a ≫= state = Some "active")) as [H|H].
  - apply strict_eq_true in H. rewrite H. cbn [length]. by rewrite IH.
  - destruct (JS.strict_eq (status a ≫= state) "active") eqn:E; [|exact IH].
    by apply strict_eq_true in E.
Qed.

(** ** The badge *)

(** C5. What [updateBadge] does depends on the alerts and on the flag
    only: the calls it makes are the same in every state, and so is the
    text it leaves. Disabled, it sets the empty text and nothing else, so
    that the two colours stay what they were. Enabled, the text is the
    number of the alerts whose state is active, in decimal, or empty when
    there is none; the background is red when some active alert is
    critical, else amber when some active alert is a warning, green for
    an empty list and blue for what remains; the text colour is white. *)
Theorem badge_computation (alerts : list Alert) (enabled : bool) (c : Chrome) :
  let b := badge (exec (updateBadge alerts enabled) c) in
  let n := length (filter (λ a, status a ≫= state = Some "active") alerts) in
  (∀ c0, calls_of (updateBadge alerts enabled) c0 = calls_of (updateBadge alerts enabled) c)
  ∧ (∀ c0, badgeText (badge (exec (updateBadge alerts enabled) c0)) = badgeText b)
  ∧ (enabled = false →
     badgeText b = ""
     ∧ calls_of (updateBadge alerts enabled) c = [call_action_setBadgeText ""]
     ∧ badgeBackgroundColor b = badgeBackgroundColor (badge c)
     ∧ badgeTextColor b = badgeTextColor (badge c))
  ∧ (enabled = true →
     badgeText b = (if (n =? 0)%nat then "" else pretty n)
     ∧ badgeBackgroundColor b = Utils.getBadgeColor (Some alerts)
     ∧ badgeTextColor b = "#FFFFFF"
     ∧ (some_active "critical" alerts → badgeBackgroundColor b = Utils.red)
     ∧ (¬ some_active "critical" alerts → some_active "warning" alerts →
        badgeBackgroundColor b = Utils.amber)
     ∧ (alerts = [] → badgeBackgroundColor b = Utils.green)
     ∧ (alerts ≠ [] → ¬ some_active "critical" alerts →
        ¬ some_active "warning" alerts → badgeBackgroundColor b = Utils.blue)
     ∧ (∀ c0, badge (exec (updateBadge alerts enabled) c0) = b)
     ∧ calls_of (updateBadge alerts enabled) c
       = [ call_action_setBadgeText (badgeText b);
           call_action_setBadgeBackgroundColor (badgeBackgroundColor b);
           call_action_setBadgeTextColor "#FFFFFF" ]).
Proof.
  intros b n. subst b.
  assert (Hcalls : ∀ c0, calls_of (updateBadge alerts enabled) c0
                         = badge_calls alerts enabled).
  { intros c0. apply calls_of_app. unfold exec. by rewrite updateBadge_run. }
  assert (Hbadge : ∀ c0, badge (exec (updateBadge alerts enabled) c0)
                         = badge_after alerts enabled (badge c0)).
  { intros c0. unfold exec. by rewrite updateBadge_run. }
  split; [intros c0; by rewrite !Hcalls|].
  split; [intros c0; rewrite !Hbadge; by destruct enabled|].
  rewrite Hcalls, Hbadge.
  split; intros ->; cbn [badge_after badge_calls badgeText badgeBackgroundColor
                          badgeTextColor]; [done|].
  split; [|split; [done|split; [done|split; [|split; [|split; [|split]]]]]].
  - unfold badge_text. rewrite countActiveAlerts_active_count. unfold active_count.
    fold n. by destruct n.
  - intros H. by apply getBadgeColor_critical, has_active_some_active.
  - intros Hc H. apply getBadgeColor_warning.
    + by rewrite has_active_some_active.
    + by apply has_active_some_active.
  - by intros ->.
  - intros Hne Hc Hw. rewrite <- has_active_some_active, <- existsb_has_active in Hc, Hw.
    apply not_true_is_false in Hc, Hw. unfold Utils.getBadgeColor.
    destruct alerts; [done|]. by rewrite Hc, Hw.
  - split; [|done]. intros c0. by rewrite Hbadge.
Qed.

Lemma badge_computation_witness :
  let mixed := [Scenario.fp2; Samples.fp2_muted; Scenario.fp1] in
  badgeText (badge (exec (updateBadge mixed false) Scenario.polled)) = ""
  ∧ badgeBackgroundColor (badge (exec (updateBadge mixed false) Scenario.polled))
    = badgeBackgroundColor (badge Scenario.polled)
  ∧ badgeText (badge (exec (updateBadge mixed true) Scenario.fresh)) = "2"
  ∧ badgeBackgroundColor (badge (exec (updateBadge mixed true) Scenario.fresh)) = "#dc2626"
  ∧ badgeBackgroundColor
      (badge (exec (updateBadge [Samples.fp2_muted; Scenario.fp2] true) Scenario.fresh))
    = "#d97706"
  ∧ badgeText (badge (exec (updateBadge [Samples.fp2_muted] true) Scenario.fresh)) = ""
  ∧ badgeBackgroundColor
      (badge (exec (updateBadge [Samples.fp2_muted] true) Scenario.fresh))
    = "#2563eb"
  ∧ badgeText (badge (exec (updateBadge [] true) Scenario.fresh)) = ""
  ∧ badgeBackgroundColor (badge (exec (updateBadge [] true) Scenario.fresh)) = "#4ade80".
Proof.
  pose proof (badge_computation [Scenario.fp2; Samples.fp2_muted; Scenario.fp1] false
                Scenario.polled) as (_ & _ & Hoff & _).
  pose proof (badge_computation [Scenario.fp2; Samples.fp2_muted; Scenario.fp1] true
                Scenario.fresh) as (_ & _ & _ & Hon).
  pose proof (badge_computation [Samples.fp2_muted; Scenario.fp2] true Scenario.fresh)
    as (_ & _ & _ & Hwarn).
  pose proof (badge_computation [Samples.fp2_muted] true Scenario.fresh)
    as (_ & _ & _ & Hmuted).
  pose proof (badge_computation [] true Scenario.fresh) as (_ & _ & _ & Hnone).
  destruct (Hoff eq_refl) as (Hofftext & _ & Hoffcolour & _).
  destruct (Hon eq_refl) as (Htext & _ & _ & Hred & _).
  destruct (Hwarn eq_refl) as (_ & _ & _ & _ & Hamber & _).
  destruct (Hmuted eq_refl) as (Hmtext & _ & _ & _ & _ & _ & Hblue & _).
  destruct (Hnone eq_refl) as (Hempty & _ & _ & _ & _ & Hgreen & _).
  split; [exact Hofftext|]. split; [exact Hoffcolour|]. split; [exact Htext|]. split.
  { apply Hred. exists Scenario.fp1. split; [right; right; left; reflexivity|].
    split; vm_compute; reflexivity. }
  split.
  { apply Hamber.
    - intros (a & [<-|[<-|[]]] & Hsev & _); vm_compute in Hsev; discriminate.
    - exists Scenario.fp2. split; [right; left; reflexivity|].
      split; vm_compute; reflexivity. }
  split; [exact Hmtext|]. split.
  { apply Hblue; [done| |].
    - intros (a & [<-|[]] & Hsev & _); vm_compute in Hsev; discriminate.
    - intros (a & [<-|[]] & _ & Hst); vm_compute in Hst; discriminate. }
  split; [exact Hempty|]. exact (Hgreen eq_refl).
Defined.

(** C9. [getBadgeColor] answers green for an absent or empty list and for
    no other; a non-empty list without any active alert, whatever the
    severities, gets blue. *)
Theorem badge_green_only_when_no_alerts (alerts : option (list Alert)) :
  (Utils.getBadgeColor alerts = Utils.green ↔ alerts = None ∨ alerts = Some [])
  ∧ (∀ l, alerts = Some l → l ≠ [] →
       (∀ a, In a l → state_is_active a = false) →
       Utils.getBadgeColor alerts = Utils.blue).
Proof.
  split.
  - split.
    + destruct alerts as [[|a l]|]; [by right|intros H|by left].
      exfalso. unfold Utils.getBadgeColor in H.
      repeat match type of H with
             | (if ?b then _ else _) = _ => destruct b
             end; discriminate.
    + by intros [->| ->].
  - intros l -> Hne Hinactive. unfold Utils.getBadgeColor.
    destruct l as [|a l]; [done|].
    assert (Hex : ∀ sev,
      existsb (fun a => JS.strict_eq (label_severity a) sev && state_is_active a)
        (a :: l) = false).
    { intros sev. apply not_true_is_false. rewrite existsb_has_active.
      intros (x & Hin & _ & Hact). by rewrite (Hinactive x Hin) in Hact. }
    by rewrite !Hex.
Qed.

Lemma badge_green_only_when_no_alerts_witness :
  let silenced_critical := Scenario.alert "fp7" "critical" "DiskFull" Scenario.muted in
  Utils.getBadgeColor (Some [silenced_critical]) = "#2563eb"
  ∧ Utils.getBadgeColor (Some [silenced_critical]) ≠ "#4ade80"
  ∧ Utils.getBadgeColor None = "#4ade80"
  ∧ Utils.getBadgeColor (Some []) = "#4ade80".
Proof.
  pose proof (badge_green_only_when_no_alerts
                (Some [Scenario.alert "fp7" "critical" "DiskFull" Scenario.muted]))
    as [Hgreen Hblue].
  split.
  { apply (Hblue _ eq_refl); [done|].
    intros a [<-|[]]. vm_compute. reflexivity. }
  split.
  { intros H. apply Hgreen in H as [H|H]; discriminate. }
  split.
  - apply (badge_green_only_when_no_alerts None). by left.
  - apply (badge_green_only_when_no_alerts (Some [])). by right.
Defined.

(** ** The notifications *)

Lemma In_take {A} (x : A) (n : nat) (l : list A) : In x (take n l) → In x l.
Proof.
  revert n. induction l as [|y l IH]; intros [|n]; cbn; try done.
  intros [->|H]; [by left|right; eauto].
Qed.

Lemma severity_is_critical (v : option string) :
  String.eqb (JS.or_default v "unknown") "critical" = true ↔ v = Some "critical".
Proof.
  destruct v as [[|a s]|]; cbn [JS.or_default]; [done| |done].
  rewrite String.eqb_eq. split; congruence.
Qed.

(** C7 does not hold as it stands: an alert whose summary annotation is
    present and empty is notified with the fallback message, not with its
    summary. *)
Lemma empty_summary_is_replaced :
  let alerts := [Scenario.fp1; Scenario.fp2; Scenario.blank] in
  annotations Scenario.blank ≫= (.!! "summary") = Some ""
  ∧ map (fun n => (fst n, message (snd n)))
      (notifications_in (calls_of (checkForNewAlerts "prom" alerts) Scenario.polled))
    = [("am-alert-fp4", "New alert fired")].
Proof. vm_compute. done. Qed.

(** C7, amended. Every notification the check creates is the summary or
    the notification of one new active alert; the latter has priority 2
    exactly when the severity label of the alert is critical and priority
    1 otherwise, its title is the severity (unknown without a label) as
    the [toUpperCase] of the engine returns it, whatever that function is,
    in brackets, followed by the alert name (Alert without a label),
    and its message is the summary annotation when that is present and not
    empty, and "New alert fired" when it is absent or empty. *)
Theorem individual_notification_content (instanceId : string) (alerts : list Alert)
    (c : Chrome) (known : list string) (sent : string * NotificationOptions) :
  result (Storage.getKnownFingerprints instanceId) c = Returned known →
  In sent (notifications_in (calls_of (checkForNewAlerts instanceId alerts) c)) →
  sent = batch c (length (new_alerts known alerts))
  ∨ ∃ alert,
      In alert (new_alerts known alerts)
      ∧ fst sent = "am-alert-" +:+ fingerprint alert
      ∧ let n := snd sent in
        let severity := label_severity alert in
        let alertname := labels alert ≫= (.!! "alertname") in
        let summary := annotations alert ≫= (.!! "summary") in
        (priority n = 2%Z ↔ severity = Some "critical")
        ∧ (severity ≠ Some "critical" → priority n = 1%Z)
        ∧ title n = "[" +:+ toUpperCase c (JS.or_default severity "unknown") +:+ "] "
                    +:+ JS.or_default alertname "Alert"
        ∧ (∀ s, summary = Some s → s ≠ "" → message n = s)
        ∧ (summary = None ∨ summary = Some "" → message n = "New alert fired").
Proof.
  intros Hk Hin. rewrite (checkForNewAlerts_notifications _ _ _ _ Hk) in Hin.
  unfold expected_notifications in Hin.
  destruct (_ && _); [|done].
  apply in_app_or in Hin as [Hin|Hin].
  - right. apply in_map_iff in Hin as (alert & <- & Hin).
    exists alert. split; [by eapply In_take|]. split; [done|].
    cbn [snd individual alert_notification priority title message].
    pose proof (severity_is_critical (label_severity alert)) as Hsev.
    split; [|split; [|split; [done|split]]].
    + rewrite <- Hsev. by destruct (String.eqb _ _).
    + intros Hne. rewrite <- Hsev in Hne. by destruct (String.eqb _ _).
    + intros s -> Hs. by destruct s.
    + by intros [-> | ->].
  - left. destruct (5 <? _)%nat; [|done]. by destruct Hin as [<-|[]].
Qed.

Lemma individual_notification_content_witness :
  let alerts := [Scenario.fp1; Scenario.fp2; Scenario.fp3] in
  let sent := individual Scenario.polled Scenario.fp3 in
  In sent (notifications_in (calls_of (checkForNewAlerts "prom" alerts) Scenario.polled))
  ∧ (sent = batch Scenario.polled 1
     ∨ ∃ alert,
         In alert (new_alerts ["fp1"; "fp2"] alerts)
         ∧ fst sent = "am-alert-" +:+ fingerprint alert
         ∧ let n := snd sent in
           let severity := label_severity alert in
           let alertname := labels alert ≫= (.!! "alertname") in
           let summary := annotations alert ≫= (.!! "summary") in
           (priority n = 2%Z ↔ severity = Some "critical")
           ∧ (severity ≠ Some "critical" → priority n = 1%Z)
           ∧ title n = "[" +:+ toUpperCase Scenario.polled
                                 (JS.or_default severity "unknown") +:+ "] "
                       +:+ JS.or_default alertname "Alert"
           ∧ (∀ s, summary = Some s → s ≠ "" → message n = s)
           ∧ (summary = None ∨ summary = Some "" → message n = "New alert fired")).
Proof.
  assert (Hin : In (individual Scenario.polled Scenario.fp3)
                  (notifications_in
                     (calls_of (checkForNewAlerts "prom"
                                  [Scenario.fp1; Scenario.fp2; Scenario.fp3])
                        Scenario.polled))).
  { vm_compute. left. reflexivity. }
  split; [exact Hin|].
  apply (individual_notification_content "prom"
           [Scenario.fp1; Scenario.fp2; Scenario.fp3] Scenario.polled ["fp1"; "fp2"]);
    [vm_compute; reflexivity | exact Hin].
Defined.

(** ** The scheduler *)

Lemma setupAlarm_run (c : Chrome) :
  setupAlarm c
  = (Returned tt,
     {| extensionId := extensionId c;
        toUpperCase := toUpperCase c;
        default_instances := default_instances c;
        storage_sync_settings := storage_sync_settings c;
        storage_local := storage_local c;
        badge := badge c;
        alarms := <[ALARM_NAME := poll_alarm c]> (delete ALARM_NAME (alarms c));
        calls := calls c ++ [call_alarms_clear ALARM_NAME;
                             call_alarms_create ALARM_NAME (poll_alarm c)] |}).
Proof.
  unfold setupAlarm. unfold bind at 1. rewrite getSettings_run.
  unfold bind, chrome_alarms_clear, chrome_alarms_create, with_call, with_alarms,
    poll_alarm.
  cbn [extensionId toUpperCase default_instances storage_sync_settings
       storage_local badge alarms calls].
  rewrite <- app_assoc. reflexivity.
Qed.

Lemma Math_max_floor (a : float) :
  ((a ?= 0.5)%float = FLt → JS.Math_max a 0.5 = 0.5%float)
  ∧ ((a ?= 0.5)%float = FGt → JS.Math_max a 0.5 = a)
  ∧ ((a ?= 0.5)%float = FEq → (JS.Math_max a 0.5 ?= 0.5)%float = FEq)
  ∧ ((a ?= 0.5)%float = FNotComparable → JS.Math_max a 0.5 = PrimFloat.nan)
  ∧ (JS.Math_max a 0.5 ?= 0.5)%float ≠ FLt.
Proof.
  unfold JS.Math_max.
  destruct (a ?= 0.5)%float eqn:H; repeat split; try done.
  - intros _. by destruct (PrimFloat.is_zero a && PrimFloat.get_sign a).
  - destruct (PrimFloat.is_zero a && PrimFloat.get_sign a); [done|]. by rewrite H.
  - by rewrite H.
Qed.

Lemma stored_intervals_spec (v : Z) : (10 ≤ v ≤ 300)%Z → In v stored_intervals.
Proof.
  intros Hv. unfold stored_intervals. apply in_map_iff.
  exists (Z.to_nat v). split; [lia|]. apply in_seq. lia.
Qed.

Lemma stored_intervals_checked : forallb period_checked stored_intervals = true.
Proof. vm_compute. reflexivity. Qed.

(** For the whole numbers of seconds from 10 to 300 the period is half a
    minute up to 30 seconds and the rounded quotient above, and it holds a
    number of minutes that is the larger of the interval and 30 seconds up
    to the rounding of one division. *)
Lemma period_of_stored_interval (v : Z) :
  (10 ≤ v ≤ 300)%Z →
  ((v ≤ 30)%Z → period_of_seconds v = 0.5%float)
  ∧ ((30 < v)%Z → period_of_seconds v = (JS.Number_of_Z v / 60)%float)
  ∧ ∃ q, exact (period_of_seconds v) = Some q
         ∧ (Qabs (q * 60 - inject_Z (Z.max v 30)) <= rounding_bound)%Q.
Proof.
  intros Hv. pose proof stored_intervals_checked as H.
  rewrite forallb_forall in H. specialize (H v (stored_intervals_spec v Hv)).
  unfold period_checked in H. apply andb_true_iff in H as [Hc Hq].
  destruct (Math_max_floor (JS.Number_of_Z v / 60)%float) as (Hlt & Hgt & _).
  split; [|split].
  - intros Hle. unfold period_of_seconds.
    destruct (JS.Number_of_Z v / 60 ?= 0.5)%float eqn:E.
    + apply Z.eqb_eq in Hc. subst v. vm_compute. reflexivity.
    + by apply Hlt.
    + apply Z.ltb_lt in Hc. lia.
    + done.
  - intros Hlt30. unfold period_of_seconds.
    destruct (JS.Number_of_Z v / 60 ?= 0.5)%float eqn:E.
    + apply Z.eqb_eq in Hc. lia.
    + apply Z.ltb_lt in Hc. lia.
    + by apply Hgt.
    + done.
  - destruct (exact (period_of_seconds v)) as [q|]; [|done].
    exists q. split; [done|]. by apply Qle_bool_iff.
Qed.






(** ** The URL of the request *)

Lemma append_cons (c : ascii) (s t : string) : String c s +:+ t = String c (s +:+ t).
Proof. reflexivity. Qed.

Lemma append_nil (t : string) : "" +:+ t = t.
Proof. reflexivity. Qed.

Lemma slashes_to_end_cons (c : ascii) (s : string) :
  AlertmanagerAPI.slashes_to_end (String c s)
  = Ascii.eqb c "/" && match s with
                       | EmptyString => true
                       | _ => AlertmanagerAPI.slashes_to_end s
                       end.
Proof. destruct s; cbn [AlertmanagerAPI.slashes_to_end]; by rewrite ?andb_true_r. Qed.

Lemma slashes_to_end_slashes (n : nat) :
  AlertmanagerAPI.slashes_to_end (slashes (S n)) = true.
Proof.
  induction n as [|n IH]; [done|].
  change (slashes (S (S n))) with (String "/" (slashes (S n))).
  rewrite slashes_to_end_cons, IH. reflexivity.
Qed.

Lemma slashes_to_end_is_slashes (s : string) :
  AlertmanagerAPI.slashes_to_end s = true → ∃ n, s = slashes (S n).
Proof.
  induction s as [|c s IH]; [done|].
  rewrite slashes_to_end_cons. intros [Hc Hs]%andb_true_iff.
  apply Ascii.eqb_eq in Hc as ->. destruct s as [|c' s'].
  - by exists 0%nat.
  - destruct (IH Hs) as [n ->]. by exists (S n).
Qed.

Lemma normalizeUrl_cons (c : ascii) (s : string) :
  AlertmanagerAPI._normalizeUrl (String c s)
  = if AlertmanagerAPI.slashes_to_end (String c s) then ""
    else String c (AlertmanagerAPI._normalizeUrl s).
Proof. reflexivity. Qed.

Lemma normalizeUrl_empty (s : string) :
  AlertmanagerAPI._normalizeUrl s = "" ↔ s = "" ∨ AlertmanagerAPI.slashes_to_end s = true.
Proof.
  destruct s as [|c s]; [by split; [left|]|].
  rewrite normalizeUrl_cons.
  destruct (AlertmanagerAPI.slashes_to_end (String c s)).
  - by split; [right|].
  - split; [done|]. by intros [?|?].
Qed.

(** What [_normalizeUrl] returns has no slash at its end. *)
Lemma normalizeUrl_no_trailing_slash (s x : string) :
  AlertmanagerAPI._normalizeUrl s ≠ x +:+ "/".
Proof.
  revert x. induction s as [|c s IH]; intros x.
  - by destruct x.
  - rewrite normalizeUrl_cons.
    destruct (AlertmanagerAPI.slashes_to_end (String c s)) eqn:Hs; [by destruct x|].
    destruct x as [|c' x]; rewrite ?append_cons, ?append_nil.
    + intros [= -> He]. rewrite slashes_to_end_cons in Hs.
      change (Ascii.eqb "/" "/") with true in Hs. cbn [andb] in Hs.
      apply normalizeUrl_empty in He as [->|He]; [done|].
      destruct s; [done|]. congruence.
    + intros [= _ He]. by apply IH in He.
Qed.

(** [_normalizeUrl] removes a run of slashes from the end, and nothing else. *)
Lemma normalizeUrl_strips (s : string) :
  ∃ n, s = AlertmanagerAPI._normalizeUrl s +:+ slashes n.
Proof.
  induction s as [|c s [n IH]]; [by exists 0%nat|].
  rewrite normalizeUrl_cons.
  destruct (AlertmanagerAPI.slashes_to_end (String c s)) eqn:Hs.
  - apply slashes_to_end_is_slashes in Hs as [k ->]. by exists (S k).
  - exists n.
    change (String c s = String c (AlertmanagerAPI._normalizeUrl s +:+ slashes n)).
    f_equal. exact IH.
Qed.

Lemma slashes_to_end_append (s : string) (n : nat) :
  s ≠ "" →
  AlertmanagerAPI.slashes_to_end (s +:+ slashes n) = AlertmanagerAPI.slashes_to_end s.
Proof.
  induction s as [|c s IH]; [done|]. intros _.
  rewrite append_cons, !slashes_to_end_cons. f_equal.
  destruct s as [|c' s'].
  - rewrite append_nil. destruct n; [done|]. apply slashes_to_end_slashes.
  - rewrite append_cons. rewrite <- append_cons. by apply IH.
Qed.

Lemma normalizeUrl_append_slashes (s : string) (n : nat) :
  AlertmanagerAPI._normalizeUrl (s +:+ slashes n) = AlertmanagerAPI._normalizeUrl s.
Proof.
  induction s as [|c s IH].
  - rewrite append_nil. destruct n; [done|].
    apply normalizeUrl_empty. right. apply slashes_to_end_slashes.
  - rewrite append_cons, !normalizeUrl_cons, IH, <- append_cons.
    by rewrite slashes_to_end_append.
Qed.

Lemma normalizeUrl_idempotent (s : string) :
  AlertmanagerAPI._normalizeUrl (AlertmanagerAPI._normalizeUrl s)
  = AlertmanagerAPI._normalizeUrl s.
Proof.
  destruct (normalizeUrl_strips s) as [n Hn].
  transitivity
    (AlertmanagerAPI._normalizeUrl (AlertmanagerAPI._normalizeUrl s +:+ slashes n)).
  - symmetry. apply normalizeUrl_append_slashes.
  - by rewrite <- Hn.
Qed.

Example normalizeUrl_examples :
  AlertmanagerAPI._normalizeUrl "http://localhost:9093///" = "http://localhost:9093"
  ∧ AlertmanagerAPI._normalizeUrl "http://am.example/base" = "http://am.example/base"
  ∧ AlertmanagerAPI._normalizeUrl "a//b/" = "a//b"
  ∧ AlertmanagerAPI._normalizeUrl "///" = "".
Proof. repeat split; reflexivity. Qed.

Example getAlerts_url_example :
  AlertmanagerAPI.getAlerts_url Scenario.parse_plain Scenario.render_plain
    Scenario.prom (defaultFilter DEFAULT_SETTINGS)
  = Returned ("http://localhost:9093/api/v2/alerts"
              +:+ "?active=true&silenced=true&inhibited=true&unprocessed=true").
Proof. reflexivity. Qed.

(** C10. [_normalizeUrl] removes all the slashes at the end of a url and
    nothing else, and it is idempotent; hence [getAlerts] requests the same
    URL for an instance whose url ends with slashes and for the same
    instance with these slashes removed. *)
Theorem normalizeUrl_request_url :
  (∀ u, AlertmanagerAPI._normalizeUrl (AlertmanagerAPI._normalizeUrl u)
        = AlertmanagerAPI._normalizeUrl u)
  ∧ (∀ u, (∃ n, u = AlertmanagerAPI._normalizeUrl u +:+ slashes n)
          ∧ ∀ x, AlertmanagerAPI._normalizeUrl u ≠ x +:+ "/")
  ∧ (∀ u n, AlertmanagerAPI._normalizeUrl (u +:+ slashes n)
            = AlertmanagerAPI._normalizeUrl u)
  ∧ (∀ URL_parse URL_toString instance filter,
       AlertmanagerAPI.getAlerts_url URL_parse URL_toString
         (with_url (AlertmanagerAPI._normalizeUrl (url instance)) instance) filter
       = AlertmanagerAPI.getAlerts_url URL_parse URL_toString instance filter)
  ∧ (∀ URL_parse URL_toString instance filter n,
       AlertmanagerAPI.getAlerts_url URL_parse URL_toString
         (with_url (url instance +:+ slashes n) instance) filter
       = AlertmanagerAPI.getAlerts_url URL_parse URL_toString instance filter).
Proof.
  split; [exact normalizeUrl_idempotent|].
  split; [intros u; split; [apply normalizeUrl_strips
                           |apply normalizeUrl_no_trailing_slash]|].
  split; [exact normalizeUrl_append_slashes|].
  split.
  - intros parse toString instance filter. unfold AlertmanagerAPI.getAlerts_url.
    cbn [url with_url]. by rewrite normalizeUrl_idempotent.
  - intros parse toString instance filter n. unfold AlertmanagerAPI.getAlerts_url.
    cbn [url with_url]. by rewrite normalizeUrl_append_slashes.
Qed.

(** * Further properties of the code

    The functions of lib/utils.js, lib/storage.js and
    lib/alertmanager-api.js that the statements above do not reach, and
    what successive poll cycles do. *)

(** ** Escaping and truncating text *)

Lemma str_cons (c : ascii) (s t : string) : String c s +:+ t = String c (s +:+ t).
Proof. reflexivity. Qed.

Lemma str_nil (t : string) : "" +:+ t = t.
Proof. reflexivity. Qed.

Lemma str_assoc (a b c : string) : (a +:+ b) +:+ c = a +:+ (b +:+ c).
Proof. induction a as [|x a IH]; [done|]. by rewrite !str_cons, IH. Qed.

Lemma replace_all_app (c : ascii) (by_ s t : string) :
  Utils.replace_all c by_ (s +:+ t)
  = Utils.replace_all c by_ s +:+ Utils.replace_all c by_ t.
Proof.
  induction s as [|x s IH]; [done|].
  rewrite str_cons. cbn [Utils.replace_all]. rewrite IH.
  destruct (Ascii.eqb x c); [by rewrite str_assoc|done].
Qed.

Lemma replace_all_absent (c : ascii) (by_ s : string) :
  occurs c s = false → Utils.replace_all c by_ s = s.
Proof.
  induction s as [|x s IH]; [done|]. cbn [occurs Utils.replace_all].
  intros [Hx Hs]%orb_false_iff. rewrite Hx. by rewrite IH.
Qed.

(** The five passes of [escapeHtml], on one character. *)
Lemma escape_passes_char (c : ascii) :
  Utils.replace_all "'" "&#39;"
    (Utils.replace_all Utils.double_quote "&quot;"
       (Utils.replace_all ">" "&gt;"
          (Utils.replace_all "<" "&lt;"
             (Utils.replace_all "&" "&amp;" (String c "")))))
  = escape_char c.
Proof.
  unfold escape_char.
  destruct (Ascii.eqb c "&") eqn:H1;
    [apply Ascii.eqb_eq in H1; subst c; reflexivity|].
  destruct (Ascii.eqb c "<") eqn:H2;
    [apply Ascii.eqb_eq in H2; subst c; reflexivity|].
  destruct (Ascii.eqb c ">") eqn:H3;
    [apply Ascii.eqb_eq in H3; subst c; reflexivity|].
  destruct (Ascii.eqb c Utils.double_quote) eqn:H4;
    [apply Ascii.eqb_eq in H4; subst c; reflexivity|].
  destruct (Ascii.eqb c "'") eqn:H5;
    [apply Ascii.eqb_eq in H5; subst c; reflexivity|].
  cbn [Utils.replace_all]. rewrite H1. cbn [Utils.replace_all]. rewrite H2.
  cbn [Utils.replace_all]. rewrite H3. cbn [Utils.replace_all]. rewrite H4.
  cbn [Utils.replace_all]. by rewrite H5.
Qed.

(** The five passes amount to one pass that escapes each character. *)
Lemma escapeHtml_each (s : string) : Utils.escapeHtml s = escape_each s.
Proof.
  assert (H : ∀ s,
    Utils.replace_all "'" "&#39;"
      (Utils.replace_all Utils.double_quote "&quot;"
         (Utils.replace_all ">" "&gt;"
            (Utils.replace_all "<" "&lt;"
               (Utils.replace_all "&" "&amp;" s))))
    = escape_each s).
  { clear s. induction s as [|c s IH]; [done|].
    change (String c s) with (String c "" +:+ s).
    rewrite !replace_all_app, IH, escape_passes_char. reflexivity. }
  destruct s; [done|]. apply H.
Qed.

Lemma occurs_app (c : ascii) (s t : string) :
  occurs c (s +:+ t) = occurs c s || occurs c t.
Proof.
  induction s as [|x s IH]; [done|].
  rewrite str_cons. cbn [occurs]. by rewrite IH, orb_assoc.
Qed.

Lemma escape_char_no_markup (c x : ascii) :
  In x markup_chars → occurs x (escape_char c) = false.
Proof.
  intros Hx. unfold escape_char.
  destruct (Ascii.eqb c "&") eqn:H1;
    [destruct Hx as [<-|[<-|[<-|[<-|[]]]]]; reflexivity|].
  destruct (Ascii.eqb c "<") eqn:H2;
    [destruct Hx as [<-|[<-|[<-|[<-|[]]]]]; reflexivity|].
  destruct (Ascii.eqb c ">") eqn:H3;
    [destruct Hx as [<-|[<-|[<-|[<-|[]]]]]; reflexivity|].
  destruct (Ascii.eqb c Utils.double_quote) eqn:H4;
    [destruct Hx as [<-|[<-|[<-|[<-|[]]]]]; reflexivity|].
  destruct (Ascii.eqb c "'") eqn:H5;
    [destruct Hx as [<-|[<-|[<-|[<-|[]]]]]; reflexivity|].
  cbn [occurs]. rewrite orb_false_r.
  destruct Hx as [<-|[<-|[<-|[<-|[]]]]]; assumption.
Qed.

Lemma escapeHtml_no_markup (str : string) (x : ascii) :
  In x markup_chars → occurs x (Utils.escapeHtml str) = false.
Proof.
  intros Hx. rewrite escapeHtml_each.
  induction str as [|c s IH]; [done|].
  cbn [escape_each]. by rewrite occurs_app, IH, escape_char_no_markup.
Qed.

(** The shape of what is written for one character: an entity for one of
    the five, the character itself for another. *)
Lemma escape_char_shape (c : ascii) :
  (∃ e, In e entity_tails ∧ escape_char c = String "&" e ∧ In c escaped_chars)
  ∨ (escape_char c = String c "" ∧ ¬ In c escaped_chars).
Proof.
  unfold escape_char, entity_tails, escaped_chars.
  destruct (Ascii.eqb c "&") eqn:H1.
  { apply Ascii.eqb_eq in H1. rewrite H1. left. exists "amp;". cbn [In]. auto 10. }
  destruct (Ascii.eqb c "<") eqn:H2.
  { apply Ascii.eqb_eq in H2. rewrite H2. left. exists "lt;". cbn [In]. auto 10. }
  destruct (Ascii.eqb c ">") eqn:H3.
  { apply Ascii.eqb_eq in H3. rewrite H3. left. exists "gt;". cbn [In]. auto 10. }
  destruct (Ascii.eqb c Utils.double_quote) eqn:H4.
  { apply Ascii.eqb_eq in H4. rewrite H4. left. exists "quot;". cbn [In]. auto 10. }
  destruct (Ascii.eqb c "'") eqn:H5.
  { apply Ascii.eqb_eq in H5. rewrite H5. left. exists "#39;". cbn [In]. auto 10. }
  right. split; [done|].
  apply Ascii.eqb_neq in H1, H2, H3, H4, H5.
  intros [?|[?|[?|[?|[?|[]]]]]]; congruence.
Qed.

(** An ampersand found in [e +:+ t], for an [e] without ampersand, lies
    in [t]. *)
Lemma ampersand_after (e t p q : string) :
  occurs "&" e = false →
  p +:+ String "&" q = e +:+ t →
  ∃ p', p = e +:+ p' ∧ p' +:+ String "&" q = t.
Proof.
  revert p. induction e as [|x e IH]; intros p He H.
  - exists p. by rewrite !str_nil in *.
  - cbn [occurs] in He. apply orb_false_iff in He as [Hx He].
    destruct p as [|y p].
    + rewrite str_nil, str_cons in H. injection H as <- _.
      by rewrite Ascii.eqb_refl in Hx.
    + rewrite !str_cons in H. injection H as -> H.
      destruct (IH p He H) as (p' & -> & Hp'). exists p'. by rewrite str_cons.
Qed.

Lemma escape_each_ampersand (s p q : string) :
  escape_each s = p +:+ String "&" q →
  ∃ e q', In e entity_tails ∧ q = e +:+ q'.
Proof.
  revert p. induction s as [|c s IH]; intros p H.
  - by destruct p.
  - cbn [escape_each] in H.
    destruct (escape_char_shape c) as [(e & He & Hc & _)|[Hc Hplain]]; rewrite Hc in H.
    + rewrite str_cons in H. destruct p as [|y p].
      * rewrite str_nil in H. injection H as <-. eauto.
      * rewrite str_cons in H. injection H as _ H. symmetry in H.
        apply ampersand_after in H as (p' & _ & H).
        { symmetry in H. eauto. }
        destruct He as [<-|[<-|[<-|[<-|[<-|[]]]]]]; reflexivity.
    + rewrite str_cons, str_nil in H. destruct p as [|y p].
      * rewrite str_nil in H. injection H as -> _.
        exfalso. apply Hplain. by left.
      * rewrite str_cons in H. injection H as _ H. eauto.
Qed.

(** X1. What [escapeHtml] returns holds no <, no >, no double quote and no
    apostrophe, and each of its ampersands opens one of the five entities
    amp, lt, gt, quot and #39. *)
Theorem escapeHtml_safe (str : string) :
  let out := Utils.escapeHtml str in
  occurs "<" out = false
  ∧ occurs ">" out = false
  ∧ occurs Utils.double_quote out = false
  ∧ occurs "'" out = false
  ∧ (∀ p q, out = p +:+ String "&" q → ∃ e q', In e entity_tails ∧ q = e +:+ q').
Proof.
  cbn zeta. repeat split;
    try (apply escapeHtml_no_markup; unfold markup_chars; cbn; tauto).
  intros p q H. rewrite escapeHtml_each in H. by eapply escape_each_ampersand.
Qed.

Lemma escape_each_plain (s : string) :
  (∀ c, In c escaped_chars → occurs c s = false) → escape_each s = s.
Proof.
  induction s as [|x s IH]; [done|]. intros H.
  cbn [escape_each]. rewrite IH.
  - destruct (escape_char_shape x) as [(e & _ & _ & Hx)|[-> _]]; [|done].
    specialize (H x Hx). cbn [occurs] in H. by rewrite Ascii.eqb_refl in H.
  - intros c Hc. specialize (H c Hc). cbn [occurs] in H.
    by apply orb_false_iff in H as [_ ?].
Qed.

Lemma entity_tails_distinct (c1 c2 : ascii) (e1 e2 t1 t2 : string) :
  escape_char c1 = String "&" e1 → escape_char c2 = String "&" e2 →
  In c1 escaped_chars → In c2 escaped_chars →
  e1 +:+ t1 = e2 +:+ t2 → c1 = c2 ∧ t1 = t2.
Proof.
  intros H1 H2 Hc1 Hc2 H.
  destruct Hc1 as [<-|[<-|[<-|[<-|[<-|[]]]]]];
    destruct Hc2 as [<-|[<-|[<-|[<-|[<-|[]]]]]];
    injection H1 as <-; injection H2 as <-;
    rewrite ?str_cons, ?str_nil in H;
    (discriminate H || (injection H as H; by subst)).
Qed.

Lemma escape_each_inj (s1 s2 : string) :
  escape_each s1 = escape_each s2 → s1 = s2.
Proof.
  revert s2. induction s1 as [|c1 s1 IH]; intros [|c2 s2] H; [done| | |].
  - cbn [escape_each] in H.
    destruct (escape_char_shape c2) as [(e & _ & Hc & _)|[Hc _]];
      rewrite Hc in H; discriminate.
  - cbn [escape_each] in H.
    destruct (escape_char_shape c1) as [(e & _ & Hc & _)|[Hc _]];
      rewrite Hc in H; discriminate.
  - cbn [escape_each] in H.
    destruct (escape_char_shape c1) as [(e1 & _ & Hc1 & Hin1)|[Hc1 Hp1]];
      destruct (escape_char_shape c2) as [(e2 & _ & Hc2 & Hin2)|[Hc2 Hp2]];
      rewrite Hc1, Hc2 in H; rewrite ?str_cons, ?str_nil in H.
    + injection H as H.
      destruct (entity_tails_distinct _ _ _ _ _ _ Hc1 Hc2 Hin1 Hin2 H) as [-> Ht].
      by rewrite (IH _ Ht).
    + injection H as <- _. exfalso. apply Hp2. by left.
    + injection H as -> _. exfalso. apply Hp1. by left.
    + injection H as -> H. by rewrite (IH _ H).
Qed.

(** X2. [escapeHtml] loses nothing: two texts with the same escaped form are
    the same text; and a text without any of the five characters is
    returned as it is. *)
Theorem escapeHtml_faithful :
  (∀ s1 s2, Utils.escapeHtml s1 = Utils.escapeHtml s2 → s1 = s2)
  ∧ (∀ s, (∀ c, In c escaped_chars → occurs c s = false) → Utils.escapeHtml s = s).
Proof.
  split.
  - intros s1 s2. rewrite !escapeHtml_each. apply escape_each_inj.
  - intros s H. rewrite escapeHtml_each. by apply escape_each_plain.
Qed.

Example escapeHtml_example :
  Utils.escapeHtml "<a href='x'>Tom & Jerry</a>"
  = "&lt;a href=&#39;x&#39;&gt;Tom &amp; Jerry&lt;/a&gt;".
Proof. reflexivity. Qed.

(** X3. [truncate] returns a string of at most [max] code units, and the
    empty string, as it is; a longer one is cut to its first [max] code
    units (none for a negative [max]) followed by the ellipsis. The result
    is never longer than the string, nor than [max] + 1 code units. *)
Theorem truncate_bounds {U} (ellipsis : U) (str : list U) (max : Z) :
  let out := Utils.truncate U ellipsis str max in
  ((Z.of_nat (length str) <= max)%Z → out = str)
  ∧ (str ≠ [] → (max < Z.of_nat (length str))%Z →
     out = take (Z.to_nat max) str ++ [ellipsis]
     ∧ length out = S (Z.to_nat max))
  ∧ (length out ≤ length str)%nat
  ∧ (Z.of_nat (length out) <= Z.max 0 max + 1)%Z.
Proof.
  cbn zeta. unfold Utils.truncate.
  destruct str as [|x str]; [cbn; repeat split; intros; try done; lia|].
  destruct (Z.leb_spec (Z.of_nat (length (x :: str))) max) as [Hle|Hgt].
  - repeat split; intros; try done; lia.
  - assert (Hlen : length (take (Z.to_nat max) (x :: str) ++ [ellipsis])
                   = S (Z.to_nat max)).
    { rewrite length_app, length_take. cbn [length] in *. lia. }
    repeat split; intros; try done; try lia.
    rewrite Hlen. cbn [length] in *. lia.
Qed.

Lemma truncate_bounds_witness :
  Utils.truncate Z 8230%Z [72; 105; 103; 104; 108; 111; 97; 100]%Z 4
  = [72; 105; 103; 104; 8230]%Z
  ∧ Utils.truncate Z 8230%Z [72; 105]%Z 4 = [72; 105]%Z.
Proof.
  destruct (truncate_bounds 8230%Z [72; 105; 103; 104; 108; 111; 97; 100]%Z 4)
    as (_ & Hcut & _).
  destruct (truncate_bounds 8230%Z [72; 105]%Z 4) as (Hkeep & _).
  split.
  - apply Hcut; [done|]. cbn. lia.
  - apply Hkeep. cbn. lia.
Defined.

Lemma is_false_both (a b : option bool) :
  AlertLists.is_false (both_flags a b) = AlertLists.is_false a || AlertLists.is_false b.
Proof. unfold both_flags. by destruct (_ || _). Qed.

Lemma keeps_both (f g : Filter) (a : Alert) :
  AlertLists.keeps (both_filters f g) a = AlertLists.keeps f a && AlertLists.keeps g a.
Proof.
  unfold AlertLists.keeps, both_filters.
  cbn [active silenced inhibited unprocessed]. rewrite !is_false_both.
  destruct (JS.strict_eq (status a ≫= state) "active"),
    (JS.strict_eq (status a ≫= state) "suppressed"),
    (JS.strict_eq (status a ≫= state) "unprocessed"),
    (0 <? length (from_option silencedBy [] (status a)))%nat,
    (0 <? length (from_option inhibitedBy [] (status a)))%nat,
    (AlertLists.is_false (active f)), (AlertLists.is_false (active g)),
    (AlertLists.is_false (silenced f)), (AlertLists.is_false (silenced g)),
    (AlertLists.is_false (inhibited f)), (AlertLists.is_false (inhibited g)),
    (AlertLists.is_false (unprocessed f)), (AlertLists.is_false (unprocessed g));
    reflexivity.
Qed.

Lemma filter_filter {A} (p q : A -> bool) (l : list A) :
  List.filter q (List.filter p l) = List.filter (fun x => p x && q x) l.
Proof.
  induction l as [|x l IH]; [done|]. cbn [List.filter].
  destruct (p x); cbn [List.filter andb]; [|done]. by rewrite IH.
Qed.

(** X4. Filtering twice is filtering once by the filter that hides what
    either hides; hence the order of two filters does not matter and
    filtering again by the same filter changes nothing. *)
Theorem filterByState_compose (alerts : list Alert) (f g : Filter) :
  AlertLists.filterByState (AlertLists.filterByState alerts f) g
  = AlertLists.filterByState alerts (both_filters f g)
  ∧ AlertLists.filterByState (AlertLists.filterByState alerts f) g
    = AlertLists.filterByState (AlertLists.filterByState alerts g) f
  ∧ AlertLists.filterByState (AlertLists.filterByState alerts f) f
    = AlertLists.filterByState alerts f.
Proof.
  unfold AlertLists.filterByState. rewrite !filter_filter. repeat split.
  - apply List.filter_ext. intros a. by rewrite keeps_both.
  - apply List.filter_ext. intros a. apply andb_comm.
  - apply List.filter_ext. intros a. apply andb_diag.
Qed.

Lemma filter_all {A} (p : A -> bool) (l : list A) :
  (∀ x, In x l → p x = true) → List.filter p l = l.
Proof.
  induction l as [|x l IH]; [done|]. intros H. cbn [List.filter].
  rewrite (H x) by (by left). rewrite IH; [done|]. intros y Hy. apply H. by right.
Qed.

(** X5. A filter of which no flag is [false] (flags left out count as set)
    returns every alert; and under any filter the alerts in a state other
    than active, suppressed and unprocessed stay, as do the suppressed
    alerts that name neither a silence nor an inhibiting alert. The popup,
    whose filter has no flag for them, always shows the unprocessed
    alerts. *)
Theorem filterByState_keeps (alerts : list Alert) (f : Filter) :
  (AlertLists.is_false (active f) = false →
   AlertLists.is_false (silenced f) = false →
   AlertLists.is_false (inhibited f) = false →
   AlertLists.is_false (unprocessed f) = false →
   AlertLists.filterByState alerts f = alerts)
  ∧ (∀ a, In a alerts →
       JS.strict_eq (status a ≫= state) "active" = false →
       JS.strict_eq (status a ≫= state) "unprocessed" = false →
       (JS.strict_eq (status a ≫= state) "suppressed" = true →
        from_option silencedBy [] (status a) = []
        ∧ from_option inhibitedBy [] (status a) = []) →
       In a (AlertLists.filterByState alerts f))
  ∧ (∀ a x y z, In a alerts →
       JS.strict_eq (status a ≫= state) "unprocessed" = true →
       In a (AlertLists.filterByState alerts (popup_filter x y z))).
Proof.
  split; [|split].
  - intros Ha Hs Hi Hu. apply filter_all. intros a _.
    unfold AlertLists.keeps. rewrite Ha, Hs, Hi, Hu.
    by rewrite !andb_false_r.
  - intros a Hin Hact Hunp Hsup. apply filter_In. split; [done|].
    unfold AlertLists.keeps. rewrite Hact, Hunp. cbn [andb].
    destruct (JS.strict_eq (status a ≫= state) "suppressed"); [|done].
    destruct (Hsup eq_refl) as [-> ->]. reflexivity.
  - intros a x y z Hin Hunp. apply filter_In. split; [done|].
    unfold AlertLists.keeps, popup_filter. cbn [active silenced inhibited unprocessed].
    destruct (status a ≫= state) as [s|]; [|done].
    cbn [JS.strict_eq] in *. apply String.eqb_eq in Hunp as ->. reflexivity.
Qed.

Lemma group_of_snoc (groupBy key : string) (seen : list Alert) (a : Alert) :
  group_of groupBy key (seen ++ [a])
  = if String.eqb (AlertLists.group_key groupBy a) key
    then Some (from_option id [] (group_of groupBy key seen) ++ [a])
    else group_of groupBy key seen.
Proof.
  unfold group_of. rewrite List.filter_app. cbn [List.filter].
  destruct (String.eqb (AlertLists.group_key groupBy a) key).
  - destruct (List.filter _ seen); reflexivity.
  - by rewrite app_nil_r.
Qed.

(** The rounds of [groupAlerts], from the groups of the alerts seen so
    far. *)
Lemma group_from_spec (groupBy : string) (rest seen : list Alert)
    (groups : gmap string (list Alert)) :
  (∀ key, groups !! key = group_of groupBy key seen) →
  (∀ a, In a seen → inherited_key groupBy a = false) →
  match AlertLists.group_from groupBy groups rest with
  | Returned groups' =>
      (∀ a, In a rest → inherited_key groupBy a = false)
      ∧ ∀ key, groups' !! key = group_of groupBy key (seen ++ rest)
  | Thrown err =>
      err = "groups[key].push is not a function"
      ∧ ∃ a, In a rest ∧ inherited_key groupBy a = true
  end.
Proof.
  revert seen groups. induction rest as [|a rest IH]; intros seen groups Hg Hseen.
  - cbn [AlertLists.group_from]. split; [by intros ? []|].
    intros key. by rewrite app_nil_r.
  - cbn [AlertLists.group_from]. unfold AlertLists.group_step.
    pose proof (Hg (AlertLists.group_key groupBy a)) as Hk.
    assert (Hnext : ∀ groups',
      (∀ key, groups' !! key = group_of groupBy key (seen ++ [a])) →
      inherited_key groupBy a = false →
      match AlertLists.group_from groupBy groups' rest with
      | Returned groups'' =>
          (∀ x, In x (a :: rest) → inherited_key groupBy x = false)
          ∧ ∀ key, groups'' !! key = group_of groupBy key (seen ++ a :: rest)
      | Thrown err =>
          err = "groups[key].push is not a function"
          ∧ ∃ x, In x (a :: rest) ∧ inherited_key groupBy x = true
      end).
    { intros groups' Hg' Ha.
      specialize (IH (seen ++ [a]) groups' Hg').
      destruct (AlertLists.group_from groupBy groups' rest) as [groups''|err].
      - destruct IH as [Hrest Hall].
        { intros x [Hx|[<-|[]]]%in_app_or; auto. }
        split; [by intros x [<-|Hx]; auto|].
        intros key. by rewrite Hall, <- app_assoc.
      - destruct IH as [-> (x & Hx & Hinh)].
        { intros x [Hx|[<-|[]]]%in_app_or; auto. }
        split; [done|]. exists x. split; [by right|done]. }
    assert (Hins : ∀ group,
      group_of groupBy (AlertLists.group_key groupBy a) seen = group →
      ∀ key,
        <[AlertLists.group_key groupBy a := from_option id [] group ++ [a]]> groups
        !! key
        = group_of groupBy key (seen ++ [a])).
    { intros group Hgroup key. rewrite group_of_snoc.
      destruct (String.eqb_spec (AlertLists.group_key groupBy a) key) as [<-|Hne].
      - by rewrite lookup_insert_eq, Hgroup.
      - by rewrite lookup_insert_ne, Hg. }
    destruct (groups !! AlertLists.group_key groupBy a) as [group|] eqn:Hlook.
    + assert (Ha : inherited_key groupBy a = false).
      { symmetry in Hk. unfold group_of in Hk.
        destruct (List.filter _ seen) as [|x l] eqn:Hf; [done|].
        assert (Hx : In x (List.filter
                            (fun a0 => String.eqb (AlertLists.group_key groupBy a0)
                                         (AlertLists.group_key groupBy a)) seen))
          by (rewrite Hf; by left).
        apply filter_In in Hx as [Hx Heq]. apply String.eqb_eq in Heq.
        specialize (Hseen x Hx). unfold inherited_key in *. by rewrite <- Heq. }
      apply Hnext; [|done]. apply (Hins (Some group)). by rewrite <- Hk.
    + fold (inherited_key groupBy a).
      destruct (inherited_key groupBy a) eqn:Ha.
      * split; [done|]. exists a. split; [by left|done].
      * apply Hnext; [|done]. apply (Hins None). by rewrite <- Hk.
Qed.

(** X6. [groupAlerts] throws exactly when the group of some alert is named
    like a property that the empty object inherits (constructor, toString,
    __proto__, ...). Otherwise it returns, under each value of the label
    (Unknown for an alert without it), the alerts with that value in the
    order of the list, and no empty group. The label grouped by is not
    itself such a name. *)
Theorem groupAlerts_partition (alerts : list Alert) (groupBy : string) :
  JS.includes AlertLists.Object_prototype_names groupBy = false →
  match AlertLists.groupAlerts alerts groupBy with
  | Returned groups =>
      (∀ a, In a alerts → inherited_key groupBy a = false)
      ∧ ∀ key, groups !! key = group_of groupBy key alerts
  | Thrown err =>
      err = "groups[key].push is not a function"
      ∧ ∃ a, In a alerts ∧ inherited_key groupBy a = true
  end.
Proof.
  intros _. unfold AlertLists.groupAlerts.
  apply (group_from_spec groupBy alerts [] ∅); [|by intros ? []].
  intros key. by rewrite lookup_empty.
Qed.

Lemma groupAlerts_partition_witness :
  match AlertLists.groupAlerts [Scenario.fp1; Scenario.fp2; Samples.fp2_muted]
          "severity" with
  | Returned groups =>
      (∀ a, In a [Scenario.fp1; Scenario.fp2; Samples.fp2_muted] →
            inherited_key "severity" a = false)
      ∧ ∀ key, groups !! key
               = group_of "severity" key
                   [Scenario.fp1; Scenario.fp2; Samples.fp2_muted]
  | Thrown err =>
      err = "groups[key].push is not a function"
      ∧ ∃ a, In a [Scenario.fp1; Scenario.fp2; Samples.fp2_muted]
             ∧ inherited_key "severity" a = true
  end.
Proof.
  apply (groupAlerts_partition [Scenario.fp1; Scenario.fp2; Samples.fp2_muted]
           "severity").
  vm_compute. reflexivity.
Defined.

(** ** The storage wrapper *)

Lemma spread_stored_of (d s : Settings) : spread d (Some (stored_of s)) = s.
Proof. by destruct s. Qed.

Lemma settings_after_set (s : Settings) (c : Chrome) :
  settings_of (exec (chrome_storage_sync_set_settings (stored_of s)) c) = s.
Proof. apply spread_stored_of. Qed.

Lemma settings_of_with_sync (v : option StoredSettings) (c : Chrome) :
  settings_of (with_storage_sync_settings v c)
  = spread (with_instances (default_instances c) DEFAULT_SETTINGS) v.
Proof. reflexivity. Qed.

Lemma saveSettings_run (partial : StoredSettings) (c : Chrome) :
  Storage.saveSettings partial c
  = (Returned tt,
     with_storage_sync_settings
       (Some (stored_of (spread (settings_of c) (Some partial)))) c).
Proof. reflexivity. Qed.

Lemma settings_after_save (partial : StoredSettings) (c : Chrome) :
  settings_of (exec (Storage.saveSettings partial) c)
  = spread (settings_of c) (Some partial).
Proof. unfold exec. rewrite saveSettings_run. apply spread_stored_of. Qed.

Lemma spread_twice (s : Settings) (partial : StoredSettings) :
  spread (spread s (Some partial)) (Some partial) = spread s (Some partial).
Proof.
  destruct partial as [[?|] [?|] [?|] [?|] [?|] [?|] [?|]]; reflexivity.
Qed.

(** X7. [saveSettings(partial)] stores the settings read before with the
    keys of [partial] replaced: what [getSettings] returns afterwards is
    that merge, a key that [partial] leaves out keeps its value, saving the
    same [partial] again changes nothing, and the local storage, the badge
    and the alarms are not touched. *)
Theorem saveSettings_merges (partial : StoredSettings) (c : Chrome) :
  let c' := exec (Storage.saveSettings partial) c in
  result Storage.getSettings c' = Returned (spread (settings_of c) (Some partial))
  ∧ (stored_pollInterval partial = None →
     pollInterval (settings_of c') = pollInterval (settings_of c))
  ∧ (stored_instances partial = None →
     instances (settings_of c') = instances (settings_of c))
  ∧ (stored_activeInstanceId partial = None →
     activeInstanceId (settings_of c') = activeInstanceId (settings_of c))
  ∧ exec (Storage.saveSettings partial) c' = c'
  ∧ storage_local c' = storage_local c
  ∧ badge c' = badge c
  ∧ alarms c' = alarms c
  ∧ calls c' = calls c.
Proof.
  cbn zeta. unfold result. rewrite getSettings_run. cbn [fst].
  rewrite !settings_after_save.
  split; [done|].
  split; [intros H; unfold spread; cbn [pollInterval]; by rewrite H|].
  split; [intros H; unfold spread; cbn [instances]; by rewrite H|].
  split; [intros H; unfold spread; cbn [activeInstanceId]; by rewrite H|].
  split; [|done].
  unfold exec. rewrite !saveSettings_run. cbn [snd].
  rewrite settings_of_with_sync.
  by rewrite spread_stored_of, spread_twice.
Qed.

Lemma addInstance_settings (uuid : string) (instance : Instance) (c : Chrome) :
  settings_of (exec (Storage.addInstance uuid instance) c)
  = let s := with_instances (instances (settings_of c) ++ [with_new_id uuid instance])
               (settings_of c) in
    match activeInstanceId (settings_of c) with
    | None | Some EmptyString =>
        with_activeInstanceId (Some (inst_id (with_new_id uuid instance))) s
    | Some _ => s
    end.
Proof.
  unfold Storage.addInstance, exec, bind at 1. rewrite getSettings_run.
  unfold bind at 1, Storage.change_instances_in_place.
  destruct (storage_sync_settings c ≫= stored_instances);
    rewrite saveSettings_run; cbn [snd];
    rewrite settings_of_with_sync, !spread_stored_of; reflexivity.
Qed.

Lemma removeInstance_settings (id : string) (c : Chrome) :
  settings_of (exec (Storage.removeInstance id) c)
  = let l := List.filter (fun i => negb (String.eqb (inst_id i) id))
               (instances (settings_of c)) in
    let s := with_instances l (settings_of c) in
    if JS.strict_eq (activeInstanceId (settings_of c)) id
    then with_activeInstanceId (first_id l) s
    else s.
Proof.
  unfold Storage.removeInstance, exec, bind at 1. rewrite getSettings_run.
  rewrite saveSettings_run. cbn [snd].
  rewrite settings_of_with_sync, !spread_stored_of. reflexivity.
Qed.

Lemma getActiveInstance_result (c : Chrome) :
  result Storage.getActiveInstance c
  = Returned
      match activeInstanceId (settings_of c) with
      | None | Some EmptyString => None
      | Some a =>
          List.find (fun i => String.eqb (inst_id i) a) (instances (settings_of c))
      end.
Proof.
  unfold result, Storage.getActiveInstance, bind. rewrite getSettings_run.
  by destruct (activeInstanceId (settings_of c)) as [[]|].
Qed.

Lemma find_first {A} (p : A -> bool) (l : list A) (x : A) :
  (∀ y, In y l → p y = false) → p x = true → List.find p (l ++ [x]) = Some x.
Proof.
  induction l as [|y l IH]; intros H Hx; cbn [app List.find].
  - by rewrite Hx.
  - rewrite (H y) by (by left). apply IH; [|done]. intros z Hz. apply H. by right.
Qed.

Lemma addInstance_state (uuid : string) (instance : Instance) (c : Chrome) :
  let c' := exec (Storage.addInstance uuid instance) c in
  storage_local c' = storage_local c
  ∧ default_instances c'
    = match storage_sync_settings c ≫= stored_instances with
      | Some _ => default_instances c
      | None => default_instances c ++ [with_new_id uuid instance]
      end.
Proof.
  cbn zeta.
  assert (H : ∃ v, exec (Storage.addInstance uuid instance) c
                   = with_storage_sync_settings v
                       match storage_sync_settings c ≫= stored_instances with
                       | Some _ => c
                       | None =>
                           with_default_instances
                             (default_instances c ++ [with_new_id uuid instance]) c
                       end).
  { unfold Storage.addInstance, exec, bind at 1. rewrite getSettings_run.
    unfold bind at 1, Storage.change_instances_in_place.
    destruct (storage_sync_settings c ≫= stored_instances);
      rewrite saveSettings_run; cbn [snd]; eauto. }
  destruct H as [v ->].
  destruct (storage_sync_settings c ≫= stored_instances); split; reflexivity.
Qed.

Lemma instances_of_settings (c : Chrome) :
  instances (settings_of c)
  = default (default_instances c) (storage_sync_settings c ≫= stored_instances).
Proof.
  unfold settings_of, spread. by destruct (storage_sync_settings c) as [[[l|]]|].
Qed.

(** X8. [addInstance] appends the instance, with a fresh id when it has
    none, to the instances [getSettings] returns and keeps the others; it
    makes the new instance the active one exactly when none was active.
    When none was active and no instance has the id of the new one,
    [getActiveInstance] then returns the new instance. The instance is
    pushed onto the array [getSettings] returned: when the stored object
    has instances of its own the defaults of the script are not touched,
    and when it has none the array is that of DEFAULT_SETTINGS, which
    holds the new instance from then on, so that it is still returned in
    that script once the stored settings are gone. *)
Theorem addInstance_appends (uuid : string) (instance : Instance) (c : Chrome) :
  let before := settings_of c in
  let added := with_new_id uuid instance in
  let c' := exec (Storage.addInstance uuid instance) c in
  result Storage.getInstances c' = Returned (instances before ++ [added])
  ∧ (activeInstanceId before = None ∨ activeInstanceId before = Some "" →
     activeInstanceId (settings_of c') = Some (inst_id added))
  ∧ (∀ a, activeInstanceId before = Some a → a ≠ "" →
       activeInstanceId (settings_of c') = Some a)
  ∧ (activeInstanceId before = None ∨ activeInstanceId before = Some "" →
     inst_id added ≠ "" →
     (∀ i, In i (instances before) → inst_id i ≠ inst_id added) →
     result Storage.getActiveInstance c' = Returned (Some added))
  ∧ storage_local c' = storage_local c
  ∧ (∀ stored, storage_sync_settings c ≫= stored_instances = Some stored →
       instances before = stored ∧ default_instances c' = default_instances c)
  ∧ (storage_sync_settings c ≫= stored_instances = None →
     instances before = default_instances c
     ∧ default_instances c' = default_instances c ++ [added]
     ∧ result Storage.getInstances (with_storage_sync_settings None c')
       = Returned (default_instances c ++ [added])).
Proof.
  cbn zeta.
  assert (Hs := addInstance_settings uuid instance c). cbn zeta in Hs.
  destruct (addInstance_state uuid instance c) as [Hl Hd].
  split; [|split; [|split; [|split; [|split; [exact Hl|split]]]]].
  - unfold result, Storage.getInstances, bind. rewrite getSettings_run.
    cbn [fst ret]. rewrite Hs.
    by destruct (activeInstanceId (settings_of c)) as [[]|].
  - intros [H|H]; rewrite Hs, H; reflexivity.
  - intros a H Ha. rewrite Hs, H. by destruct a.
  - intros Hnone Hid Hfresh. rewrite getActiveInstance_result.
    assert (Hs' : settings_of (exec (Storage.addInstance uuid instance) c)
                  = with_activeInstanceId (Some (inst_id (with_new_id uuid instance)))
                      (with_instances
                         (instances (settings_of c) ++ [with_new_id uuid instance])
                         (settings_of c))).
    { rewrite Hs. by destruct Hnone as [-> | ->]. }
    rewrite Hs'. cbn [activeInstanceId instances with_activeInstanceId with_instances].
    destruct (inst_id (with_new_id uuid instance)) as [|x r] eqn:Hnew; [done|].
    f_equal. apply find_first.
    + intros i Hi. apply String.eqb_neq. by apply Hfresh.
    + apply String.eqb_eq. exact Hnew.
  - intros stored H. rewrite instances_of_settings, Hd, H. done.
  - intros H. rewrite instances_of_settings, Hd, H. split; [done|]. split; [done|].
    unfold result, Storage.getInstances, bind. rewrite getSettings_run.
    cbn [fst ret]. rewrite instances_of_settings.
    cbn [storage_sync_settings default_instances with_storage_sync_settings
         mbind option_bind default]. by rewrite Hd, H.
Qed.

(** In a script of a browser where nothing is stored, an instance that was
    added is still there after the stored settings are removed, and the
    next one is appended after it. *)
Example addInstance_changes_the_defaults :
  let c1 := exec (Storage.addInstance "id-1" Samples.staging) Samples.unconfigured in
  let c2 := with_storage_sync_settings None c1 in
  let c3 := exec (Storage.addInstance "id-2" Scenario.prom) c2 in
  storage_sync_settings c2 = None
  ∧ map inst_name (default_instances c2) = ["Staging"]
  ∧ result Storage.getInstances c2 = Returned [with_new_id "id-1" Samples.staging]
  ∧ result Storage.getInstances c3
    = Returned [with_new_id "id-1" Samples.staging; Scenario.prom].
Proof. vm_compute. done. Qed.

(** X9. After [removeInstance(id)] no stored instance has the id [id], the
    other instances are kept in order, and [getActiveInstance] never
    returns an instance of that id. When the removed id was the active
    one, the first remaining instance becomes active, or none when nothing
    remains; otherwise the active id is kept. *)
Theorem removeInstance_removes (id : string) (c : Chrome) :
  let before := settings_of c in
  let c' := exec (Storage.removeInstance id) c in
  let remaining :=
    List.filter (fun i => negb (String.eqb (inst_id i) id)) (instances before) in
  result Storage.getInstances c' = Returned remaining
  ∧ (∀ i, In i remaining ↔ In i (instances before) ∧ inst_id i ≠ id)
  ∧ (∀ i, result Storage.getActiveInstance c' = Returned (Some i) → inst_id i ≠ id)
  ∧ (activeInstanceId before = Some id →
     activeInstanceId (settings_of c') = first_id remaining)
  ∧ (activeInstanceId before ≠ Some id →
     activeInstanceId (settings_of c') = activeInstanceId before)
  ∧ storage_local c' = storage_local c.
Proof.
  cbn zeta.
  assert (Hs := removeInstance_settings id c). cbn zeta in Hs.
  assert (Hin : ∀ i,
    In i (List.filter (fun i => negb (String.eqb (inst_id i) id))
            (instances (settings_of c)))
    ↔ In i (instances (settings_of c)) ∧ inst_id i ≠ id).
  { intros i. rewrite filter_In, negb_true_iff, String.eqb_neq. done. }
  assert (Hi : instances (settings_of (exec (Storage.removeInstance id) c))
               = List.filter (fun i => negb (String.eqb (inst_id i) id))
                   (instances (settings_of c))).
  { rewrite Hs. by destruct (JS.strict_eq _ _). }
  split; [|split; [exact Hin|split; [|split; [|split]]]].
  - unfold result, Storage.getInstances, bind. rewrite getSettings_run.
    cbn [fst ret]. by rewrite Hi.
  - intros i. rewrite getActiveInstance_result.
    remember (settings_of (exec (Storage.removeInstance id) c)) as s' eqn:Es.
    clear Es Hs. intros H.
    destruct (activeInstanceId s') as [[|x a]|]; [done| |done].
    injection H as H.
    apply find_some in H as [H _]. rewrite Hi in H. by apply Hin in H as [_ ?].
  - intros H. rewrite Hs, H. cbn [JS.strict_eq]. by rewrite String.eqb_refl.
  - intros H. rewrite Hs.
    destruct (JS.strict_eq (activeInstanceId (settings_of c)) id) eqn:Heq; [|done].
    exfalso. apply H. destruct (activeInstanceId (settings_of c)) as [a|]; [|done].
    cbn [JS.strict_eq] in Heq. by apply String.eqb_eq in Heq as ->.
  - reflexivity.
Qed.

Lemma first_id_valid (l : list Instance) (a : string) :
  first_id l = Some a → a ≠ "" ∧ ∃ i, In i l ∧ inst_id i = a.
Proof.
  destruct l as [|first l]; [done|]. cbn [first_id].
  destruct (inst_id first) as [|x r] eqn:Hid; [done|]. intros [= <-].
  split; [done|]. exists first. split; [by left|done].
Qed.

(** X10. The stored settings stay sound under [addInstance] (with a
    non-empty fresh id) and [removeInstance]: if the active id, when not
    [null], is the non-empty id of a stored instance before, so it is
    after; and for such settings [getActiveInstance] returns an instance
    whenever the active id is not [null]. *)
Theorem active_instance_invariant (c : Chrome) :
  active_valid (settings_of c) →
  (∀ uuid instance, uuid ≠ "" →
     active_valid (settings_of (exec (Storage.addInstance uuid instance) c)))
  ∧ (∀ id, active_valid (settings_of (exec (Storage.removeInstance id) c)))
  ∧ (activeInstanceId (settings_of c) ≠ None →
     ∃ i, result Storage.getActiveInstance c = Returned (Some i)
          ∧ Some (inst_id i) = activeInstanceId (settings_of c)).
Proof.
  unfold active_valid. intros Hv. split; [|split].
  - intros uuid instance Huuid. rewrite addInstance_settings. cbn zeta.
    assert (Hnew : inst_id (with_new_id uuid instance) ≠ "").
    { unfold with_new_id. cbn [inst_id]. by destruct (inst_id instance). }
    destruct (activeInstanceId (settings_of c)) as [[|x a]|] eqn:Ha.
    + by destruct Hv.
    + cbn [activeInstanceId instances with_instances]. rewrite Ha.
      destruct Hv as [Hne (i & Hi & Hid)]. split; [done|].
      exists i. split; [|done]. apply in_or_app. by left.
    + cbn [activeInstanceId instances with_instances with_activeInstanceId].
      split; [done|]. exists (with_new_id uuid instance).
      split; [|done]. apply in_or_app. right. by left.
  - intros id. rewrite removeInstance_settings. cbn zeta.
    destruct (JS.strict_eq (activeInstanceId (settings_of c)) id) eqn:Heq.
    + cbn [activeInstanceId instances with_instances with_activeInstanceId].
      destruct (first_id _) as [a|] eqn:Hf; [|done]. by apply first_id_valid.
    + cbn [activeInstanceId instances with_instances].
      destruct (activeInstanceId (settings_of c)) as [a|]; [|done].
      destruct Hv as [Hne (i & Hi & Hid)]. split; [done|].
      exists i. split; [|done]. apply filter_In. split; [done|].
      apply negb_true_iff, String.eqb_neq. cbn [JS.strict_eq] in Heq.
      apply String.eqb_neq in Heq. congruence.
  - intros Hsome. rewrite getActiveInstance_result.
    destruct (activeInstanceId (settings_of c)) as [a|]; [|done].
    destruct Hv as [Hne (i & Hi & Hid)].
    destruct a as [|x a]; [done|].
    destruct (List.find (fun i => String.eqb (inst_id i) (String x a))
                (instances (settings_of c))) as [j|] eqn:Hfind.
    + exists j. split; [done|]. apply find_some in Hfind as [_ Hj].
      by apply String.eqb_eq in Hj as ->.
    + exfalso. apply (find_none _ _ Hfind) in Hi. apply String.eqb_neq in Hi. done.
Qed.

Lemma findIndex_none {A} (p : A -> bool) (l : list A) :
  findIndex p l = None ↔ ∀ x, In x l → p x = false.
Proof.
  induction l as [|y l IH]; cbn [findIndex].
  - split; [by intros _ ? []|done].
  - destruct (p y) eqn:Hy.
    + split; [done|]. intros H. specialize (H y (or_introl eq_refl)). congruence.
    + destruct (findIndex p l) as [n|]; cbn [fmap option_fmap option_map].
      * split; [done|]. intros H. exfalso.
        assert (Hn : Some n = None); [|done].
        apply (proj2 IH). intros x Hx. apply H. by right.
      * split; [|done]. intros _ x [<-|Hx]; [done|]. by apply (proj1 IH).
Qed.

Lemma findIndex_some {A} (p : A -> bool) (l : list A) (n : nat) :
  findIndex p l = Some n →
  ∃ x, l !! n = Some x ∧ p x = true ∧ ∀ m y, (m < n)%nat → l !! m = Some y → p y = false.
Proof.
  revert n. induction l as [|y l IH]; intros n; cbn [findIndex]; [done|].
  destruct (p y) eqn:Hy.
  - intros [= <-]. exists y. split; [done|]. split; [done|]. intros m z Hm. lia.
  - destruct (findIndex p l) as [k|]; cbn [fmap option_fmap option_map]; [|done].
    intros [= <-]. destruct (IH k eq_refl) as (x & Hx & Hpx & Hbefore).
    exists x. split; [done|]. split; [done|].
    intros [|m] z Hm Hz.
    + cbn in Hz. by injection Hz as <-.
    + cbn in Hz. apply (Hbefore m z); [lia|done].
Qed.

Lemma updateInstance_settings (id : string) (updates : InstanceUpdates) (c : Chrome)
    (idx : nat) :
  findIndex (fun i => String.eqb (inst_id i) id) (instances (settings_of c)) = Some idx →
  settings_of (exec (Storage.updateInstance id updates) c)
  = with_instances
      (alter (fun i => spread_instance i updates) idx (instances (settings_of c)))
      (settings_of c).
Proof.
  intros H. unfold Storage.updateInstance, exec, bind at 1. rewrite getSettings_run, H.
  unfold bind at 1, Storage.change_instances_in_place.
  destruct (storage_sync_settings c ≫= stored_instances);
    rewrite saveSettings_run; cbn [snd];
    by rewrite settings_of_with_sync, !spread_stored_of.
Qed.

(** X11. [updateInstance(id, updates)] writes nothing when no stored
    instance has the id. Otherwise it replaces the first instance of that
    id by its merge with [updates] and leaves the other instances, their
    number and their order as they are; a key that [updates] leaves out
    keeps its value, so the password stored for an instance stays stored
    when the instance is switched to no authentication. *)
Theorem updateInstance_first_match (id : string) (updates : InstanceUpdates)
    (c : Chrome) :
  let before := instances (settings_of c) in
  let c' := exec (Storage.updateInstance id updates) c in
  ((∀ i, In i before → inst_id i ≠ id) → c' = c)
  ∧ (∀ idx old,
       before !! idx = Some old → inst_id old = id →
       (∀ m i, (m < idx)%nat → before !! m = Some i → inst_id i ≠ id) →
       result Storage.getInstances c'
       = Returned (<[idx := spread_instance old updates]> before)
       ∧ (updates_password updates = None →
          password (spread_instance old updates) = password old))
  ∧ (∀ name u old,
       password (spread_instance old (to_no_auth id name u)) = password old
       ∧ username (spread_instance old (to_no_auth id name u)) = username old
       ∧ authType (spread_instance old (to_no_auth id name u)) = "none").
Proof.
  cbn zeta. split; [|split].
  - intros Hnone.
    assert (H : findIndex (fun i => String.eqb (inst_id i) id)
                  (instances (settings_of c)) = None).
    { apply findIndex_none. intros i Hi. apply String.eqb_neq. by apply Hnone. }
    unfold Storage.updateInstance, exec, bind. rewrite getSettings_run, H. reflexivity.
  - intros idx old Hold Hid Hfirst.
    assert (H : findIndex (fun i => String.eqb (inst_id i) id)
                  (instances (settings_of c)) = Some idx).
    { destruct (findIndex _ _) as [n|] eqn:Hn.
      - destruct (findIndex_some _ _ _ Hn) as (x & Hx & Hpx & Hbefore).
        f_equal. destruct (Nat.lt_trichotomy n idx) as [Hlt|[->|Hgt]]; [|done|].
        + apply String.eqb_eq in Hpx. by destruct (Hfirst n x Hlt Hx).
        + specialize (Hbefore idx old Hgt Hold). apply String.eqb_neq in Hbefore. done.
      - exfalso. pose proof (proj1 (findIndex_none _ _) Hn old) as Hf.
        apply String.eqb_neq in Hf; [done|]. eapply list_elem_of_In, list_elem_of_lookup_2, Hold. }
    split.
    + unfold result, Storage.getInstances, bind. rewrite getSettings_run.
      cbn [fst ret]. rewrite (updateInstance_settings _ _ _ _ H).
      cbn [instances with_instances]. f_equal.
      apply list_eq. intros k. destruct (decide (k = idx)) as [->|Hne].
      * rewrite list_lookup_alter_eq, Hold. cbn.
        symmetry. apply list_lookup_insert_eq. by eapply lookup_lt_Some.
      * by rewrite list_lookup_alter_ne, list_lookup_insert_ne.
    + intros Hp. unfold spread_instance. cbn [password]. by rewrite Hp.
  - intros name u old. done.
Qed.

(** X12. [setActiveInstance(id)] stores the id without any check and leaves
    the instances as they are: [getActiveInstance] then returns the first
    stored instance of that id, and none for an id that no stored instance
    has or for the empty id. In that case all the next poll cycle changes
    is the text of the badge, which it clears: of the calls that write, it
    makes one, setBadgeText with the empty text, and the colours of the
    badge and the local storage are as they were. *)
Theorem setActiveInstance_unchecked (id : string) (c : Chrome) (w : World) :
  let c' := exec (Storage.setActiveInstance id) c in
  result Storage.getInstances c' = Returned (instances (settings_of c))
  ∧ activeInstanceId (settings_of c') = Some id
  ∧ (id ≠ "" →
     result Storage.getActiveInstance c'
     = Returned (List.find (fun i => String.eqb (inst_id i) id)
                   (instances (settings_of c))))
  ∧ ((id = "" ∨ ∀ i, In i (instances (settings_of c)) → inst_id i ≠ id) →
     result Storage.getActiveInstance c' = Returned None
     ∧ calls_of (pollAlerts w) c' = [call_action_setBadgeText ""]
     ∧ badge (exec (pollAlerts w) c')
       = {| badgeText := "";
            badgeBackgroundColor := badgeBackgroundColor (badge c);
            badgeTextColor := badgeTextColor (badge c) |}
     ∧ storage_local (exec (pollAlerts w) c') = storage_local c).
Proof.
  cbn zeta.
  assert (Hs : settings_of (exec (Storage.setActiveInstance id) c)
               = with_activeInstanceId (Some id) (settings_of c)).
  { unfold Storage.setActiveInstance. rewrite settings_after_save.
    by destruct (settings_of c). }
  assert (Hfind : id ≠ "" →
     result Storage.getActiveInstance (exec (Storage.setActiveInstance id) c)
     = Returned (List.find (fun i => String.eqb (inst_id i) id)
                   (instances (settings_of c)))).
  { intros Hid. rewrite getActiveInstance_result, Hs.
    cbn [activeInstanceId instances with_activeInstanceId]. by destruct id. }
  split; [|split; [|split; [exact Hfind|]]].
  - unfold result, Storage.getInstances, bind. rewrite getSettings_run.
    cbn [fst ret]. by rewrite Hs.
  - by rewrite Hs.
  - intros Hnone.
    assert (Hi : result Storage.getActiveInstance (exec (Storage.setActiveInstance id) c)
                 = Returned None).
    { destruct Hnone as [->|Hnone].
      - rewrite getActiveInstance_result, Hs. reflexivity.
      - destruct (decide (id = "")) as [->|Hid].
        + rewrite getActiveInstance_result, Hs. reflexivity.
        + rewrite (Hfind Hid). f_equal.
          destruct (List.find _ _) as [i|] eqn:Hf; [|done].
          apply find_some in Hf as [Hin Heq]. apply String.eqb_eq in Heq.
          by destruct (Hnone i Hin). }
    split; [exact Hi|]. split; [|split].
    + apply calls_of_app. unfold exec at 1. by rewrite (pollAlerts_idle _ _ Hi).
    + unfold exec at 1. by rewrite (pollAlerts_idle _ _ Hi).
    + unfold exec at 1. by rewrite (pollAlerts_idle _ _ Hi).
Qed.

Lemma key_inj (prefix i j : string) : prefix +:+ i = prefix +:+ j → i = j.
Proof. apply String.app_inj. Qed.

Lemma alerts_key_not_silences (i j : string) :
  Storage.alerts_key i ≠ Storage.silences_key j.
Proof. unfold Storage.alerts_key, Storage.silences_key. simpl. discriminate. Qed.

Lemma getCachedAlerts_entry (j : string) (c : Chrome) :
  result (Storage.getCachedAlerts j) c
  = Returned match storage_local c !! Storage.alerts_key j with
             | Some (stored_alerts alerts timestamp) => Some (alerts, timestamp)
             | _ => None
             end.
Proof.
  unfold result, Storage.getCachedAlerts, bind, chrome_storage_local_get.
  by destruct (storage_local c !! _) as [[]|].
Qed.

Lemma getCachedSilences_entry (j : string) (c : Chrome) :
  result (Storage.getCachedSilences j) c
  = Returned match storage_local c !! Storage.silences_key j with
             | Some (stored_silences silences timestamp) => Some (silences, timestamp)
             | _ => None
             end.
Proof.
  unfold result, Storage.getCachedSilences, bind, chrome_storage_local_get.
  by destruct (storage_local c !! _) as [[]|].
Qed.

Lemma getKnownFingerprints_entry (j : string) (c : Chrome) :
  result (Storage.getKnownFingerprints j) c
  = Returned match storage_local c !! Storage.fingerprints_key j with
             | Some (stored_fingerprints l) => l
             | _ => []
             end.
Proof.
  unfold result, Storage.getKnownFingerprints, bind, chrome_storage_local_get.
  by destruct (storage_local c !! _) as [[]|].
Qed.

(** X13. The three kinds of entries of the local storage are independent.
    What [cacheAlerts] stores for an instance is what [getCachedAlerts]
    returns for it, with its timestamp, and it changes neither the cached
    alerts of another instance nor any cached silences or stored
    fingerprints; likewise for [cacheSilences] and [setKnownFingerprints].
    Without an entry, [getCachedAlerts] and [getCachedSilences] return
    [null]. *)
Theorem local_entries_independent (c : Chrome) (i j : string) (now : Z)
    (alerts : list Alert) (silences : list Silence) (fps : list string) :
  let ca := exec (Storage.cacheAlerts now i alerts) c in
  let cs := exec (Storage.cacheSilences now i silences) c in
  let cf := exec (Storage.setKnownFingerprints i fps) c in
  (result (Storage.getCachedAlerts i) ca = Returned (Some (alerts, now))
   ∧ result (Storage.getCachedSilences i) cs = Returned (Some (silences, now))
   ∧ result (Storage.getKnownFingerprints i) cf = Returned fps)
  ∧ (i ≠ j →
     result (Storage.getCachedAlerts j) ca = result (Storage.getCachedAlerts j) c
     ∧ result (Storage.getCachedSilences j) cs = result (Storage.getCachedSilences j) c
     ∧ result (Storage.getKnownFingerprints j) cf
       = result (Storage.getKnownFingerprints j) c)
  ∧ (result (Storage.getCachedSilences j) ca = result (Storage.getCachedSilences j) c
     ∧ result (Storage.getKnownFingerprints j) ca
       = result (Storage.getKnownFingerprints j) c
     ∧ result (Storage.getCachedAlerts j) cs = result (Storage.getCachedAlerts j) c
     ∧ result (Storage.getKnownFingerprints j) cs
       = result (Storage.getKnownFingerprints j) c
     ∧ result (Storage.getCachedAlerts j) cf = result (Storage.getCachedAlerts j) c
     ∧ result (Storage.getCachedSilences j) cf
       = result (Storage.getCachedSilences j) c)
  ∧ (storage_local c !! Storage.alerts_key j = None →
     result (Storage.getCachedAlerts j) c = Returned None)
  ∧ (storage_local c !! Storage.silences_key j = None →
     result (Storage.getCachedSilences j) c = Returned None).
Proof.
  cbn zeta.
  rewrite !getCachedAlerts_entry, !getCachedSilences_entry, !getKnownFingerprints_entry.
  unfold exec, Storage.cacheAlerts, Storage.cacheSilences,
    Storage.setKnownFingerprints, chrome_storage_local_set.
  cbn [snd storage_local with_call with_storage_local].
  split; [|split; [|split; [|split]]].
  - by rewrite !lookup_insert_eq.
  - intros Hne.
    rewrite !lookup_insert_ne; [done| | |];
      unfold Storage.alerts_key, Storage.silences_key, Storage.fingerprints_key;
      intros H; apply Hne; by eapply key_inj.
  - rewrite !lookup_insert_ne; [done|..];
      first [ apply alerts_key_not_silences
            | apply alerts_key_not_fingerprints
            | apply silences_key_not_fingerprints
            | (intros H; symmetry in H; revert H;
               first [ apply alerts_key_not_silences
                     | apply alerts_key_not_fingerprints
                     | apply silences_key_not_fingerprints ]) ].
  - by intros ->.
  - by intros ->.
Qed.

(** ** The requests of the client *)

Lemma str_length_app (a b : string) :
  String.length (a +:+ b) = (String.length a + String.length b)%nat.
Proof. induction a as [|x a IH]; [done|]. rewrite str_cons. cbn. by rewrite IH. Qed.

Lemma str_app_inj_r (a b t : string) : a +:+ t = b +:+ t → a = b.
Proof.
  revert b. induction a as [|x a IH]; intros [|y b] H.
  - done.
  - apply (f_equal String.length) in H. rewrite str_nil, str_cons in H.
    cbn in H. rewrite str_length_app in H. lia.
  - apply (f_equal String.length) in H. rewrite str_nil, str_cons in H.
    cbn in H. rewrite str_length_app in H. lia.
  - rewrite !str_cons in H. injection H as -> H. by rewrite (IH _ H).
Qed.

(** X14. The URL of the status request is the url of the instance without
    the slashes at its end, followed by /api/v2/status: it is the same
    however many slashes end the configured url, and the path is never
    preceded by a second slash. *)
Theorem getStatus_url_single_slash (instance : Instance) :
  (∃ n, url instance +:+ "/api/v2/status"
        = AlertmanagerAPI._normalizeUrl (url instance) +:+ slashes n +:+ "/api/v2/status"
        ∧ AlertmanagerAPI.getStatus_url instance
          = AlertmanagerAPI._normalizeUrl (url instance) +:+ "/api/v2/status")
  ∧ (∀ n, AlertmanagerAPI.getStatus_url (with_url (url instance +:+ slashes n) instance)
          = AlertmanagerAPI.getStatus_url instance)
  ∧ (∀ x, AlertmanagerAPI.getStatus_url instance ≠ x +:+ "//api/v2/status").
Proof.
  split; [|split].
  - destruct (normalizeUrl_strips (url instance)) as [n Hn]. exists n.
    split; [|done]. rewrite <- str_assoc. by rewrite <- Hn.
  - intros n. unfold AlertmanagerAPI.getStatus_url. cbn [url with_url].
    by rewrite normalizeUrl_append_slashes.
  - intros x H. unfold AlertmanagerAPI.getStatus_url in H.
    change (x +:+ "//api/v2/status") with (x +:+ ("/" +:+ "/api/v2/status")) in H.
    rewrite <- str_assoc in H. apply str_app_inj_r in H.
    by apply normalizeUrl_no_trailing_slash in H.
Qed.

Lemma fold_appends (filters : list string) (l : list (string * string)) :
  fold_left (fun sp f => URLSearchParams.append "filter" f sp) filters l
  = l ++ map (fun f => ("filter", f)) filters.
Proof.
  revert l. induction filters as [|f filters IH]; intros l; cbn [fold_left map].
  - by rewrite app_nil_r.
  - rewrite IH. unfold URLSearchParams.append. by rewrite <- app_assoc.
Qed.

(** X25. The URL of the silences request keeps the query of the configured
    url and appends the matchers asked for, in order, each under the name
    filter; an empty matcher string adds nothing. It is the same however
    many slashes end the configured url, and no request is made when the
    url does not parse. *)
Theorem getSilences_url_query (URL_parse : string -> option URL)
    (URL_toString : URL -> string) (instance : Instance) (filterParam : Matchers) :
  match URL_parse (AlertmanagerAPI._normalizeUrl (url instance) +:+ "/api/v2/silences")
  with
  | None =>
      AlertmanagerAPI.getSilences_url URL_parse URL_toString instance filterParam
      = Thrown "Invalid URL"
  | Some u =>
      AlertmanagerAPI.getSilences_url URL_parse URL_toString instance filterParam
      = Returned
          (URL_toString
             {| url_without_query := url_without_query u;
                searchParams :=
                  searchParams u
                  ++ map (fun f => ("filter", f)) (matchers_list filterParam) |})
  end
  ∧ ∀ n,
      AlertmanagerAPI.getSilences_url URL_parse URL_toString
        (with_url (url instance +:+ slashes n) instance) filterParam
      = AlertmanagerAPI.getSilences_url URL_parse URL_toString instance filterParam.
Proof.
  split.
  - unfold AlertmanagerAPI.getSilences_url.
    destruct (URL_parse _) as [u|]; [|done].
    destruct filterParam as [|[|x f]|filters]; cbn [matchers_list map];
      rewrite ?app_nil_r; try done.
    by rewrite fold_appends.
  - intros n. unfold AlertmanagerAPI.getSilences_url. cbn [url with_url].
    by rewrite normalizeUrl_append_slashes.
Qed.

(** X15. The headers of a request always hold Accept and Content-Type and,
    besides, at most Authorization. Authorization is sent exactly for an
    instance of type basic with a non-empty user name, as Basic with the
    encoded user name and password, and for an instance of type bearer
    with a non-empty token, as Bearer with that token; no instance of
    another type sends credentials, even when it stores some.
    [_buildHeaders] throws only when [btoa] does, for the basic type. *)
Theorem buildHeaders_authorization (btoa : string -> Outcome string)
    (instance : Instance) :
  match AlertmanagerAPI._buildHeaders btoa instance with
  | Returned headers =>
      headers !! "Accept" = Some "application/json"
      ∧ headers !! "Content-Type" = Some "application/json"
      ∧ (∀ name, name ≠ "Accept" → name ≠ "Content-Type" → name ≠ "Authorization" →
           headers !! name = None)
      ∧ match headers !! "Authorization" with
        | Some v =>
            (authType instance = "basic" ∧ JS.truthy (username instance) = true
             ∧ ∃ encoded, btoa (basic_credentials instance) = Returned encoded
                          ∧ v = "Basic " +:+ encoded)
            ∨ (authType instance = "bearer" ∧ JS.truthy (token instance) = true
               ∧ token instance = Some (JS.or_default (token instance) "")
               ∧ v = "Bearer " +:+ JS.or_default (token instance) "")
        | None =>
            (authType instance ≠ "basic" ∨ JS.truthy (username instance) = false)
            ∧ (authType instance ≠ "bearer" ∨ JS.truthy (token instance) = false)
        end
  | Thrown err =>
      authType instance = "basic" ∧ JS.truthy (username instance) = true
      ∧ btoa (basic_credentials instance) = Thrown err
  end.
Proof.
  unfold AlertmanagerAPI._buildHeaders. fold (basic_credentials instance).
  assert (Hbase : ∀ (h : gmap string string) name,
    h = <["Content-Type" := "application/json"]> (<["Accept" := "application/json"]> ∅) →
    h !! "Accept" = Some "application/json"
    ∧ h !! "Content-Type" = Some "application/json"
    ∧ h !! "Authorization" = None
    ∧ (name ≠ "Accept" → name ≠ "Content-Type" → h !! name = None)).
  { intros h name ->. repeat split.
    - intros H1 H2.
      by rewrite lookup_insert_ne, lookup_insert_ne, lookup_empty. }
  set (h := <["Content-Type" := "application/json"]> _) in *.
  destruct (String.eqb_spec (authType instance) "basic") as [Hb|Hb];
    destruct (JS.truthy (username instance)) eqn:Hu; cbn [andb].
  1: { destruct (btoa (basic_credentials instance)) as [encoded|err] eqn:He; [|done].
       destruct (Hbase h "" eq_refl) as (HA & HC & _ & _).
       rewrite !lookup_insert_ne by done. split; [done|]. split; [done|]. split.
       - intros name H1 H2 H3. rewrite lookup_insert_ne by done.
         by apply (Hbase h name eq_refl).
       - rewrite lookup_insert_eq. left. eauto. }
  all: destruct (String.eqb_spec (authType instance) "bearer") as [Hr|Hr];
    destruct (JS.truthy (token instance)) eqn:Ht; cbn [andb];
    destruct (Hbase h "" eq_refl) as (HA & HC & HN & _);
    rewrite ?lookup_insert_ne by done;
    (split; [done|]); (split; [done|]); (split;
      [intros name H1 H2 H3; rewrite ?lookup_insert_ne by done;
       by apply (Hbase h name eq_refl)|]);
    rewrite ?lookup_insert_eq, ?HN; try (split; auto; fail).
  all: right; repeat split; try done;
    destruct (token instance) as [[|? ?]|]; done.
Qed.

Lemma values_of_set_same (name value : string) (l : list (string * string)) :
  values_of name (URLSearchParams.set name value l) = [value].
Proof.
  unfold values_of. induction l as [|[k v] l IH].
  - cbn. by rewrite String.eqb_refl.
  - cbn [URLSearchParams.set]. destruct (String.eqb_spec k name) as [->|Hne].
    + cbn [List.filter fst]. rewrite String.eqb_refl. cbn [map snd]. f_equal.
      clear IH. induction l as [|[k' v'] l IH]; [done|].
      cbn [List.filter fst]. destruct (String.eqb_spec k' name) as [->|Hne].
      * cbn [negb]. exact IH.
      * cbn [negb List.filter fst]. apply String.eqb_neq in Hne. by rewrite Hne.
    + cbn [List.filter fst]. apply String.eqb_neq in Hne. by rewrite Hne.
Qed.

Lemma values_of_set_other (name name' value : string) (l : list (string * string)) :
  name' ≠ name →
  values_of name' (URLSearchParams.set name value l) = values_of name' l.
Proof.
  intros Hne. unfold values_of. induction l as [|[k v] l IH].
  - cbn. apply not_eq_sym, String.eqb_neq in Hne. by rewrite Hne.
  - cbn [URLSearchParams.set]. destruct (String.eqb_spec k name) as [->|Hk].
    + cbn [List.filter fst].
      apply not_eq_sym, String.eqb_neq in Hne. rewrite Hne.
      clear IH. induction l as [|[k' v'] l IH]; [done|].
      cbn [List.filter fst]. destruct (String.eqb_spec k' name) as [->|Hk'].
      * cbn [negb]. by rewrite Hne.
      * cbn [negb List.filter fst]. destruct (String.eqb k' name'); [|done].
        cbn [map]. by rewrite IH.
    + cbn [List.filter fst]. destruct (String.eqb k name'); [|done].
      cbn [map]. by rewrite IH.
Qed.

Lemma values_of_append (name name' value : string) (l : list (string * string)) :
  values_of name' (URLSearchParams.append name value l)
  = values_of name' l ++ (if String.eqb name name' then [value] else []).
Proof.
  unfold values_of, URLSearchParams.append. rewrite List.filter_app, map_app.
  cbn [List.filter fst]. by destruct (String.eqb name name').
Qed.

Lemma values_of_appends (name' : string) (filters : list string)
    (l : list (string * string)) :
  values_of name' (fold_left (fun sp f => URLSearchParams.append "filter" f sp) filters l)
  = values_of name' l ++ (if String.eqb "filter" name' then filters else []).
Proof.
  revert l. induction filters as [|f filters IH]; intros l; cbn [fold_left].
  - destruct (String.eqb _ _); by rewrite app_nil_r.
  - rewrite IH, values_of_append.
    destruct (String.eqb "filter" name'); by rewrite <- app_assoc.
Qed.

(** X16. The query of the alerts request: whatever query the configured url
    carries, the request holds each of active, silenced, inhibited and
    unprocessed exactly once, with the value of the filter and true for a
    flag left out; receiver exactly once when the filter names one; the
    matchers of the filter after the filter parameters of the url, in
    order; and the parameters of the url under other names unchanged. When
    the url does not parse, no request is made. *)
Theorem getAlerts_url_query (URL_parse : string -> option URL)
    (URL_toString : URL -> string) (instance : Instance) (filter : Filter) :
  match URL_parse (AlertmanagerAPI._normalizeUrl (url instance) +:+ "/api/v2/alerts") with
  | None =>
      AlertmanagerAPI.getAlerts_url URL_parse URL_toString instance filter
      = Thrown "Invalid URL"
  | Some u =>
      ∃ sp,
        AlertmanagerAPI.getAlerts_url URL_parse URL_toString instance filter
        = Returned (URL_toString {| url_without_query := url_without_query u;
                                    searchParams := sp |})
        ∧ values_of "active" sp = [JS.String_of_bool (default true (active filter))]
        ∧ values_of "silenced" sp = [JS.String_of_bool (default true (silenced filter))]
        ∧ values_of "inhibited" sp
          = [JS.String_of_bool (default true (inhibited filter))]
        ∧ values_of "unprocessed" sp
          = [JS.String_of_bool (default true (unprocessed filter))]
        ∧ values_of "filter" sp
          = values_of "filter" (searchParams u) ++ matchers_list (filter_matchers filter)
        ∧ values_of "receiver" sp
          = (if JS.truthy (receiver filter)
             then [JS.or_default (receiver filter) ""]
             else values_of "receiver" (searchParams u))
        ∧ (∀ name, ¬ In name ["active"; "silenced"; "inhibited"; "unprocessed";
                              "filter"; "receiver"] →
             values_of name sp = values_of name (searchParams u))
  end.
Proof.
  unfold AlertmanagerAPI.getAlerts_url.
  destruct (URL_parse _) as [u|]; [|done].
  eexists. split; [reflexivity|]. cbn [fold_left fst snd].
  set (sp4 := URLSearchParams.set "unprocessed" _ _).
  assert (H4 : ∀ name,
    values_of name sp4
    = if String.eqb name "active"
      then [JS.String_of_bool (default true (active filter))]
      else if String.eqb name "silenced"
      then [JS.String_of_bool (default true (silenced filter))]
      else if String.eqb name "inhibited"
      then [JS.String_of_bool (default true (inhibited filter))]
      else if String.eqb name "unprocessed"
      then [JS.String_of_bool (default true (unprocessed filter))]
      else values_of name (searchParams u)).
  { intros name. unfold sp4.
    destruct (String.eqb_spec name "active") as [->|H1].
    { rewrite !values_of_set_other by done. apply values_of_set_same. }
    destruct (String.eqb_spec name "silenced") as [->|H2].
    { rewrite !values_of_set_other by done. apply values_of_set_same. }
    destruct (String.eqb_spec name "inhibited") as [->|H3].
    { rewrite !values_of_set_other by done. apply values_of_set_same. }
    destruct (String.eqb_spec name "unprocessed") as [->|H5].
    { apply values_of_set_same. }
    by rewrite !values_of_set_other by done. }
  set (spf := match filter_matchers filter with
              | matchers_undefined => sp4
              | matchers_string "" => sp4
              | matchers_string (String a0 s2 as f) => URLSearchParams.append "filter" f sp4
              | matchers_array filters =>
                  fold_left (fun sp f => URLSearchParams.append "filter" f sp) filters sp4
              end).
  assert (Hf : ∀ name,
    values_of name spf
    = values_of name sp4
      ++ (if String.eqb "filter" name then matchers_list (filter_matchers filter)
          else [])).
  { intros name. unfold spf, matchers_list.
    destruct (filter_matchers filter) as [|[|x f]|filters].
    - destruct (String.eqb _ _); by rewrite app_nil_r.
    - destruct (String.eqb _ _); by rewrite app_nil_r.
    - apply values_of_append.
    - apply values_of_appends. }
  assert (Hr : ∀ name,
    values_of name
      match receiver filter with
      | Some (String _ _ as r) => URLSearchParams.set "receiver" r spf
      | _ => spf
      end
    = if String.eqb name "receiver" && JS.truthy (receiver filter)
      then [JS.or_default (receiver filter) ""]
      else values_of name spf).
  { intros name. destruct (receiver filter) as [[|x r]|]; cbn [JS.truthy];
      rewrite ?andb_false_r; try done.
    destruct (String.eqb_spec name "receiver") as [->|Hne]; cbn [andb].
    - apply values_of_set_same.
    - by apply values_of_set_other. }
  repeat split.
  1-4: rewrite Hr, Hf, H4; cbn; by rewrite ?app_nil_r.
  - rewrite Hr, Hf, H4. reflexivity.
  - rewrite Hr, Hf, H4. cbn [String.eqb Ascii.eqb Bool.eqb andb].
    destruct (JS.truthy (receiver filter)); [done|]. cbn. by rewrite app_nil_r.
  - intros name Hname. rewrite Hr, Hf, H4.
    assert (Hn : ∀ k, In k ["active"; "silenced"; "inhibited"; "unprocessed";
                            "filter"; "receiver"] → String.eqb name k = false).
    { intros k Hk. apply String.eqb_neq. intros ->. done. }
    rewrite !Hn by (cbn; tauto).
    rewrite (String.eqb_sym "filter" name), Hn by (cbn; tauto).
    cbn [andb]. by rewrite app_nil_r.
Qed.

(** ** Successive poll cycles *)

Lemma pollAlerts_cases (w : World) (c : Chrome) :
  (result Storage.getActiveInstance c = Returned None)
  ∨ (∃ instance err,
       result Storage.getActiveInstance c = Returned (Some instance)
       ∧ getAlerts_answer w instance (defaultFilter (settings_of c)) = Thrown err)
  ∨ (∃ instance alerts,
       result Storage.getActiveInstance c = Returned (Some instance)
       ∧ getAlerts_answer w instance (defaultFilter (settings_of c)) = Returned alerts).
Proof.
  destruct (getActiveInstance_run c) as [[instance|] Hrun].
  - assert (Hi : result Storage.getActiveInstance c = Returned (Some instance))
      by (unfold result; by rewrite Hrun).
    destruct (getAlerts_answer w instance (defaultFilter (settings_of c)))
      as [alerts|err] eqn:Ha; [right; right|right; left]; eauto.
  - left. unfold result. by rewrite Hrun.
Qed.

Lemma after_fetch_frame (w : World) (instance : Instance) (alerts : list Alert)
    (c : Chrome) :
  extensionId (after_fetch w instance alerts c) = extensionId c
  ∧ storage_sync_settings (after_fetch w instance alerts c) = storage_sync_settings c
  ∧ alarms (after_fetch w instance alerts c) = alarms c.
Proof.
  unfold after_fetch. cbn [extensionId toUpperCase default_instances storage_sync_settings alarms].
  set (c2 := exec (updateBadge _ _) _).
  assert (H2 : extensionId c2 = extensionId c
               ∧ storage_sync_settings c2 = storage_sync_settings c
               ∧ alarms c2 = alarms c).
  { unfold c2, exec. by rewrite updateBadge_run. }
  destruct (enableNotifications (settings_of c)); [|exact H2].
  destruct (getKnownFingerprints_run (inst_id instance) c2) as [known Hk].
  unfold exec. by rewrite (checkForNewAlerts_run _ _ _ _ Hk).
Qed.

Lemma pollAlerts_settings_kept (w : World) (c : Chrome) :
  storage_sync_settings (exec (pollAlerts w) c) = storage_sync_settings c.
Proof.
  unfold exec.
  destruct (pollAlerts_cases w c) as [Hi|[(instance & err & Hi & Ha)
                                        |(instance & alerts & Hi & Ha)]].
  - by rewrite (pollAlerts_idle _ _ Hi).
  - by rewrite (pollAlerts_fetch_failed _ _ _ _ Hi Ha).
  - rewrite (pollAlerts_fetched _ _ _ _ Hi Ha). cbn [snd].
    by destruct (after_fetch_frame w instance alerts c) as (_ & ? & _).
Qed.

Lemma after_fetch_engine (w : World) (instance : Instance) (alerts : list Alert)
    (c : Chrome) :
  toUpperCase (after_fetch w instance alerts c) = toUpperCase c
  ∧ default_instances (after_fetch w instance alerts c) = default_instances c.
Proof.
  unfold after_fetch. cbn [toUpperCase default_instances].
  set (c2 := exec (updateBadge _ _) _).
  assert (H2 : toUpperCase c2 = toUpperCase c
               ∧ default_instances c2 = default_instances c).
  { unfold c2, exec. by rewrite updateBadge_run. }
  destruct (enableNotifications (settings_of c)); [|exact H2].
  destruct (getKnownFingerprints_run (inst_id instance) c2) as [known Hk].
  unfold exec. by rewrite (checkForNewAlerts_run _ _ _ _ Hk).
Qed.

Lemma pollAlerts_engine_kept (w : World) (c : Chrome) :
  toUpperCase (exec (pollAlerts w) c) = toUpperCase c
  ∧ default_instances (exec (pollAlerts w) c) = default_instances c.
Proof.
  unfold exec.
  destruct (pollAlerts_cases w c) as [Hi|[(instance & err & Hi & Ha)
                                        |(instance & alerts & Hi & Ha)]].
  - by rewrite (pollAlerts_idle _ _ Hi).
  - by rewrite (pollAlerts_fetch_failed _ _ _ _ Hi Ha).
  - rewrite (pollAlerts_fetched _ _ _ _ Hi Ha). cbn [snd].
    apply after_fetch_engine.
Qed.

(** X17. A poll cycle always returns: no failure of a request leaves it as a
    rejection. It never creates or clears an alarm and never changes the
    stored settings. *)
Theorem pollAlerts_always_returns (w : World) (c : Chrome) :
  result (pollAlerts w) c = Returned tt
  ∧ alarms (exec (pollAlerts w) c) = alarms c
  ∧ storage_sync_settings (exec (pollAlerts w) c) = storage_sync_settings c
  ∧ extensionId (exec (pollAlerts w) c) = extensionId c.
Proof.
  unfold result, exec.
  destruct (pollAlerts_cases w c) as [Hi|[(instance & err & Hi & Ha)
                                        |(instance & alerts & Hi & Ha)]].
  - by rewrite (pollAlerts_idle _ _ Hi).
  - by rewrite (pollAlerts_fetch_failed _ _ _ _ Hi Ha).
  - rewrite (pollAlerts_fetched _ _ _ _ Hi Ha). cbn [fst snd].
    destruct (after_fetch_frame w instance alerts c) as (? & ? & ?). done.
Qed.

(** X18. With no active instance, a poll cycle returns after it has read
    the settings and cleared the text of the badge, and that is all it
    changes: of the calls that write, it makes one, setBadgeText with the
    empty text; the background colour and the text colour of the badge,
    the cached alerts and silences, the stored fingerprints, the stored
    settings and the alarms are as they were, and no notification is
    created. *)
Theorem pollAlerts_without_instance (w : World) (c : Chrome) :
  result Storage.getActiveInstance c = Returned None →
  result (pollAlerts w) c = Returned tt
  ∧ calls_of (pollAlerts w) c = [call_action_setBadgeText ""]
  ∧ badgeText (badge (exec (pollAlerts w) c)) = ""
  ∧ badgeBackgroundColor (badge (exec (pollAlerts w) c)) = badgeBackgroundColor (badge c)
  ∧ badgeTextColor (badge (exec (pollAlerts w) c)) = badgeTextColor (badge c)
  ∧ storage_local (exec (pollAlerts w) c) = storage_local c
  ∧ storage_sync_settings (exec (pollAlerts w) c) = storage_sync_settings c
  ∧ alarms (exec (pollAlerts w) c) = alarms c
  ∧ notifications_in (calls_of (pollAlerts w) c) = [].
Proof.
  intros Hi.
  assert (Hc : calls_of (pollAlerts w) c = [call_action_setBadgeText ""]).
  { apply calls_of_app. unfold exec. by rewrite (pollAlerts_idle _ _ Hi). }
  rewrite Hc. unfold result, exec. by rewrite (pollAlerts_idle _ _ Hi).
Qed.

Lemma silences_entry_other (w : World) (instance : Instance)
    (m : gmap string StoredValue) (key : string) :
  key ≠ Storage.silences_key (inst_id instance) →
  silences_entry w instance m !! key = m !! key.
Proof.
  intros Hne. unfold silences_entry. destruct (getSilences_answer w instance); [|done].
  by apply lookup_insert_ne.
Qed.

Lemma after_fetch_alerts_entry (w : World) (instance : Instance) (alerts : list Alert)
    (c : Chrome) :
  storage_local (after_fetch w instance alerts c)
  !! Storage.alerts_key (inst_id instance)
  = Some (stored_alerts alerts (now_cacheAlerts w)).
Proof.
  unfold after_fetch. cbn [storage_local].
  rewrite silences_entry_other by apply alerts_key_not_silences.
  set (c1 := exec (Storage.cacheAlerts _ _ _) c).
  assert (H2 : storage_local (exec (updateBadge alerts (enableBadge (settings_of c))) c1)
               !! Storage.alerts_key (inst_id instance)
               = Some (stored_alerts alerts (now_cacheAlerts w))).
  { unfold exec at 1. rewrite updateBadge_run. cbn [snd storage_local].
    unfold c1. rewrite cacheAlerts_run. cbn [storage_local]. apply lookup_insert_eq. }
  destruct (enableNotifications (settings_of c)); [|exact H2].
  rewrite checkForNewAlerts_stores.
  rewrite lookup_insert_ne; [exact H2|].
  intros H. symmetry in H. by apply alerts_key_not_fingerprints in H.
Qed.

Lemma after_fetch_silences_entry (w : World) (instance : Instance)
    (alerts : list Alert) (c : Chrome) :
  storage_local (after_fetch w instance alerts c)
  !! Storage.silences_key (inst_id instance)
  = match getSilences_answer w instance with
    | Returned silences => Some (stored_silences silences (now_cacheSilences w))
    | Thrown _ => storage_local c !! Storage.silences_key (inst_id instance)
    end.
Proof.
  unfold after_fetch. cbn [storage_local]. unfold silences_entry.
  destruct (getSilences_answer w instance); [apply lookup_insert_eq|].
  set (c1 := exec (Storage.cacheAlerts _ _ _) c).
  assert (H2 : storage_local (exec (updateBadge alerts (enableBadge (settings_of c))) c1)
               !! Storage.silences_key (inst_id instance)
               = storage_local c !! Storage.silences_key (inst_id instance)).
  { unfold exec at 1. rewrite updateBadge_run. cbn [snd storage_local].
    unfold c1. rewrite cacheAlerts_run. cbn [storage_local].
    apply lookup_insert_ne, alerts_key_not_silences. }
  destruct (enableNotifications (settings_of c)); [|exact H2].
  rewrite checkForNewAlerts_stores.
  rewrite lookup_insert_ne; [exact H2|].
  intros H. symmetry in H. by apply silences_key_not_fingerprints in H.
Qed.

(** X19. A poll cycle whose fetch of the alerts succeeds caches the fetched
    alerts for the instance, with the time of the write, whatever the
    badge and notification settings and whatever becomes of the silences
    request; the cached silences are replaced when the silences request
    succeeds and kept when it fails. *)
Theorem pollAlerts_caches (w : World) (c : Chrome) (instance : Instance)
    (alerts : list Alert) :
  result Storage.getActiveInstance c = Returned (Some instance) →
  getAlerts_answer w instance (defaultFilter (settings_of c)) = Returned alerts →
  result (Storage.getCachedAlerts (inst_id instance)) (exec (pollAlerts w) c)
  = Returned (Some (alerts, now_cacheAlerts w))
  ∧ result (Storage.getCachedSilences (inst_id instance)) (exec (pollAlerts w) c)
    = match getSilences_answer w instance with
      | Returned silences => Returned (Some (silences, now_cacheSilences w))
      | Thrown _ => result (Storage.getCachedSilences (inst_id instance)) c
      end.
Proof.
  intros Hi Ha. rewrite getCachedAlerts_entry, !getCachedSilences_entry.
  unfold exec. rewrite (pollAlerts_fetched _ _ _ _ Hi Ha). cbn [snd].
  rewrite after_fetch_alerts_entry, after_fetch_silences_entry.
  by destruct (getSilences_answer w instance).
Qed.

Lemma notifications_in_app (l1 l2 : list Call) :
  notifications_in (l1 ++ l2) = notifications_in l1 ++ notifications_in l2.
Proof. apply omap_app. Qed.

Lemma notifications_in_badge_calls (alerts : list Alert) (enabled : bool) :
  notifications_in (badge_calls alerts enabled) = [].
Proof. by destruct enabled. Qed.

Lemma notifications_in_silences_calls (w : World) (instance : Instance) :
  notifications_in (silences_calls w instance) = [].
Proof. unfold silences_calls. by destruct (getSilences_answer w instance). Qed.

Lemma expected_notifications_ext (c1 c2 : Chrome) (known : list string)
    (alerts : list Alert) :
  extensionId c1 = extensionId c2 →
  toUpperCase c1 = toUpperCase c2 →
  expected_notifications c1 known alerts = expected_notifications c2 known alerts.
Proof.
  intros H Hu. unfold expected_notifications, individual, batch, icon_of.
  by rewrite H, Hu.
Qed.

(** The notifications of a poll cycle whose fetch succeeds. *)
Lemma pollAlerts_notifications (w : World) (c : Chrome) (instance : Instance)
    (alerts : list Alert) (known : list string) :
  result Storage.getActiveInstance c = Returned (Some instance) →
  getAlerts_answer w instance (defaultFilter (settings_of c)) = Returned alerts →
  result (Storage.getKnownFingerprints (inst_id instance)) c = Returned known →
  notifications_in (calls_of (pollAlerts w) c)
  = if enableNotifications (settings_of c)
    then expected_notifications c known alerts
    else [].
Proof.
  intros Hi Ha Hk.
  erewrite calls_of_app; last first.
  { unfold exec. rewrite (pollAlerts_fetched _ _ _ _ Hi Ha). cbn [snd].
    apply after_fetch_calls. }
  rewrite !notifications_in_app, notifications_in_badge_calls,
    notifications_in_silences_calls, app_nil_r.
  cbn [notifications_in omap list_omap created app].
  unfold check_calls. destruct (enableNotifications (settings_of c)); [|done].
  set (c2 := exec (updateBadge _ _) _).
  assert (Hk2 : result (Storage.getKnownFingerprints (inst_id instance)) c2
                = Returned known).
  { rewrite <- Hk. apply getKnownFingerprints_same_entry.
    unfold c2, exec at 1. rewrite updateBadge_run. cbn [snd storage_local].
    rewrite cacheAlerts_run. cbn [storage_local].
    apply lookup_insert_ne, alerts_key_not_fingerprints. }
  rewrite (checkForNewAlerts_notifications _ _ _ _ Hk2).
  apply expected_notifications_ext;
    unfold c2, exec at 1; rewrite updateBadge_run; cbn [snd extensionId toUpperCase];
    by rewrite cacheAlerts_run.
Qed.

Lemma pollAlerts_notifications_otherwise (w : World) (c : Chrome) :
  (∀ instance alerts,
     result Storage.getActiveInstance c = Returned (Some instance) →
     getAlerts_answer w instance (defaultFilter (settings_of c)) ≠ Returned alerts) →
  notifications_in (calls_of (pollAlerts w) c) = [].
Proof.
  intros Hno.
  destruct (pollAlerts_cases w c) as [Hi|[(instance & err & Hi & Ha)
                                        |(instance & alerts & Hi & Ha)]].
  - erewrite calls_of_app; last first.
    { unfold exec. by rewrite (pollAlerts_idle _ _ Hi). }
    reflexivity.
  - erewrite calls_of_app; last first.
    { unfold exec. by rewrite (pollAlerts_fetch_failed _ _ _ _ Hi Ha). }
    reflexivity.
  - by destruct (Hno instance alerts Hi).
Qed.

Lemma settings_after_poll (w : World) (c : Chrome) :
  settings_of (exec (pollAlerts w) c) = settings_of c.
Proof.
  unfold settings_of.
  by rewrite pollAlerts_settings_kept, (proj2 (pollAlerts_engine_kept w c)).
Qed.

Lemma active_instance_after_poll (w : World) (c : Chrome) :
  result Storage.getActiveInstance (exec (pollAlerts w) c)
  = result Storage.getActiveInstance c.
Proof. by rewrite !getActiveInstance_result, settings_after_poll. Qed.

Lemma includes_In (l : list string) (x : string) :
  JS.includes l x = true ↔ In x l.
Proof.
  unfold JS.includes. rewrite existsb_exists. split.
  - intros (y & Hy & Heq). by apply String.eqb_eq in Heq as ->.
  - intros H. exists x. split; [done|]. apply String.eqb_refl.
Qed.

Lemma new_alerts_known (known : list string) (alerts : list Alert) :
  (∀ a, In a alerts → state_is_active a = true → In (fingerprint a) known) →
  new_alerts known alerts = [].
Proof.
  intros H. unfold new_alerts. induction alerts as [|a alerts IH]; [done|].
  cbn [List.filter]. rewrite IH by (intros x Hx; apply H; by right).
  destruct (state_is_active a) eqn:Hact; [|done]. cbn [andb].
  assert (Hin : JS.includes known (fingerprint a) = true).
  { apply includes_In, H; [by left|done]. }
  by rewrite Hin.
Qed.

Lemma stored_after_cycle (w : World) (c : Chrome)
    (instance : Instance) (alerts : list Alert) :
  result Storage.getActiveInstance c = Returned (Some instance) →
  getAlerts_answer w instance (defaultFilter (settings_of c)) = Returned alerts →
  enableNotifications (settings_of c) = true →
  result (Storage.getKnownFingerprints (inst_id instance)) (exec (pollAlerts w) c)
  = Returned (map fingerprint alerts).
Proof.
  intros Hi Ha Hn. apply getKnownFingerprints_after_set.
  unfold exec. rewrite (pollAlerts_fetched _ _ _ _ Hi Ha). cbn [snd].
  rewrite after_fetch_fingerprints, Hn. apply lookup_insert_eq.
Qed.

(** X20. No alert is notified twice in a row: after a cycle that reached the
    notification check, a cycle whose active alerts were all in the
    previous fetch, in whatever state, creates no notification. In
    particular an alert first fetched while suppressed is not notified
    when it becomes active. *)
Theorem no_repeated_notification (w1 w2 : World) (c : Chrome) (instance : Instance)
    (alerts1 alerts2 : list Alert) :
  result Storage.getActiveInstance c = Returned (Some instance) →
  getAlerts_answer w1 instance (defaultFilter (settings_of c)) = Returned alerts1 →
  getAlerts_answer w2 instance (defaultFilter (settings_of c)) = Returned alerts2 →
  enableNotifications (settings_of c) = true →
  (∀ a, In a alerts2 → state_is_active a = true →
        In (fingerprint a) (map fingerprint alerts1)) →
  notifications_in (calls_of (pollAlerts w2) (exec (pollAlerts w1) c)) = [].
Proof.
  intros Hi Ha1 Ha2 Hn Hsub.
  pose proof (stored_after_cycle w1 c instance alerts1 Hi Ha1 Hn) as Hk.
  rewrite (pollAlerts_notifications w2 _ instance alerts2 (map fingerprint alerts1)).
  - rewrite settings_after_poll, Hn. unfold expected_notifications.
    by rewrite (new_alerts_known _ _ Hsub).
  - by rewrite active_instance_after_poll.
  - by rewrite settings_after_poll.
  - exact Hk.
Qed.

(** X21. An empty fetch makes the next cycle a cold start: after a cycle
    that reached the notification check with no alert at all, the next
    cycle creates no notification, whatever it fetches. *)
Theorem silent_after_all_clear (w1 w2 : World) (c : Chrome) (instance : Instance) :
  result Storage.getActiveInstance c = Returned (Some instance) →
  getAlerts_answer w1 instance (defaultFilter (settings_of c)) = Returned [] →
  enableNotifications (settings_of c) = true →
  result (Storage.getKnownFingerprints (inst_id instance)) (exec (pollAlerts w1) c)
  = Returned []
  ∧ notifications_in (calls_of (pollAlerts w2) (exec (pollAlerts w1) c)) = [].
Proof.
  intros Hi Ha Hn.
  pose proof (stored_after_cycle w1 c instance [] Hi Ha Hn) as Hk.
  split; [exact Hk|].
  set (c1 := exec (pollAlerts w1) c) in *.
  assert (Hi1 : result Storage.getActiveInstance c1 = Returned (Some instance))
    by (unfold c1; by rewrite active_instance_after_poll).
  destruct (getAlerts_answer w2 instance (defaultFilter (settings_of c1)))
    as [alerts2|err] eqn:Ha2.
  - rewrite (pollAlerts_notifications w2 c1 instance alerts2 [] Hi1 Ha2 Hk).
    destruct (enableNotifications (settings_of c1)); [|done].
    unfold expected_notifications. cbn [length Nat.ltb Nat.leb].
    by rewrite andb_false_r.
  - apply pollAlerts_notifications_otherwise. intros i alerts Hi' Ha'.
    rewrite Hi1 in Hi'. injection Hi' as <-. congruence.
Qed.

(** X22. The silences request is isolated: whatever it answers, the badge,
    the notifications created, and every entry of the local storage but
    the cached silences of the instance are those of a cycle whose
    silences request fails. *)
Theorem silences_request_isolated (w : World) (c : Chrome) (err : string) :
  let c1 := exec (pollAlerts w) c in
  let c2 := exec (pollAlerts (without_silences err w)) c in
  badge c1 = badge c2
  ∧ notifications_in (calls_of (pollAlerts w) c)
    = notifications_in (calls_of (pollAlerts (without_silences err w)) c)
  ∧ (∀ j,
       storage_local c1 !! Storage.alerts_key j = storage_local c2 !! Storage.alerts_key j
       ∧ storage_local c1 !! Storage.fingerprints_key j
         = storage_local c2 !! Storage.fingerprints_key j)
  ∧ (∀ instance j,
       result Storage.getActiveInstance c = Returned (Some instance) →
       j ≠ inst_id instance →
       storage_local c1 !! Storage.silences_key j
       = storage_local c2 !! Storage.silences_key j).
Proof.
  cbn zeta. set (w' := without_silences err w).
  destruct (pollAlerts_cases w c) as [Hi|[(instance & e & Hi & Ha)
                                        |(instance & alerts & Hi & Ha)]].
  - assert (H1 := pollAlerts_idle w c Hi). assert (H2 := pollAlerts_idle w' c Hi).
    assert (Hc1 : calls_of (pollAlerts w) c = [call_action_setBadgeText ""])
      by (apply calls_of_app; unfold exec; by rewrite H1).
    assert (Hc2 : calls_of (pollAlerts w') c = [call_action_setBadgeText ""])
      by (apply calls_of_app; unfold exec; by rewrite H2).
    rewrite Hc1, Hc2. unfold exec. by rewrite H1, H2.
  - assert (H1 := pollAlerts_fetch_failed w c instance e Hi Ha).
    assert (H2 := pollAlerts_fetch_failed w' c instance e Hi Ha).
    assert (Hc1 : calls_of (pollAlerts w) c = degraded_calls e)
      by (apply calls_of_app; unfold exec; by rewrite H1).
    assert (Hc2 : calls_of (pollAlerts w') c = degraded_calls e)
      by (apply calls_of_app; unfold exec; by rewrite H2).
    rewrite Hc1, Hc2. unfold exec. by rewrite H1, H2.
  - assert (H1 := pollAlerts_fetched w c instance alerts Hi Ha).
    assert (H2 := pollAlerts_fetched w' c instance alerts Hi Ha).
    destruct (getKnownFingerprints_run (inst_id instance) c) as [known Hk].
    assert (Hk' : result (Storage.getKnownFingerprints (inst_id instance)) c
                  = Returned known) by (unfold result; by rewrite Hk).
    rewrite (pollAlerts_notifications w c instance alerts known Hi Ha Hk').
    rewrite (pollAlerts_notifications w' c instance alerts known Hi Ha Hk').
    unfold exec. rewrite H1, H2. cbn [snd]. unfold after_fetch.
    cbn [badge storage_local now_cacheAlerts w' without_silences].
    split; [done|]. split; [done|]. split.
    + intros j. split.
      * rewrite !silences_entry_other by apply alerts_key_not_silences. done.
      * by rewrite !silences_entry_fingerprints.
    + intros i j Hi' Hj. unfold result in Hi, Hi'. rewrite Hi in Hi'.
      injection Hi' as <-.
      rewrite !silences_entry_other; [done|..];
        unfold Storage.silences_key; intros H; apply Hj; by eapply key_inj.
Qed.

Lemma new_alerts_In (known : list string) (alerts : list Alert) (a : Alert) :
  In a (new_alerts known alerts)
  ↔ In a alerts ∧ state_is_active a = true ∧ ¬ In (fingerprint a) known.
Proof.
  unfold new_alerts. rewrite filter_In, andb_true_iff, negb_true_iff.
  rewrite <- includes_In.
  destruct (JS.includes known (fingerprint a)); intuition congruence.
Qed.

Lemma In_take_list {A} (x : A) (n : nat) (l : list A) : In x (take n l) → In x l.
Proof.
  revert n. induction l as [|y l IH]; intros [|n]; cbn; try done.
  intros [->|H]; [by left|right; eauto].
Qed.

(** X23. One notification check creates at most six notifications, at most
    five of them for alerts; and each one for an alert is for a fetched
    alert that is active and whose fingerprint was not stored: an alert
    that is known or not active is never notified. *)
Theorem notifications_bounded (instanceId : string) (alerts : list Alert)
    (c : Chrome) (known : list string) :
  result (Storage.getKnownFingerprints instanceId) c = Returned known →
  let sent := notifications_in (calls_of (checkForNewAlerts instanceId alerts) c) in
  (length sent ≤ 6)%nat
  ∧ (length sent ≤ S (length (new_alerts known alerts)))%nat
  ∧ ∃ individuals summary,
      sent = map (individual c) individuals ++ summary
      ∧ (length individuals ≤ 5)%nat
      ∧ (summary = [] ∨ summary = [batch c (length (new_alerts known alerts))])
      ∧ ∀ a, In a individuals →
             In a alerts ∧ state_is_active a = true ∧ ¬ In (fingerprint a) known.
Proof.
  intros Hk. cbn zeta. rewrite (checkForNewAlerts_notifications _ _ _ _ Hk).
  unfold expected_notifications.
  set (new := new_alerts known alerts).
  destruct (_ && _).
  - assert (Hlen : (length (take 5 new) ≤ 5)%nat) by (rewrite length_take; lia).
    assert (Hlen' : (length (take 5 new) ≤ length new)%nat)
      by (rewrite length_take; lia).
    split; [|split].
    + rewrite length_app, length_map. destruct (5 <? length new)%nat; cbn; lia.
    + rewrite length_app, length_map. destruct (5 <? length new)%nat; cbn; lia.
    + exists (take 5 new), (if (5 <? length new)%nat
                            then [batch c (length new)] else []).
      split; [done|]. split; [done|].
      split; [destruct (5 <? length new)%nat; auto|].
      intros a Ha. apply In_take_list in Ha. by apply new_alerts_In in Ha.
  - split; [cbn; lia|]. split; [cbn; lia|].
    exists [], []. split; [done|]. split; [cbn; lia|]. split; [by left|].
    by intros a [].
Qed.

Lemma stored_intervals_bounded : forallb period_bounded stored_intervals = true.
Proof. vm_compute. reflexivity. Qed.

Lemma period_of_stored_interval_bounds (v : Z) (q : Q) :
  (10 ≤ v ≤ 300)%Z → exact (period_of_seconds v) = Some q → (1 # 2 <= q <= 5)%Q.
Proof.
  intros Hv Hq. pose proof stored_intervals_bounded as H.
  rewrite forallb_forall in H. specialize (H v (stored_intervals_spec v Hv)).
  unfold period_bounded in H. rewrite Hq in H.
  apply andb_true_iff in H as [H1 H2]. split; by apply Qle_bool_iff.
Qed.

(** X24. The interval the options page saves is always a whole number of
    seconds between 10 and 300, and it is the number entered when that is
    in this range; so once the page has saved its settings, [setupAlarm]
    arms the poller with a period between half a minute and five minutes:
    half a minute for an interval up to 30 seconds, and above the quotient
    of the interval by 60 as the division of doubles rounds it, which in
    seconds is the larger of the saved interval and 30 up to 2^-44. *)
Theorem options_interval_bounds (parsed : option Z) (b n a s i u : bool) (c : Chrome) :
  let interval := clamp_pollInterval parsed in
  let c' := exec (Storage.saveSettings (options_settings parsed b n a s i u)) c in
  (10 <= interval <= 300)%Z
  ∧ (∀ v, parsed = Some v → (10 <= v <= 300)%Z → interval = v)
  ∧ pollInterval (settings_of c') = JS.Number_of_Z interval
  ∧ ∃ info,
      alarms (exec setupAlarm c') !! ALARM_NAME = Some info
      ∧ ((interval ≤ 30)%Z → periodInMinutes info = 0.5%float)
      ∧ ((30 < interval)%Z →
         periodInMinutes info = (JS.Number_of_Z interval / 60)%float)
      ∧ ∃ q, exact (periodInMinutes info) = Some q
             ∧ (1 # 2 <= q <= 5)%Q
             ∧ (Qabs (q * 60 - inject_Z (Z.max interval 30)) <= 1 # 2 ^ 44)%Q.
Proof.
  cbn zeta.
  assert (Hb : (10 <= clamp_pollInterval parsed <= 300)%Z).
  { unfold clamp_pollInterval. lia. }
  split; [exact Hb|]. split.
  { intros v -> Hv. unfold clamp_pollInterval. destruct v; lia. }
  assert (Hp : pollInterval
                 (settings_of
                    (exec (Storage.saveSettings (options_settings parsed b n a s i u)) c))
               = JS.Number_of_Z (clamp_pollInterval parsed)).
  { by rewrite settings_after_save. }
  split; [exact Hp|].
  set (c' := exec (Storage.saveSettings _) c) in *.
  exists (poll_alarm c'). split.
  { unfold exec. rewrite setupAlarm_run. cbn [snd alarms]. apply lookup_insert_eq. }
  unfold poll_alarm. cbn [periodInMinutes]. rewrite Hp.
  set (x := clamp_pollInterval parsed) in *.
  fold (period_of_seconds x).
  destruct (period_of_stored_interval x Hb) as (Hfloor & Hover & q & Hq & Hclose).
  split; [exact Hfloor|]. split; [exact Hover|].
  exists q. split; [exact Hq|]. split; [|exact Hclose].
  by apply (period_of_stored_interval_bounds x).
Qed.

(** ** The properties above, on the sample data *)

Example period_examples :
  period_of_seconds 10 = 0.5%float
  ∧ period_of_seconds 30 = 0.5%float
  ∧ period_of_seconds 45 = 0.75%float
  ∧ period_of_seconds 60 = 1%float
  ∧ period_of_seconds 300 = 5%float
  ∧ (period_of_seconds 31 * 60 =? 31)%float = false
  ∧ (period_of_seconds 45 * 60 =? 45)%float = true.
Proof. vm_compute. done. Qed.

Example groupAlerts_examples :
  match AlertLists.groupAlerts [Scenario.fp1; Scenario.fp2; Samples.fp2_muted]
          "severity" with
  | Returned groups =>
      groups !! "critical" = Some [Scenario.fp1]
      ∧ groups !! "warning" = Some [Scenario.fp2; Samples.fp2_muted]
      ∧ groups !! "info" = None
  | Thrown _ => False
  end
  ∧ AlertLists.groupAlerts [Scenario.fp1; Samples.odd] "alertname"
    = Thrown "groups[key].push is not a function".
Proof. vm_compute. done. Qed.

Example buildHeaders_examples :
  match AlertmanagerAPI._buildHeaders Samples.tagged Samples.staging with
  | Returned headers => headers !! "Authorization" = Some "Basic base64(ops:s3cret)"
  | Thrown _ => False
  end
  ∧ match AlertmanagerAPI._buildHeaders Samples.tagged
            (spread_instance Samples.staging
               (to_no_auth "" "Staging" "https://am.staging.example")) with
    | Returned headers =>
        headers !! "Authorization" = None
        ∧ headers !! "Accept" = Some "application/json"
    | Thrown _ => False
    end.
Proof. vm_compute. done. Qed.

Example getStatus_url_example :
  AlertmanagerAPI.getStatus_url Samples.staging
  = "https://am.staging.example/api/v2/status".
Proof. reflexivity. Qed.

Example filterByState_example :
  AlertLists.filterByState [Scenario.fp1; Samples.fp2_muted; Scenario.fp3]
    (popup_filter true false true)
  = [Scenario.fp1; Scenario.fp3].
Proof. vm_compute. reflexivity. Qed.

Example storage_examples :
  let c1 := exec (Storage.addInstance "0b7e-uuid" Samples.staging) Scenario.fresh in
  let c2 := exec (Storage.removeInstance "prom") c1 in
  result Storage.getInstances c1
  = Returned [Scenario.prom; with_new_id "0b7e-uuid" Samples.staging]
  ∧ result Storage.getActiveInstance c1 = Returned (Some Scenario.prom)
  ∧ result Storage.getActiveInstance c2
    = Returned (Some (with_new_id "0b7e-uuid" Samples.staging))
  ∧ result Storage.getActiveInstance (exec (Storage.setActiveInstance "gone") c1)
    = Returned None.
Proof. vm_compute. done. Qed.

Lemma active_instance_invariant_witness :
  active_valid (settings_of Scenario.fresh)
  ∧ active_valid (settings_of (exec (Storage.removeInstance "prom") Scenario.fresh))
  ∧ active_valid
      (settings_of (exec (Storage.addInstance "0b7e-uuid" Samples.staging)
                      Scenario.fresh))
  ∧ ∃ i, result Storage.getActiveInstance Scenario.fresh = Returned (Some i)
         ∧ Some (inst_id i) = activeInstanceId (settings_of Scenario.fresh).
Proof.
  assert (Hv : active_valid (settings_of Scenario.fresh)).
  { split; [done|]. exists Scenario.prom. split; [by left|done]. }
  destruct (active_instance_invariant Scenario.fresh Hv) as (Hadd & Hrem & Hget).
  split; [exact Hv|]. split; [apply Hrem|]. split; [by apply Hadd|].
  by apply Hget.
Defined.

Lemma pollAlerts_without_instance_witness :
  let w := Scenario.answering [Scenario.fp1] in
  result (pollAlerts w) Samples.unconfigured = Returned tt
  ∧ calls_of (pollAlerts w) Samples.unconfigured = [call_action_setBadgeText ""]
  ∧ badgeText (badge (exec (pollAlerts w) Samples.unconfigured)) = ""
  ∧ badgeBackgroundColor (badge (exec (pollAlerts w) Samples.unconfigured))
    = badgeBackgroundColor (badge Samples.unconfigured)
  ∧ badgeTextColor (badge (exec (pollAlerts w) Samples.unconfigured))
    = badgeTextColor (badge Samples.unconfigured)
  ∧ storage_local (exec (pollAlerts w) Samples.unconfigured)
    = storage_local Samples.unconfigured
  ∧ storage_sync_settings (exec (pollAlerts w) Samples.unconfigured)
    = storage_sync_settings Samples.unconfigured
  ∧ alarms (exec (pollAlerts w) Samples.unconfigured) = alarms Samples.unconfigured
  ∧ notifications_in (calls_of (pollAlerts w) Samples.unconfigured) = [].
Proof.
  apply (pollAlerts_without_instance (Scenario.answering [Scenario.fp1])
           Samples.unconfigured).
  vm_compute. reflexivity.
Defined.

Lemma pollAlerts_caches_witness :
  let w := Scenario.answering [Scenario.fp3] in
  result (Storage.getCachedAlerts "prom") (exec (pollAlerts w) Scenario.quiet)
  = Returned (Some ([Scenario.fp3], 1700000000000%Z))
  ∧ result (Storage.getCachedSilences "prom") (exec (pollAlerts w) Scenario.quiet)
    = Returned (Some ([], 1700000000250%Z)).
Proof.
  apply (pollAlerts_caches (Scenario.answering [Scenario.fp3]) Scenario.quiet
           Scenario.prom [Scenario.fp3]); vm_compute; reflexivity.
Defined.

Lemma no_repeated_notification_witness :
  let w1 := Scenario.answering [Scenario.fp1; Samples.fp2_muted] in
  let w2 := Scenario.answering [Scenario.fp1; Scenario.fp2] in
  notifications_in (calls_of (pollAlerts w2) (exec (pollAlerts w1) Scenario.polled)) = [].
Proof.
  apply (no_repeated_notification
           (Scenario.answering [Scenario.fp1; Samples.fp2_muted])
           (Scenario.answering [Scenario.fp1; Scenario.fp2])
           Scenario.polled Scenario.prom
           [Scenario.fp1; Samples.fp2_muted] [Scenario.fp1; Scenario.fp2]);
    try (vm_compute; reflexivity).
  intros a [<-|[<-|[]]] _; vm_compute; auto.
Defined.

Lemma silent_after_all_clear_witness :
  let w1 := Scenario.answering [] in
  let w2 := Scenario.answering Scenario.burst in
  result (Storage.getKnownFingerprints "prom") (exec (pollAlerts w1) Scenario.polled)
  = Returned []
  ∧ notifications_in (calls_of (pollAlerts w2) (exec (pollAlerts w1) Scenario.polled))
    = [].
Proof.
  apply (silent_after_all_clear (Scenario.answering [])
           (Scenario.answering Scenario.burst) Scenario.polled Scenario.prom);
    vm_compute; reflexivity.
Defined.

Lemma notifications_bounded_witness :
  let sent :=
    notifications_in
      (calls_of (checkForNewAlerts "prom" (Scenario.fp1 :: Scenario.burst))
         Scenario.polled) in
  length sent = 6%nat
  ∧ (length sent ≤ 6)%nat
  ∧ (length sent ≤ S (length (new_alerts ["fp1"; "fp2"]
                                (Scenario.fp1 :: Scenario.burst))))%nat.
Proof.
  split; [vm_compute; reflexivity|].
  destruct (notifications_bounded "prom" (Scenario.fp1 :: Scenario.burst)
              Scenario.polled ["fp1"; "fp2"]) as (H6 & Hn & _).
  { vm_compute; reflexivity. }
  split; [exact H6|exact Hn].
Defined.

Example updateInstance_example :
  let c1 := exec (Storage.addInstance "0b7e-uuid" Samples.staging) Scenario.fresh in
  let c2 :=
    exec (Storage.updateInstance "0b7e-uuid"
            (to_no_auth "0b7e-uuid" "Staging" "https://am.staging.example")) c1 in
  map (fun i => (inst_id i, authType i, password i)) (instances (settings_of c2))
  = [("prom", "none", None); ("0b7e-uuid", "none", Some "s3cret")]
  ∧ exec (Storage.updateInstance "missing"
            (to_no_auth "missing" "Nowhere" "http://nowhere.example")) c1
    = c1.
Proof. vm_compute. done. Qed.

Example clamp_pollInterval_examples :
  clamp_pollInterval (Some 5%Z) = 10%Z
  ∧ clamp_pollInterval (Some 45%Z) = 45%Z
  ∧ clamp_pollInterval (Some 1000%Z) = 300%Z
  ∧ clamp_pollInterval (Some 0%Z) = 30%Z
  ∧ clamp_pollInterval None = 30%Z.
Proof. vm_compute. done. Qed.
